(** * CreditRepair Pro: the analysis core, embedded in Rocq

    A shallow embedding of the Python sources

      - [backend/parsers/pdf_parser.py]            (module [PDFParser])
      - [backend/parsers/ocr_engine.py]            (module [OCREngine])
      - [backend/parsers/ocr_integration.py]       (module [OCRIntegration])
      - [backend/analyzers/error_detector.py]      (module [ErrorDetector])
      - [backend/dispute_engine/strategy_builder.py] (module [StrategyBuilder])
      - [backend/main.py], the analysis endpoint     (module [main])

    Conventions of the embedding.

      - A Python [str] is a [string]; a character is a code point below 256.
        Fixed texts that are only passed along (names, descriptions, guide
        and checklist lines) are written as they are in the source file.
      - A Python [int] is a [Z].  Monetary amounts, counters, impacts and
        priorities are Python ints.
      - A value read from a dict with [d.get(k, default)] is a [field]: the
        key may be missing, may hold [None], or may hold a value.
      - A function that can raise returns a [res]; [try/except] is a match
        on it.
      - A call of [datetime.utcnow()] is a parameter [now] of the function
        that makes the call. *)

From Stdlib Require Import ZArith QArith String Ascii List Lia Bool.
From Stdlib Require Import Floats.SpecFloat.
From stdpp Require Import base option list strings gmap pretty sorting.
From Equations Require Import Equations.

Open Scope string_scope.
Open Scope list_scope.
Open Scope Z_scope.

(** ** Python values *)

Module Py.

(** A dict entry as [dict.get] sees it. *)
Inductive field (A : Type) : Type :=
| Missing : field A            (* the key is not in the dict *)
| Null : field A               (* the key holds [None] *)
| Val (a : A) : field A.
Arguments Missing {A}.
Arguments Null {A}.
Arguments Val {A} a.

(** [d.get(k)]: [None] when the key is missing. *)
Definition get {A} (f : field A) : option A :=
  match f with Val a => Some a | _ => None end.

(** [d.get(k, default)]: the default replaces a missing key only. *)
Definition get_default {A} (f : field A) (d : A) : option A :=
  match f with Missing => Some d | Null => None | Val a => Some a end.

(** [d.get(k, 0) or 0] on an int entry. *)
Definition get_or_0 (f : field Z) : Z :=
  match f with Val z => z | _ => 0 end.

(** Truth value of [d.get(k)] on a bool entry. *)
Definition truthy_bool (f : field bool) : bool :=
  match f with Val b => b | _ => false end.

(** Truth value of a [str] entry: [None] and the empty string are false. *)
Definition truthy_str (o : option string) : bool :=
  match o with Some (String _ _) => true | _ => false end.

(** Exceptions carry the text that [str(e)] gives. *)
Inductive exn : Type :=
| AttributeError (msg : string)
| TypeError (msg : string)
| ValueError (msg : string)
| OverflowError (msg : string)
| Exception (msg : string).

Definition str_exn (e : exn) : string :=
  match e with
  | AttributeError m | TypeError m | ValueError m | OverflowError m
  | Exception m => m
  end.

Inductive res (A : Type) : Type :=
| Ok (a : A) : res A
| Raise (e : exn) : res A.
Arguments Ok {A} a.
Arguments Raise {A} e.

(** Sequencing: the first exception ends the computation. *)
Global Instance res_ret : MRet res := fun A a => Ok a.
Global Instance res_bind : MBind res := fun A B k m =>
  match m with Ok a => k a | Raise e => Raise e end.

Global Instance res_fmap : FMap res := fun A B f m =>
  match m with Ok a => Ok (f a) | Raise e => Raise e end.

(** A [for] loop whose body can raise. *)
Fixpoint mapM {A B} (f : A -> res B) (l : list A) : res (list B) :=
  match l with
  | [] => Ok []
  | a :: l' => b ← f a; bs ← mapM f l'; Ok (b :: bs)
  end.

(** *** [str] methods *)

(** [str.isspace] on one code point below 256. *)
Definition isspace (c : ascii) : bool :=
  let n := nat_of_ascii c in
  ((9 <=? n)%nat && (n <=? 13)%nat) || ((28 <=? n)%nat && (n <=? 32)%nat)
  || (n =? 133)%nat || (n =? 160)%nat.

Fixpoint lstrip (s : string) : string :=
  match s with
  | String c r => if isspace c then lstrip r else s
  | EmptyString => EmptyString
  end.

Fixpoint rstrip (s : string) : string :=
  match s with
  | String c r =>
      match rstrip r with
      | EmptyString => if isspace c then EmptyString else String c EmptyString
      | r' => String c r'
      end
  | EmptyString => EmptyString
  end.

(** [s.strip()] *)
Definition strip (s : string) : string := rstrip (lstrip s).

(** [str.lower] on one code point below 256: A-Z, and the upper-case
    letters of Latin-1 (0xC0-0xDE without the multiplication sign). *)
Definition lower_char (c : ascii) : ascii :=
  let n := nat_of_ascii c in
  if ((65 <=? n)%nat && (n <=? 90)%nat)
     || ((192 <=? n)%nat && (n <=? 222)%nat && negb (n =? 215)%nat)
  then ascii_of_nat (n + 32) else c.

Fixpoint lower (s : string) : string :=
  match s with
  | String c r => String (lower_char c) (lower r)
  | EmptyString => EmptyString
  end.

(** [s.startswith(p)] *)
Definition startswith (s p : string) : bool := String.prefix p s.

(** [sub in s] *)
Fixpoint contains (sub s : string) : bool :=
  String.prefix sub s
  || match s with String _ r => contains sub r | EmptyString => false end.

(** [s[n:]] and [s[:n]] for [n >= 0] *)
Fixpoint str_drop (n : nat) (s : string) : string :=
  match n, s with
  | S n', String _ r => str_drop n' r
  | _, _ => s
  end.

Fixpoint str_take (n : nat) (s : string) : string :=
  match n, s with
  | S n', String c r => String c (str_take n' r)
  | _, _ => EmptyString
  end.

(** [s[-n:]] for [n > 0] *)
Definition last_n (n : nat) (s : string) : string :=
  str_drop (String.length s - n) s.

(** [c * n] for a one-character string [c] *)
Fixpoint str_replicate (n : nat) (c : ascii) : string :=
  match n with
  | O => EmptyString
  | S n' => String c (str_replicate n' c)
  end.

(** [s.replace(old, new)] for a non-empty [old]: occurrences are replaced
    from the left and do not overlap.  [skip] counts the characters of a
    replaced occurrence that are still to be passed over. *)
Fixpoint replace_go (old new : string) (skip : nat) (s : string) : string :=
  match s with
  | EmptyString => EmptyString
  | String c r =>
      match skip with
      | S k => replace_go old new k r
      | O =>
          if String.prefix old s
          then new +:+ replace_go old new (String.length old - 1) r
          else String c (replace_go old new 0 r)
      end
  end.

Definition replace (old new s : string) : string := replace_go old new 0 s.

(** [s.split('\n')] *)
Fixpoint split_lines_go (cur : string) (s : string) : list string :=
  match s with
  | EmptyString => [String.rev cur]
  | String c r =>
      if Ascii.eqb c "010"%char
      then String.rev cur :: split_lines_go EmptyString r
      else split_lines_go (String c cur) r
  end.

Definition split_lines (s : string) : list string :=
  split_lines_go EmptyString s.

(** ['\n'.join(l)] *)
Definition join_lines (l : list string) : string :=
  String.concat (String "010"%char EmptyString) l.

(** [str(z)] and [repr(z)] of an int *)
Definition str_int (z : Z) : string := pretty z.

(** [repr(s)] of a [str]: single quotes, unless the text holds a single
    quote and no double quote; the quote, the backslash and the code
    points that are not printable are escaped. *)
Definition hex_digit (n : nat) : ascii :=
  ascii_of_nat (if (n <? 10)%nat then 48 + n else 87 + n).

Definition isprintable (c : ascii) : bool :=
  let n := nat_of_ascii c in
  ((32 <=? n)%nat && (n <? 127)%nat)
  || ((161 <=? n)%nat && negb (n =? 173)%nat).

Definition repr_char (quote c : ascii) : string :=
  let one x := String x EmptyString in
  if Ascii.eqb c quote || Ascii.eqb c "\"%char then String "\"%char (one c)
  else if Ascii.eqb c "009"%char then "\t"
  else if Ascii.eqb c "010"%char then "\n"
  else if Ascii.eqb c "013"%char then "\r"
  else if isprintable c then one c
  else
    let n := nat_of_ascii c in
    "\x" +:+ String (hex_digit (n / 16)) (one (hex_digit (n mod 16))).

Fixpoint repr_chars (quote : ascii) (s : string) : string :=
  match s with
  | EmptyString => EmptyString
  | String c r => repr_char quote c +:+ repr_chars quote r
  end.

Definition repr_str (s : string) : string :=
  let single := "039"%char in
  let double := "034"%char in
  let quote :=
    if contains (String single EmptyString) s
       && negb (contains (String double EmptyString) s)
    then double else single in
  String quote (repr_chars quote s) +:+ String quote EmptyString.

(** [sorted(l, key=...)] with a key that is a pair of ints: pairs compare
    lexicographically, and the sort is stable, so an element moves in front
    of exactly the earlier-sorted elements whose key is not smaller. *)
Definition key_le (a b : Z * Z) : bool :=
  (a.1 <? b.1) || ((a.1 =? b.1) && (a.2 <=? b.2)).

Fixpoint sorted_insert {A} (key : A -> Z * Z) (x : A) (l : list A) : list A :=
  match l with
  | [] => [x]
  | y :: l' =>
      if key_le (key x) (key y) then x :: y :: l'
      else y :: sorted_insert key x l'
  end.

Definition sorted {A} (key : A -> Z * Z) (l : list A) : list A :=
  foldr (sorted_insert key) [] l.

(** [l.append(a)] under a condition, as the list of what is appended *)
Definition when {A} (c : bool) (a : A) : list A := if c then [a] else [].

(** [for x in o]: [None] is not iterable. *)
Definition iter {A} (o : option (list A)) : res (list A) :=
  match o with
  | Some l => Ok l
  | None => Raise (TypeError "'NoneType' object is not iterable")
  end.

(** [repr] and [str] of a value that may be [None] *)
Definition repr_option {A} (repr : A -> string) (o : option A) : string :=
  match o with Some a => repr a | None => "None" end.

(** [repr(l)] of a list *)
Definition repr_list {A} (repr : A -> string) (l : list A) : string :=
  "[" +:+ String.concat ", " (map repr l) +:+ "]".

(** [s.count(sub)] for a non-empty [sub]: the occurrences are counted from
    the left and do not overlap.  [skip] counts the characters of a counted
    occurrence that are still to be passed over. *)
Fixpoint count_go (sub : string) (skip : nat) (s : string) : Z :=
  match s with
  | EmptyString => 0
  | String c r =>
      match skip with
      | S k => count_go sub k r
      | O =>
          if String.prefix sub s
          then 1 + count_go sub (String.length sub - 1) r
          else count_go sub 0 r
      end
  end.

Definition count (sub s : string) : Z := count_go sub 0 s.

(** [max(d, key=d.get)] continued from the item [best]: a later item
    replaces the best one only when its value is greater. *)
Fixpoint max_item (best : string * Z) (rest : list (string * Z))
    : string * Z :=
  match rest with
  | [] => best
  | item :: rest' => max_item (if best.2 <? item.2 then item else best) rest'
  end.

End Py.

Import Py.

(** ** The [datetime] module

    A [datetime] is a day of the proleptic Gregorian calendar, numbered
    from 1 for 0001-01-01 as [date.toordinal] does, and the microseconds
    since midnight.  The functions below follow [Lib/_pydatetime.py] and
    [Lib/_strptime.py] of CPython.  Additions of a [timedelta] are exact; the
    [OverflowError] that Python raises past the year 9999 is not part of
    the model. *)

Module datetime.

Record t : Type := mk { ordinal : Z; microsecond_of_day : Z }.

Definition _is_leap (year : Z) : bool :=
  (year mod 4 =? 0) && (negb (year mod 100 =? 0) || (year mod 400 =? 0)).

Definition _days_before_year (year : Z) : Z :=
  let y := year - 1 in y * 365 + y / 4 - y / 100 + y / 400.

Definition _DAYS_IN_MONTH (month : Z) : Z :=
  match month with
  | 1 => 31 | 2 => 28 | 3 => 31 | 4 => 30 | 5 => 31 | 6 => 30
  | 7 => 31 | 8 => 31 | 9 => 30 | 10 => 31 | 11 => 30 | 12 => 31
  | _ => -1
  end.

Definition _DAYS_BEFORE_MONTH (month : Z) : Z :=
  match month with
  | 1 => 0 | 2 => 31 | 3 => 59 | 4 => 90 | 5 => 120 | 6 => 151
  | 7 => 181 | 8 => 212 | 9 => 243 | 10 => 273 | 11 => 304 | 12 => 334
  | _ => -1
  end.

Definition _days_in_month (year month : Z) : Z :=
  if (month =? 2) && _is_leap year then 29 else _DAYS_IN_MONTH month.

Definition _days_before_month (year month : Z) : Z :=
  _DAYS_BEFORE_MONTH month
  + (if (2 <? month) && _is_leap year then 1 else 0).

Definition _ymd2ord (year month day : Z) : Z :=
  _days_before_year year + _days_before_month year month + day.

Definition _DI400Y : Z := 146097.
Definition _DI100Y : Z := 36524.
Definition _DI4Y : Z := 1461.

Definition _ord2ymd (n : Z) : Z * Z * Z :=
  let n := n - 1 in
  let n400 := n / _DI400Y in
  let n := n mod _DI400Y in
  let year := n400 * 400 + 1 in
  let n100 := n / _DI100Y in
  let n := n mod _DI100Y in
  let n4 := n / _DI4Y in
  let n := n mod _DI4Y in
  let n1 := n / 365 in
  let n := n mod 365 in
  let year := year + n100 * 100 + n4 * 4 + n1 in
  if (n1 =? 4) || (n100 =? 4) then (year - 1, 12, 31)
  else
    let leapyear := (n1 =? 3) && (negb (n4 =? 24) || (n100 =? 3)) in
    let month := Z.shiftr (n + 50) 5 in
    let preceding :=
      _DAYS_BEFORE_MONTH month
      + (if (2 <? month) && leapyear then 1 else 0) in
    if n <? preceding
    then
      let month := month - 1 in
      let preceding :=
        preceding
        - (_DAYS_IN_MONTH month
           + (if (month =? 2) && leapyear then 1 else 0)) in
      (year, month, n - preceding + 1)
    else (year, month, n - preceding + 1).

(** [datetime(year, month, day)]: midnight of that day; [None] stands for
    the [ValueError] of a date that does not exist. *)
Definition of_ymd (year month day : Z) : option t :=
  if (1 <=? year) && (year <=? 9999) && (1 <=? month) && (month <=? 12)
     && (1 <=? day) && (day <=? _days_in_month year month)
  then Some (mk (_ymd2ord year month day) 0)
  else None.

(** [d + timedelta(days=n)] and [d - timedelta(days=n)] *)
Definition add_days (d : t) (n : Z) : t :=
  mk (ordinal d + n) (microsecond_of_day d).

Definition sub_days (d : t) (n : Z) : t :=
  mk (ordinal d - n) (microsecond_of_day d).

(** [a < b] *)
Definition ltb (a b : t) : bool :=
  (ordinal a <? ordinal b)
  || ((ordinal a =? ordinal b)
      && (microsecond_of_day a <? microsecond_of_day b)).

(** *** [strptime]

    [strptime] compiles the format to a regular expression, matches it at
    the start of the text, and rejects text that the match leaves over.
    An alternation is tried in the order it is written, and a later
    alternative is taken when the rest of the expression fails after an
    earlier one. *)

Definition digit (c : ascii) : option Z :=
  let n := nat_of_ascii c in
  if (48 <=? n)%nat && (n <=? 57)%nat then Some (Z.of_nat n - 48) else None.

(** What one directive can match at the start of [s], in the order the
    regular expression tries: the value read and the text left. *)
Definition alternatives := list (Z * string).

(** [%m]: [1[0-2]|0[1-9]|[1-9]] *)
Definition directive_m (s : string) : alternatives :=
  match s with
  | String c1 r1 =>
      match digit c1 with
      | Some d1 =>
          ((match r1 with
            | String c2 r2 =>
                match digit c2 with
                | Some d2 =>
                    if ((d1 =? 1) && (d2 <=? 2)) || ((d1 =? 0) && (1 <=? d2))
                    then [(10 * d1 + d2, r2)] else []
                | None => []
                end
            | EmptyString => []
            end)
           ++ (if 1 <=? d1 then [(d1, r1)] else []))%list
      | None => []
      end
  | EmptyString => []
  end.

(** [%d]: [3[0-1]|[1-2]\d|0[1-9]|[1-9]| [1-9]] *)
Definition directive_d (s : string) : alternatives :=
  match s with
  | String c1 r1 =>
      match digit c1 with
      | Some d1 =>
          ((match r1 with
            | String c2 r2 =>
                match digit c2 with
                | Some d2 =>
                    if ((d1 =? 3) && (d2 <=? 1))
                       || ((1 <=? d1) && (d1 <=? 2))
                       || ((d1 =? 0) && (1 <=? d2))
                    then [(10 * d1 + d2, r2)] else []
                | None => []
                end
            | EmptyString => []
            end)
           ++ (if 1 <=? d1 then [(d1, r1)] else []))%list
      | None =>
          if Ascii.eqb c1 " "%char
          then match r1 with
               | String c2 r2 =>
                   match digit c2 with
                   | Some d2 => if 1 <=? d2 then [(d2, r2)] else []
                   | None => []
                   end
               | EmptyString => []
               end
          else []
      end
  | EmptyString => []
  end.

(** [%Y]: four digits *)
Definition directive_Y (s : string) : alternatives :=
  match s with
  | String c1 (String c2 (String c3 (String c4 r))) =>
      match digit c1, digit c2, digit c3, digit c4 with
      | Some d1, Some d2, Some d3, Some d4 =>
          [(1000 * d1 + 100 * d2 + 10 * d3 + d4, r)]
      | _, _, _, _ => []
      end
  | _ => []
  end.

(** The literal [/] of a format *)
Definition slash (s : string) : option string :=
  match s with
  | String c r => if Ascii.eqb c "/"%char then Some r else None
  | EmptyString => None
  end.

(** The first alternative after which the rest of the expression matches. *)
Fixpoint first_match {A} (alts : alternatives)
    (rest : Z -> string -> option A) : option A :=
  match alts with
  | [] => None
  | (v, s) :: alts' =>
      match rest v s with
      | Some a => Some a
      | None => first_match alts' rest
      end
  end.

(** The text must be used up by the match. *)
Definition no_data_remains {A} (a : A) (s : string) : option (option A) :=
  Some (match s with EmptyString => Some a | String _ _ => None end).

(** [datetime.strptime(s, "%m/%Y")]; [None] stands for [ValueError]. *)
Definition strptime_m_Y (s : string) : option t :=
  match
    first_match (directive_m s) (fun month s1 =>
      s2 ← slash s1;
      first_match (directive_Y s2) (fun year s3 =>
        no_data_remains (year, month) s3))
  with
  | Some (Some (year, month)) => of_ymd year month 1
  | _ => None
  end.

(** [datetime.strptime(s, "%m/%d/%Y")]; [None] stands for [ValueError]. *)
Definition strptime_m_d_Y (s : string) : option t :=
  match
    first_match (directive_m s) (fun month s1 =>
      s2 ← slash s1;
      first_match (directive_d s2) (fun day s3 =>
        s4 ← slash s3;
        first_match (directive_Y s4) (fun year s5 =>
          no_data_remains (year, month, day) s5)))
  with
  | Some (Some (year, month, day)) => of_ymd year month day
  | _ => None
  end.

(** *** [strftime("%Y-%m-%d")] *)

(** A number in at least [width] digits, zero-padded.  The year is printed
    in four digits; for the years from 1000 on this is what every platform
    prints. *)
Definition zero_padded (width : nat) (z : Z) : string :=
  let s := str_int z in
  str_replicate (width - String.length s) "0"%char +:+ s.

Definition strftime_Y_m_d (d : t) : string :=
  let '(year, month, day) := _ord2ymd (ordinal d) in
  zero_padded 4 year +:+ "-" +:+ zero_padded 2 month +:+ "-"
  +:+ zero_padded 2 day.

(** *** [isoformat()] *)

Definition isoformat (d : t) : string :=
  let '(year, month, day) := _ord2ymd (ordinal d) in
  let us := microsecond_of_day d in
  let second := us / 1000000 in
  zero_padded 4 year +:+ "-" +:+ zero_padded 2 month +:+ "-"
  +:+ zero_padded 2 day +:+ "T" +:+ zero_padded 2 (second / 3600) +:+ ":"
  +:+ zero_padded 2 (second / 60 mod 60) +:+ ":"
  +:+ zero_padded 2 (second mod 60)
  +:+ (if us mod 1000000 =? 0 then EmptyString
       else "." +:+ zero_padded 6 (us mod 1000000)).

End datetime.

(** ** PDFParser (backend/parsers/pdf_parser.py) *)

(** An account dict of [_extract_accounts]; [F] is the type of a [float]. *)
Module ParsedAccount.
Record t (F : Type) : Type := mk {
  creditor_name : string;
  account_number : string;
  account_type : string;
  current_balance : F;
  status : string
}.
Arguments mk {F}.
Arguments creditor_name {F}.
Arguments account_number {F}.
Arguments account_type {F}.
Arguments current_balance {F}.
Arguments status {F}.
End ParsedAccount.

Module PDFParser.

(** [_mask_account_number]: the argument is a table cell ([None] or text)
    or a group of a regular expression. *)
Definition _mask_account_number (account_num : option string) : string :=
  if negb (truthy_str account_num) then EmptyString
  else
    let account_num := strip (default EmptyString account_num) in
    if (4 <? String.length account_num)%nat
    then str_replicate (String.length account_num - 4) "X"%char
         +:+ last_n 4 account_num
    else account_num.

Section Extraction.

(** The [float] type with its constructor from text ([None] stands for
    [ValueError]), and [re.findall] of the account pattern on the text of
    a report: the four groups of every match. *)
Variable F : Type.
Variable float_of_str : string -> option F.
Variable float_zero : F.
Variable findall_account_blocks :
  string -> list (string * string * string * string).

Definition _parse_amount (amount_str : option string) : F :=
  if negb (truthy_str amount_str) then float_zero
  else
    default float_zero
      (float_of_str
         (strip (replace "$" EmptyString
                   (replace "," EmptyString
                      (default EmptyString amount_str))))).

(** A table of [pdfplumber]: rows of cells, a cell is text or [None]. *)
Definition table := list (list (option string)).

Definition accounts_of_row (row : list (option string))
    : list (ParsedAccount.t F) :=
  if bool_decide (3 <= length row)%nat
  then
    let account :=
      {| ParsedAccount.creditor_name :=
           if truthy_str (row !!! 0%nat) then default EmptyString (row !!! 0%nat)
           else EmptyString;
         ParsedAccount.account_number := _mask_account_number (row !!! 1%nat);
         ParsedAccount.account_type := EmptyString;
         ParsedAccount.current_balance := _parse_amount (row !!! 2%nat);
         ParsedAccount.status := EmptyString |} in
    when (truthy_str (Some (ParsedAccount.creditor_name account))) account
  else [].

Definition accounts_of_table (t : table) : list (ParsedAccount.t F) :=
  if bool_decide (1 < length t)%nat
  then concat (map accounts_of_row (drop 1 t))
  else [].

Definition _extract_accounts (text : string) (tables : list table)
    : list (ParsedAccount.t F) :=
  let accounts := concat (map accounts_of_table tables) in
  match accounts with
  | [] =>
      map (fun '(g1, g2, g3, g4) =>
             {| ParsedAccount.creditor_name := strip g1;
                ParsedAccount.account_number :=
                  _mask_account_number (Some g2);
                ParsedAccount.account_type := g3;
                ParsedAccount.current_balance := _parse_amount (Some g4);
                ParsedAccount.status := EmptyString |})
          (findall_account_blocks text)
  | _ => accounts
  end.

End Extraction.

End PDFParser.

(** ** OCREngine (backend/parsers/ocr_engine.py) *)

Module OCREngine.

(** The corrections, in the order of the dict *)
Definition corrections : list (string * string) :=
  [("Equlfax", "Equifax"); ("Equlfa", "Equifax"); ("Experlan", "Experian");
   ("Experian", "Experian"); ("TransUnlon", "TransUnion");
   ("TransUnon", "TransUnion"); ("credlt", "credit"); ("sc0re", "score");
   ("acc0unt", "account"); ("b4lance", "balance"); ("p4yment", "payment");
   ("h1story", "history"); ("negatlve", "negative");
   ("posltlve", "positive"); ("inquiry", "inquiry"); ("1nqu1ry", "inquiry");
   ("judgment", "judgment"); ("bankruptcy", "bankruptcy");
   ("c0llectlon", "collection"); ("charg3-off", "charge-off");
   ("ch4rge-off", "charge-off"); ("del1nquent", "delinquent");
   ("p4st due", "past due"); ("curr3nt", "current"); ("op3ned", "opened");
   ("cl0sed", "closed"); ("1lm1t", "limit"); ("h1gh", "high")].

Definition _post_process_text (text : string) : string :=
  let text :=
    fold_left (fun text '(wrong, correct) => replace wrong correct text)
              corrections text in
  let lines :=
    map strip
        (filter (fun line => truthy_str (Some (strip line)) = true)
                (split_lines text)) in
  join_lines lines.

Section Engine.

(** The libraries: [pdf2image.convert_from_path], [PIL.Image.open], and
    the preprocessing and recognition of one page ([_process_image] with
    its default strategy).  Each can raise. *)
Variable Image : Type.
Variable convert_from_path : string -> Z -> res (list Image).
Variable Image_open : string -> res Image.
Variable _process_image : Image -> res string.

(** The loop over the pages: [full_text] grows by a page marker and the
    text of the page. *)
Fixpoint pages_text (i : nat) (images : list Image) (full_text : string)
    : res string :=
  match images with
  | [] => Ok full_text
  | image :: images' =>
      page_text ← _process_image image;
      pages_text (S i) images'
        (full_text +:+ String "010"%char "--- Page "
           +:+ str_int (Z.of_nat i + 1) +:+ " ---"
           +:+ String "010"%char page_text)
  end.

(** The body of the [try] of [process_pdf] *)
Definition process_pdf_body (pdf_path : string) (dpi : Z) : res string :=
  images ← convert_from_path pdf_path dpi;
  full_text ← pages_text 0 images EmptyString;
  Ok (_post_process_text full_text).

Definition process_pdf (pdf_path : string) (dpi : Z) : string :=
  match process_pdf_body pdf_path dpi with
  | Ok text => text
  | Raise e => "OCR Error: " +:+ str_exn e
  end.

(** The body of the [try] of [process_image] *)
Definition process_image_body (image_path : string) : res string :=
  image ← Image_open image_path;
  text ← _process_image image;
  Ok (_post_process_text text).

Definition process_image (image_path : string) : string :=
  match process_image_body image_path with
  | Ok text => text
  | Raise e => "OCR Error: " +:+ str_exn e
  end.

End Engine.

End OCREngine.

(** ** OCRIntegration (backend/parsers/ocr_integration.py) *)

Module PersonalInfo.
Record t : Type := mk {
  name : option string;
  address : option string;
  ssn_last_four : option string;
  date_of_birth : option string
}.
End PersonalInfo.

(** The dict of an extraction: what a [_parse_*] method of the parser
    returns, and what [process_credit_report] builds from recognised text. *)
Module ReportDict.
Record t (A : Type) : Type := mk {
  format : string;
  bureau : string;
  personal_info : PersonalInfo.t;
  scores : list (string * option Z);
  accounts : list A;
  inquiries : list (string * string * string);
  public_records : list (string * string * string);
  raw_text : string;
  ocr_processed : bool;
  file_path : string
}.
Arguments mk {A}.
Arguments personal_info {A}.
Arguments scores {A}.
Arguments accounts {A}.
End ReportDict.

(** What [parse_report] returns: the dict of an extraction, or the dict
    with the key ["error"]. *)
Module PdfData.
Inductive t (A : Type) : Type :=
| parsed (d : ReportDict.t A)
| error (msg : string) (file_path : string).
Arguments parsed {A}.
Arguments error {A}.
End PdfData.

(** The result of [process_credit_report]: [data] is [None] for the empty
    dict. *)
Module ProcessResult.
Record t (A : Type) : Type := mk {
  file_path : string;
  bureau : string;
  success : bool;
  data : option (ReportDict.t A);
  errors : list string;
  method_used : option string
}.
Arguments mk {A}.
Arguments success {A}.
Arguments data {A}.
Arguments errors {A}.
Arguments method_used {A}.
End ProcessResult.

Module OCRIntegration.

Section Integration.

(** The collaborators: the parser ([parse_report] catches what it raises
    and returns the error dict), its extraction methods on recognised
    text (each can raise), and [OCREngine.process_pdf] with its default
    resolution. *)
Variable A : Type.
Variable parse_report : string -> option string -> PdfData.t A.
Variable process_pdf : string -> string.
Variable _detect_bureau : string -> res string.
Variable _extract_personal_info : string -> res PersonalInfo.t.
Variable _extract_accounts : string -> res (list A).
Variable _extract_inquiries : string -> res (list (string * string * string)).
Variable _extract_public_records :
  string -> res (list (string * string * string)).
Variable _extract_score : string -> string -> res (option Z).

(** Truth value of the dict [personal_info] *)
Definition truthy_info (i : PersonalInfo.t) : bool :=
  match i with
  | PersonalInfo.mk None None None None => false
  | _ => true
  end.

(** Truth value of a score *)
Definition truthy_score (o : option Z) : bool :=
  match o with Some z => negb (z =? 0) | None => false end.

Definition has_meaningful_data (pdf_data : PdfData.t A) : bool :=
  match pdf_data with
  | PdfData.parsed d =>
      truthy_info (ReportDict.personal_info d)
      || existsb (fun '(_, v) => truthy_score v) (ReportDict.scores d)
      || bool_decide (0 < length (ReportDict.accounts d))%nat
  | PdfData.error _ _ => false
  end.

(** The part of the [try] that parses the recognised text *)
Definition parse_ocr_text (file_path : string) (ocr_text : string)
    : res (ReportDict.t A) :=
  bureau_detected ← _detect_bureau ocr_text;
  personal_info ← _extract_personal_info ocr_text;
  accounts ← _extract_accounts ocr_text;
  inquiries ← _extract_inquiries ocr_text;
  records ← _extract_public_records ocr_text;
  equifax ← _extract_score ocr_text "equifax";
  experian ← _extract_score ocr_text "experian";
  transunion ← _extract_score ocr_text "transunion";
  Ok {| ReportDict.format := "OCR_Extracted";
        ReportDict.bureau := bureau_detected;
        ReportDict.personal_info := personal_info;
        ReportDict.scores :=
          [("equifax", equifax); ("experian", experian);
           ("transunion", transunion)];
        ReportDict.accounts := accounts;
        ReportDict.inquiries := inquiries;
        ReportDict.public_records := records;
        ReportDict.raw_text := str_take (Z.to_nat 50000) ocr_text;
        ReportDict.ocr_processed := true;
        ReportDict.file_path := file_path |}.

Definition process_credit_report (file_path : string)
    (bureau : option string) : ProcessResult.t A :=
  let result errors :=
    {| ProcessResult.file_path := file_path;
       ProcessResult.bureau :=
         if truthy_str bureau then default EmptyString bureau
         else "unknown";
       ProcessResult.success := false;
       ProcessResult.data := None;
       ProcessResult.errors := errors;
       ProcessResult.method_used := None |} in
  let succeed data method :=
    {| ProcessResult.file_path := file_path;
       ProcessResult.bureau :=
         if truthy_str bureau then default EmptyString bureau
         else "unknown";
       ProcessResult.success := true;
       ProcessResult.data := Some data;
       ProcessResult.errors := [];
       ProcessResult.method_used := Some method |} in
  let pdf_data := parse_report file_path bureau in
  let direct :=
    if has_meaningful_data pdf_data
    then match pdf_data with
         | PdfData.parsed d => Some d       (* no key "error" *)
         | PdfData.error _ _ => None
         end
    else None in
  match direct with
  | Some d => succeed d "pdf_parser"
  | None =>
      let ocr_text := process_pdf file_path in
      if negb (startswith ocr_text "OCR Error")
      then
        match parse_ocr_text file_path ocr_text with
        | Ok data => succeed data "ocr"
        | Raise e => result [str_exn e]
        end
      else result ["Both PDF parsing and OCR failed"]
  end.

End Integration.

End OCRIntegration.

(** ** The data model: the dicts that the analysis reads and builds *)

(** An account record, with the keys that the analysis reads. *)
Module Account.
Record t : Type := mk {
  creditor_name : field string;
  account_number : field string;
  account_type : field string;
  account_status : field string;
  current_balance : field Z;
  credit_limit : field Z;
  late_30_count : field Z;
  late_60_count : field Z;
  late_90_count : field Z;
  is_negative : field bool;
  is_collection : field bool;
  is_charge_off : field bool;
  is_authorized_user : field bool;
  date_opened : field string
}.
End Account.

Module Inquiry.
Record t : Type := mk {
  creditor_name : field string;
  inquiry_date : field string;
  type : field string
}.
End Inquiry.

Module PublicRecord.
Record t : Type := mk {
  type : field string;
  details : field string;
  status : field string
}.
End PublicRecord.

(** [report_data["parsed_data"]] *)
Module ParsedData.
Record t : Type := mk {
  inquiries : field (list Inquiry.t);
  public_records : field (list PublicRecord.t)
}.
End ParsedData.

(** The argument of [analyze_report] *)
Module ReportData.
Record t : Type := mk {
  accounts : field (list Account.t);
  parsed_data : field ParsedData.t
}.
End ReportData.

(** The account reference inside an error: [account.get(k)] of three keys *)
Module AccountRef.
Record t : Type := mk {
  creditor_name : option string;
  account_number : option string;
  account_type : option string
}.
End AccountRef.

(** An error dict (a violation).  A key that is [None] here is not in the
    dict: the errors of [_check_inquiries] and [_check_public_records] have
    fewer keys than those of [_create_error]. *)
Module Violation.
Record t : Type := mk {
  type : option string;
  name : option string;
  description : option string;
  account : option AccountRef.t;
  severity : option string;
  fcra_section : option string;
  estimated_impact : option Z;
  dispute_strategy : option string;
  priority : option Z;
  inquiry : option Inquiry.t;
  record : option PublicRecord.t
}.
End Violation.

Module Discrepancy.
Record t : Type := mk {
  type : string;
  account_number : string;
  description : string;
  severity : string;
  fcra_section : string
}.
End Discrepancy.

Module Recommendation.
Record t : Type := mk {
  rank : Z;
  error_type : option string;
  creditor : option string;
  strategy : option string;
  priority : option Z;
  estimated_impact : option Z;
  legal_basis : string
}.
End Recommendation.

(** The result of [analyze_report] *)
Module Analysis.
Record t : Type := mk {
  total_errors : Z;
  total_discrepancies : Z;
  total_estimated_impact : Z;
  errors : list Violation.t;
  discrepancies : list Discrepancy.t;
  error_summary : gmap string Z;
  priority_ranking : list Violation.t;
  recommended_disputes : list Recommendation.t
}.
End Analysis.

(** ** ErrorDetector (backend/analyzers/error_detector.py) *)

Module ErrorDetector.

Record ErrorInfo : Type := mkInfo {
  info_name : string;
  info_severity : string;
  info_fcra_section : string;
  info_description : string;
  info_estimated_impact : Z
}.

Definition ERROR_TYPES : gmap string ErrorInfo :=
  list_to_map [
    ("outdated_negative",
     mkInfo "Outdated Negative (7+ Years)" "high" "605(a)(1)"
            "Negative items older than 7 years" 15);
    ("outdated_inquiry",
     mkInfo "Outdated Hard Inquiry (2+ Years)" "medium" "605(a)(3)"
            "Hard inquiries older than 2 years" 5);
    ("outdated_bankruptcy",
     mkInfo "Outdated Bankruptcy (10+ Years)" "high" "605(a)(1)"
            "Bankruptcy older than 10 years" 50);
    ("balance_exceeds_limit",
     mkInfo "Balance Exceeds Credit Limit" "high" "623(a)(1)"
            "Current balance exceeds stated credit limit" 10);
    ("missing_credit_limit",
     mkInfo "Missing Credit Limit" "medium" "609(a)(1)"
            "Account lacks credit limit information" 5);
    ("duplicate_account",
     mkInfo "Duplicate Account" "high" "623(a)(1)"
            "Same account reported multiple times" 15);
    ("impossible_late_pattern",
     mkInfo "Impossible Late Payment Pattern" "high" "623(a)(1)"
            "90+ day late without 30/60 day lates" 20);
    ("contradictory_status",
     mkInfo "Contradictory Account Status" "high" "623(a)(1)"
            "Account status contradicts other data" 15);
    ("paid_collection",
     mkInfo "Paid Collection Still Reporting" "medium" "623(a)(1)"
            "Collection account still shows balance after payment" 10);
    ("medical_collection_ncap",
     mkInfo "Medical Collection (NCAP Eligible)" "medium" "NCAP 2022"
            "Paid medical collection eligible for removal" 15);
    ("tax_lien_ncap",
     mkInfo "Tax Lien (NCAP Eligible - 2018+)" "high" "NCAP 2018"
            "Tax lien eligible for removal under NCAP" 30);
    ("charge_off_balance_growth",
     mkInfo "Charge-Off Balance Increasing" "high" "623(a)(1)"
            "Balance increasing after charge-off" 15);
    ("closed_with_balance",
     mkInfo "Closed Account with Balance" "high" "623(a)(1)"
            "Closed account showing non-zero balance" 15);
    ("future_date",
     mkInfo "Future Date Listed" "high" "623(a)(1)"
            "Date in the future" 10);
    ("missing_date",
     mkInfo "Missing Critical Date" "medium" "609(a)(1)"
            "Required date information missing" 5);
    ("re_aging",
     mkInfo "Account Re-Aging" "high" "623(a)(5)"
            "Date of first delinquency changed illegally" 25);
    ("authorized_user_negative",
     mkInfo "Authorized User Account Negative" "medium" "605(a)(1)"
            "Negative authorized user account" 10);
    ("settled_with_balance",
     mkInfo "Settled Account with Balance" "high" "623(a)(1)"
            "Settled account showing remaining balance" 15);
    ("unauthorized_inquiry",
     mkInfo "Unauthorized Hard Inquiry" "medium" "604(a)(3)"
            "Hard inquiry without permissible purpose" 5);
    ("cross_bureau_discrepancy",
     mkInfo "Cross-Bureau Discrepancy" "high" "623(a)(1)"
            "Same account shows different data across bureaus" 15);
    ("not_my_account",
     mkInfo "Account Not Mine" "high" "605B"
            "Account does not belong to consumer" 20);
    ("identity_theft",
     mkInfo "Identity Theft / Fraud" "critical" "605B"
            "Fraudulent account opened without authorization" 50);
    ("mixed_file",
     mkInfo "Mixed Credit File" "high" "607(b)"
            "Another person's data on your report" 30)
  ].

Definition _get_strategy_for_error (error_type : string) : string :=
  let strategies : gmap string string :=
    list_to_map [
      ("outdated_negative", "fcra_violation");
      ("outdated_inquiry", "fcra_violation");
      ("balance_exceeds_limit", "factual_dispute");
      ("duplicate_account", "not_my_account");
      ("impossible_late_pattern", "fcra_violation");
      ("paid_collection", "collection_validation");
      ("medical_collection_ncap", "collection_validation");
      ("closed_with_balance", "factual_dispute");
      ("unauthorized_inquiry", "fcra_violation");
      ("identity_theft", "section_605b")
    ] in
  default "factual_dispute" (strategies !! error_type).

Definition _severity_to_priority (severity : string) : Z :=
  let mapping : gmap string Z :=
    list_to_map [("critical", 1); ("high", 2); ("medium", 3); ("low", 4)] in
  default 3 (mapping !! severity).

Definition _create_error (error_type : string) (account : Account.t)
    (description : string) : Violation.t :=
  let error_info := ERROR_TYPES !! error_type in
  let severity := default "medium" (info_severity <$> error_info) in
  {| Violation.type := Some error_type;
     Violation.name := Some (default error_type (info_name <$> error_info));
     Violation.description := Some description;
     Violation.account := Some
       {| AccountRef.creditor_name := get (Account.creditor_name account);
          AccountRef.account_number := get (Account.account_number account);
          AccountRef.account_type := get (Account.account_type account) |};
     Violation.severity := Some severity;
     Violation.fcra_section :=
       Some (default "623(a)(1)" (info_fcra_section <$> error_info));
     Violation.estimated_impact :=
       Some (default 10 (info_estimated_impact <$> error_info));
     Violation.dispute_strategy := Some (_get_strategy_for_error error_type);
     Violation.priority := Some (_severity_to_priority severity);
     Violation.inquiry := None;
     Violation.record := None |}.

(** [account.get(k, "").lower()]: [None] has no [lower]. *)
Definition get_lower (f : field string) : res string :=
  match get_default f EmptyString with
  | Some s => Ok (lower s)
  | None =>
      Raise (AttributeError "'NoneType' object has no attribute 'lower'")
  end.

Definition _analyze_account (account : Account.t) : res (list Violation.t) :=
  let balance := get_or_0 (Account.current_balance account) in
  let limit := get_or_0 (Account.credit_limit account) in
  (* balance against limit *)
  let errors :=
    when ((0 <? limit) && (limit <? balance))
      (_create_error "balance_exceeds_limit" account
         ("Balance ($" +:+ str_int balance +:+ ") exceeds limit ($"
          +:+ str_int limit +:+ ")")) in
  (* missing limit on an open account *)
  status ← get_lower (Account.account_status account);
  missing ←
    (if String.eqb status "open" && (limit =? 0)
     then
       account_type ← get_lower (Account.account_type account);
       Ok (when (bool_decide (account_type ∈ ["credit card"; "revolving"]))
             (_create_error "missing_credit_limit" account
                "Credit limit not reported"))
     else Ok []);
  let errors := errors ++ missing in
  (* impossible late pattern *)
  let late_30 := get_or_0 (Account.late_30_count account) in
  let late_60 := get_or_0 (Account.late_60_count account) in
  let late_90 := get_or_0 (Account.late_90_count account) in
  let errors :=
    errors ++
    when ((0 <? late_90) && ((late_30 =? 0) || (late_60 =? 0)))
      (_create_error "impossible_late_pattern" account
         "90+ day late without corresponding 30/60 day lates") in
  (* closed with balance *)
  status ← get_lower (Account.account_status account);
  let errors :=
    errors ++
    when ((contains "closed" status || contains "paid" status)
          && (0 <? balance)
          && negb (truthy_bool (Account.is_collection account)))
      (_create_error "closed_with_balance" account
         ("Closed/paid account shows $" +:+ str_int balance +:+ " balance")) in
  (* charge-off balance growth: nothing is checked *)
  (* medical collections *)
  medical ←
    (if truthy_bool (Account.is_collection account)
     then
       creditor ← get_lower (Account.creditor_name account);
       Ok (when (existsb (fun term => contains term creditor)
                   ["medical"; "hospital"; "clinic"; "health"])
             (_create_error "medical_collection_ncap" account
                "Medical collection - may be eligible for NCAP removal"))
     else Ok []);
  let errors := errors ++ medical in
  (* authorized user with negatives *)
  let errors :=
    errors ++
    when (truthy_bool (Account.is_authorized_user account)
          && truthy_bool (Account.is_negative account))
      (_create_error "authorized_user_negative" account
         "Authorized user account showing negative history") in
  Ok errors.

(** The dict [by_account]: the keys in the order of their first insertion,
    each with the list of its records. *)
Fixpoint by_account_append (by_account : list (string * list Account.t))
    (acct_num : string) (account : Account.t)
    : list (string * list Account.t) :=
  match by_account with
  | [] => [(acct_num, [account])]
  | (k, l) :: rest =>
      if String.eqb k acct_num then (k, l ++ [account]) :: rest
      else (k, l) :: by_account_append rest acct_num account
  end.

Definition group_by_account (accounts : list Account.t)
    : list (string * list Account.t) :=
  fold_left
    (fun by_account account =>
       match get_default (Account.account_number account) EmptyString with
       | Some (String c r) => by_account_append by_account (String c r) account
       | _ => by_account
       end)
    accounts [].

(** [len(set(l)) > 1] *)
Definition varies `{Countable A} (l : list A) : bool :=
  bool_decide (1 < size (list_to_set l : gset A))%nat.

Definition group_discrepancies (acct_num : string) (acct_list : list Account.t)
    : list Discrepancy.t :=
  if bool_decide (1 < length acct_list)%nat
  then
    let balances :=
      map (fun a => get_default (Account.current_balance a) 0) acct_list in
    let statuses :=
      map (fun a => get_default (Account.account_status a) EmptyString)
          acct_list in
    when (varies balances)
      {| Discrepancy.type := "cross_bureau_discrepancy";
         Discrepancy.account_number := acct_num;
         Discrepancy.description :=
           "Balance varies across bureaus: "
           +:+ repr_list (repr_option str_int) balances;
         Discrepancy.severity := "high";
         Discrepancy.fcra_section := "623(a)(1)" |}
    ++
    when (varies statuses)
      {| Discrepancy.type := "cross_bureau_discrepancy";
         Discrepancy.account_number := acct_num;
         Discrepancy.description :=
           "Status varies across bureaus: "
           +:+ repr_list (repr_option repr_str) statuses;
         Discrepancy.severity := "high";
         Discrepancy.fcra_section := "623(a)(1)" |}
  else [].

Definition _check_cross_bureau_discrepancies (accounts : list Account.t)
    : list Discrepancy.t :=
  concat (map (fun '(acct_num, acct_list) =>
                 group_discrepancies acct_num acct_list)
              (group_by_account accounts)).

(** [now] is what [datetime.utcnow()] returns in this call. *)
Definition _check_outdated_items (now : datetime.t)
    (accounts : list Account.t) : list Violation.t :=
  let seven_years_ago := datetime.sub_days now (7 * 365) in
  concat (map (fun account =>
    let date_opened :=
      get_default (Account.date_opened account) EmptyString in
    if truthy_bool (Account.is_negative account) && truthy_str date_opened
    then
      match datetime.strptime_m_Y (default EmptyString date_opened) with
      | Some opened_date =>
          when (datetime.ltb opened_date seven_years_ago)
            (_create_error "outdated_negative" account
               ("Negative item older than 7 years (opened "
                +:+ default EmptyString date_opened +:+ ")"))
      | None => []
      end
    else []) accounts).

(** [now] is what [datetime.utcnow()] returns in this call. *)
Definition _check_inquiries (now : datetime.t) (inquiries : list Inquiry.t)
    : list Violation.t :=
  let two_years_ago := datetime.sub_days now (2 * 365) in
  concat (map (fun inquiry =>
    if bool_decide (get (Inquiry.type inquiry) = Some "hard")
    then
      let inquiry_date :=
        get_default (Inquiry.inquiry_date inquiry) EmptyString in
      if truthy_str inquiry_date
      then
        match datetime.strptime_m_d_Y (default EmptyString inquiry_date) with
        | Some date =>
            when (datetime.ltb date two_years_ago)
              {| Violation.type := Some "outdated_inquiry";
                 Violation.name := None;
                 Violation.description :=
                   Some ("Hard inquiry from "
                         +:+ default EmptyString inquiry_date
                         +:+ " exceeds 2-year limit");
                 Violation.account := None;
                 Violation.severity := Some "medium";
                 Violation.fcra_section := Some "605(a)(3)";
                 Violation.estimated_impact := Some 5;
                 Violation.dispute_strategy := None;
                 Violation.priority := None;
                 Violation.inquiry := Some inquiry;
                 Violation.record := None |}
        | None => []
        end
      else []
    else []) inquiries).

Definition _check_public_records (records : list PublicRecord.t)
    : list Violation.t :=
  concat (map (fun record =>
    when (bool_decide (get (PublicRecord.type record) = Some "tax_lien"))
      {| Violation.type := Some "tax_lien_ncap";
         Violation.name := None;
         Violation.description :=
           Some "Tax lien may be eligible for NCAP removal";
         Violation.account := None;
         Violation.severity := Some "high";
         Violation.fcra_section := Some "NCAP 2018";
         Violation.estimated_impact := Some 30;
         Violation.dispute_strategy := None;
         Violation.priority := None;
         Violation.inquiry := None;
         Violation.record := Some record |}) records).

Definition _summarize_errors (errors : list Violation.t) : gmap string Z :=
  fold_left
    (fun (summary : gmap string Z) error =>
       let sev := default "low" (Violation.severity error) in
       <[sev := default 0 (summary !! sev) + 1]> summary)
    errors
    (list_to_map [("critical", 0); ("high", 0); ("medium", 0); ("low", 0)]).

(** The sort key [(priority, -estimated_impact)] *)
Definition priority_key (x : Violation.t) : Z * Z :=
  (default 5 (Violation.priority x),
   - default 0 (Violation.estimated_impact x)).

Definition _rank_by_priority (errors : list Violation.t) : list Violation.t :=
  sorted priority_key errors.

Definition _generate_dispute_recommendations (errors : list Violation.t)
    : list Recommendation.t :=
  let ranked := _rank_by_priority errors in
  imap (fun i error =>
          {| Recommendation.rank := Z.of_nat i + 1;
             Recommendation.error_type := Violation.type error;
             Recommendation.creditor :=
               a ← Violation.account error; AccountRef.creditor_name a;
             Recommendation.strategy := Violation.dispute_strategy error;
             Recommendation.priority := Violation.priority error;
             Recommendation.estimated_impact :=
               Violation.estimated_impact error;
             Recommendation.legal_basis :=
               "FCRA " +:+ String "167"%char
                 (" " +:+ repr_option id (Violation.fcra_section error)) |})
       (take 15 ranked).

(** [sum(e.get("estimated_impact", 0) for e in errors)] *)
Definition sum_impact (errors : list Violation.t) : Z :=
  foldr (fun e acc => default 0 (Violation.estimated_impact e) + acc) 0 errors.

(** [analyze_report].  The clock is read twice, in [_check_outdated_items]
    and in [_check_inquiries]: [now_outdated] and [now_inquiries] are the
    two readings. *)
Definition analyze_report (now_outdated now_inquiries : datetime.t)
    (report_data : ReportData.t) : res Analysis.t :=
  let accounts := get_default (ReportData.accounts report_data) [] in
  let parsed_data :=
    get_default (ReportData.parsed_data report_data)
      (ParsedData.mk Missing Missing) in
  accounts ← iter accounts;
  account_errors ← mapM _analyze_account accounts;
  let errors := concat account_errors in
  let discrepancies := _check_cross_bureau_discrepancies accounts in
  let errors := errors ++ _check_outdated_items now_outdated accounts in
  parsed_data ←
    match parsed_data with
    | Some d => Ok d
    | None =>
        Raise (AttributeError "'NoneType' object has no attribute 'get'")
    end;
  inquiries ← iter (get_default (ParsedData.inquiries parsed_data) []);
  let errors := errors ++ _check_inquiries now_inquiries inquiries in
  records ← iter (get_default (ParsedData.public_records parsed_data) []);
  let errors := errors ++ _check_public_records records in
  let total_impact := sum_impact errors in
  Ok {| Analysis.total_errors := Z.of_nat (length errors);
        Analysis.total_discrepancies := Z.of_nat (length discrepancies);
        Analysis.total_estimated_impact := total_impact;
        Analysis.errors := errors;
        Analysis.discrepancies := discrepancies;
        Analysis.error_summary := _summarize_errors errors;
        Analysis.priority_ranking := _rank_by_priority errors;
        Analysis.recommended_disputes :=
          _generate_dispute_recommendations errors |}.

End ErrorDetector.

(** ** The [float] type: IEEE 754 binary64, as [SpecFloat] specifies it *)

Module float.

Definition prec : Z := 53.
Definition emax : Z := 1024.

(** [float(z)] of an int, rounded to nearest-even *)
Definition of_int (z : Z) : spec_float :=
  binary_normalize prec emax z 0 false.

Definition mul (x y : spec_float) : spec_float := SFmul prec emax x y.

(** The literals [1.0], [0.6] and [0.3] *)
Definition lit_1_0 : spec_float := S754_finite false 4503599627370496 (-52).
Definition lit_0_6 : spec_float := S754_finite false 5404319552844595 (-53).
Definition lit_0_3 : spec_float := S754_finite false 5404319552844595 (-54).

(** [int(x)]: truncation towards zero *)
Definition to_int (x : spec_float) : res Z :=
  match x with
  | S754_zero _ => Ok 0
  | S754_finite s m e =>
      let magnitude :=
        if 0 <=? e then Z.pos m * 2 ^ e else Z.pos m / 2 ^ (- e) in
      Ok (if s then - magnitude else magnitude)
  | S754_infinity _ =>
      Raise (OverflowError "cannot convert float infinity to integer")
  | S754_nan => Raise (ValueError "cannot convert float NaN to integer")
  end.

(** [int(z * x)] for an int [z] and a float [x] *)
Definition int_mul (z : Z) (x : spec_float) : res Z :=
  match of_int z with
  | S754_infinity _ =>
      Raise (OverflowError "int too large to convert to float")
  | fz => to_int (mul fz x)
  end.

End float.

(** ** The data model of the strategy *)

Module Client.
Record t : Type := mk { id : field Z; full_name : field string }.
End Client.

Module StrategyDetails.
Record t : Type := mk {
  name : string;
  description : string;
  timeline_days : Z;
  success_rate : Q;
  intensity : string
}.
End StrategyDetails.

(** One scheduled item of a round *)
Module Item.
Record t : Type := mk {
  error : Violation.t;
  strategy : StrategyDetails.t;
  letter_type : string;
  legal_basis : string
}.
End Item.

Module Round.
Record t : Type := mk {
  round_number : Z;
  equifax : list Item.t;
  experian : list Item.t;
  transunion : list Item.t
}.
End Round.

Module TimelineEntry.
Record t : Type := mk {
  round : Z;
  send_date : string;
  response_deadline : string;
  follow_up_date : string;
  bureaus : list string
}.
End TimelineEntry.

Module Estimates.
Record t : Type := mk { best : Z; realistic : Z; conservative : Z }.
End Estimates.

Module Guide.
Record t : Type := mk {
  preparation : list string;
  sending : list string;
  waiting : list string;
  response : list string;
  follow_up : list string
}.
End Guide.

(** [settings.BUREAU_INFO] (backend/config.py) *)
Module BureauInfo.
Record t : Type := mk {
  name : string;
  address : string;
  city_state_zip : string;
  phone : string;
  fax : string;
  website : string;
  online_dispute : string
}.
End BureauInfo.

Module settings.
Definition BUREAU_INFO : list (string * BureauInfo.t) :=
  [("equifax",
    BureauInfo.mk "Equifax Information Services LLC" "P.O. Box 740256"
      "Atlanta, GA 30374-0256" "1-800-685-1111" "1-866-795-5599"
      "www.equifax.com" "https://www.equifax.com/personal/disputes/");
   ("experian",
    BureauInfo.mk "Experian" "P.O. Box 4500" "Allen, TX 75013"
      "1-888-397-3742" "1-972-390-3630" "www.experian.com"
      "https://www.experian.com/disputes/main.html");
   ("transunion",
    BureauInfo.mk "TransUnion LLC" "P.O. Box 2000" "Chester, PA 19016"
      "1-800-916-8800" "1-610-546-4603" "www.transunion.com"
      "https://www.transunion.com/credit-disputes")].
End settings.

(** The result of [build_strategy] *)
Module Strategy.
Record t : Type := mk {
  client_id : option Z;
  current_round : Z;
  total_rounds : Z;
  rounds : list Round.t;
  timeline : list TimelineEntry.t;
  guide : Guide.t;
  estimated_improvement : Estimates.t;
  preparation_checklist : list string;
  tips_and_warnings : list string;
  bureau_addresses : list (string * BureauInfo.t)
}.
End Strategy.

(** ** StrategyBuilder (backend/dispute_engine/strategy_builder.py) *)

Module StrategyBuilder.

(** [self.strategies] *)
Definition strategies : gmap string StrategyDetails.t :=
  list_to_map [
    ("factual_dispute",
     StrategyDetails.mk "Factual Dispute"
       "Direct dispute of factual inaccuracies" 30 (Qmake 65 100) "standard");
    ("section_609",
     StrategyDetails.mk "Section 609 Verification"
       "Request verification under FCRA § 609" 30 (Qmake 75 100) "standard");
    ("section_605b",
     StrategyDetails.mk "Section 605B Identity Theft Block"
       "Block fraudulent accounts under FCRA § 605B" 4 (Qmake 90 100)
       "urgent");
    ("debt_validation",
     StrategyDetails.mk "Debt Validation Request"
       "Request validation under FDCPA § 809" 30 (Qmake 70 100) "firm");
    ("goodwill_adjustment",
     StrategyDetails.mk "Goodwill Adjustment"
       "Request goodwill deletion" 14 (Qmake 40 100) "polite");
    ("fcra_violation",
     StrategyDetails.mk "FCRA Violation Challenge"
       "Challenge based on FCRA violations" 30 (Qmake 80 100) "aggressive");
    ("method_of_verification",
     StrategyDetails.mk "Method of Verification Request"
       "Request verification method under FCRA § 611(a)(7)" 15
       (Qmake 60 100) "firm")
  ].

(** [self.strategies["factual_dispute"]] *)
Definition factual_dispute : StrategyDetails.t :=
  StrategyDetails.mk "Factual Dispute"
    "Direct dispute of factual inaccuracies" 30 (Qmake 65 100) "standard".

Definition _get_strategy_details (strategy_key : string) : StrategyDetails.t :=
  default factual_dispute (strategies !! strategy_key).

Definition _get_letter_type (error : Violation.t) : string :=
  let strategy :=
    default "factual_dispute" (Violation.dispute_strategy error) in
  let error_type := default EmptyString (Violation.type error) in
  if bool_decide (error_type ∈ ["identity_theft"; "not_my_account"])
  then "section_605b"
  else if bool_decide
            (error_type ∈ ["paid_collection"; "medical_collection_ncap"])
  then "debt_validation"
  else if bool_decide (error_type ∈ ["unauthorized_inquiry"])
  then "fcra_violation"
  else if String.eqb strategy "goodwill_adjustment" then "goodwill"
  else "bureau_dispute".

(** The dict [by_bureau]: one queue per bureau *)
Record Queues : Type := mkQueues {
  q_equifax : list Violation.t;
  q_experian : list Violation.t;
  q_transunion : list Violation.t
}.

(** The first loop of [_organize_rounds]: both branches of the test on the
    type append the error to the queue of every bureau. *)
Definition assign_to_bureaus (sorted_errors : list Violation.t) : Queues :=
  fold_left
    (fun by_bureau error =>
       if bool_decide (Violation.type error = Some "cross_bureau_discrepancy")
       then mkQueues (q_equifax by_bureau ++ [error])
                     (q_experian by_bureau ++ [error])
                     (q_transunion by_bureau ++ [error])
       else mkQueues (q_equifax by_bureau ++ [error])
                     (q_experian by_bureau ++ [error])
                     (q_transunion by_bureau ++ [error]))
    sorted_errors (mkQueues [] [] []).

(** [any(len(items) > 0 for items in by_bureau.values())] *)
Definition any_items (by_bureau : Queues) : bool :=
  bool_decide (0 < length (q_equifax by_bureau))%nat
  || bool_decide (0 < length (q_experian by_bureau))%nat
  || bool_decide (0 < length (q_transunion by_bureau))%nat.

Definition schedule (item : Violation.t) : Item.t :=
  {| Item.error := item;
     Item.strategy :=
       _get_strategy_details
         (default "factual_dispute" (Violation.dispute_strategy item));
     Item.letter_type := _get_letter_type item;
     Item.legal_basis := default "623(a)(1)" (Violation.fcra_section item) |}.

(** One pass of the [while] body: the round, and the queues it leaves. *)
Definition take_round (by_bureau : Queues) (round_num : Z) : Round.t * Queues :=
  ({| Round.round_number := round_num;
      Round.equifax := map schedule (take 5 (q_equifax by_bureau));
      Round.experian := map schedule (take 5 (q_experian by_bureau));
      Round.transunion := map schedule (take 5 (q_transunion by_bureau)) |},
   mkQueues (drop 5 (q_equifax by_bureau))
            (drop 5 (q_experian by_bureau))
            (drop 5 (q_transunion by_bureau))).

Definition queued (by_bureau : Queues) : nat :=
  (length (q_equifax by_bureau) + length (q_experian by_bureau)
   + length (q_transunion by_bureau))%nat.

Lemma take_round_queued by_bureau round_num :
  any_items by_bureau = true ->
  (queued (take_round by_bureau round_num).2 < queued by_bureau)%nat.
Proof.
  destruct by_bureau as [a b c]. unfold any_items, queued. simpl.
  rewrite !length_drop. intros H.
  repeat (apply orb_prop in H as [H|H]); apply bool_decide_eq_true in H; lia.
Qed.

(** The [while] loop of [_organize_rounds] *)
Equations? rounds_loop (by_bureau : Queues) (round_num : Z) : list Round.t
  by wf (queued by_bureau) lt :=
  rounds_loop by_bureau round_num with Logic.inspect (any_items by_bureau) => {
    | exist _ true Hany =>
        (take_round by_bureau round_num).1
        :: rounds_loop (take_round by_bureau round_num).2 (round_num + 1);
    | exist _ false Hany => [] }.
Proof. exact (take_round_queued by_bureau round_num Hany). Qed.

Definition _organize_rounds (errors : list Violation.t) (start_round : Z)
    : list Round.t :=
  let sorted_errors := sorted ErrorDetector.priority_key errors in
  rounds_loop (assign_to_bureaus sorted_errors) start_round.

(** [now] is what [datetime.utcnow()] returns in this call. *)
Definition _create_timeline (now : datetime.t) (rounds : list Round.t)
    (start_round : Z) : list TimelineEntry.t :=
  let base_date := now in
  imap (fun i round_data =>
          let round_num := start_round + Z.of_nat i in
          let send_date := datetime.add_days base_date (Z.of_nat i * 45) in
          let response_due := datetime.add_days send_date 30 in
          let follow_up := datetime.add_days response_due 7 in
          {| TimelineEntry.round := round_num;
             TimelineEntry.send_date := datetime.strftime_Y_m_d send_date;
             TimelineEntry.response_deadline :=
               datetime.strftime_Y_m_d response_due;
             TimelineEntry.follow_up_date := datetime.strftime_Y_m_d follow_up;
             TimelineEntry.bureaus :=
               when (bool_decide (0 < length (Round.equifax round_data))%nat)
                    "equifax"
               ++ when (bool_decide
                          (0 < length (Round.experian round_data))%nat)
                    "experian"
               ++ when (bool_decide
                          (0 < length (Round.transunion round_data))%nat)
                    "transunion" |})
       rounds.

Definition _generate_guide (rounds : list Round.t) (round_number : Z)
    : Guide.t :=
  {| Guide.preparation :=
       ["Gather all credit reports"; "Review error analysis";
        "Print dispute letters"; "Gather supporting documentation";
        "Prepare certified mail envelopes"];
     Guide.sending :=
       ["Send letters via certified mail with return receipt";
        "Keep copies of everything sent"; "Track delivery confirmation";
        "Mark calendar for response deadline"];
     Guide.waiting :=
       ["Wait 30 days for bureau response"; "Check mail daily for responses";
        "Do not dispute same items during waiting period"];
     Guide.response :=
       ["Review all responses carefully"; "Check for deleted/updated items";
        "Verify any remaining errors"; "Prepare next round if needed"];
     Guide.follow_up :=
       ["If no response by day 37, send follow-up"; "Document all outcomes";
        "Update credit reports"; "Plan next round strategy"] |}.

Definition _calculate_estimates (errors : list Violation.t)
    : res Estimates.t :=
  match errors with
  | [] => Ok (Estimates.mk 0 0 0)
  | _ =>
      let total_impact := ErrorDetector.sum_impact errors in
      best ← float.int_mul total_impact float.lit_1_0;
      realistic ← float.int_mul total_impact float.lit_0_6;
      conservative ← float.int_mul total_impact float.lit_0_3;
      Ok (Estimates.mk best realistic conservative)
  end.

Definition _generate_checklist (rounds : list Round.t) : list string :=
  ["□ Review all error findings";
   "□ Print 3 copies of each letter";
   "□ Prepare certified mail (return receipt requested)";
   "□ Include copy of ID and proof of address";
   "□ Keep copies of everything for your records";
   "□ Mark calendar with response deadlines";
   "□ Set up mail tracking alerts";
   "□ Prepare follow-up calendar reminders"].

Definition _generate_tips (round_number : Z) : list string :=
  ["Never dispute online - use certified mail only";
   "Keep detailed records of all correspondence";
   "Don't dispute more than 5 items per bureau per round";
   "Wait for responses before sending next round"]
  ++ (if 1 <? round_number
      then ["Escalate tone in follow-up rounds";
            "Reference previous dispute attempts";
            "Consider FCRA violation claims if ignored"]
      else [])
  ++ (if 3 <=? round_number
      then ["Consider CFPB complaint if bureaus don't respond";
            "Document all violations for potential legal action";
            "Consult attorney for repeated non-compliance"]
      else []).

(** [build_strategy]; [now] is the clock reading of [_create_timeline]. *)
Definition build_strategy (now : datetime.t) (errors : list Violation.t)
    (client_data : Client.t) (round_number : Z) : res Strategy.t :=
  let rounds := _organize_rounds errors round_number in
  let timeline := _create_timeline now rounds round_number in
  let guide := _generate_guide rounds round_number in
  estimates ← _calculate_estimates errors;
  Ok {| Strategy.client_id := get (Client.id client_data);
        Strategy.current_round := round_number;
        Strategy.total_rounds := Z.of_nat (length rounds);
        Strategy.rounds := rounds;
        Strategy.timeline := timeline;
        Strategy.guide := guide;
        Strategy.estimated_improvement := estimates;
        Strategy.preparation_checklist := _generate_checklist rounds;
        Strategy.tips_and_warnings := _generate_tips round_number;
        Strategy.bureau_addresses := settings.BUREAU_INFO |}.

End StrategyBuilder.

(** ** PDFParser: detection of bureau and format, scores, [parse_report] *)

(** A page of [pdfplumber]: what [extract_text] and [extract_tables] give;
    each can raise. *)
Module Page.
Record t : Type := mk {
  extract_text : res (option string);
  extract_tables : res (list (list (list (option string))))
}.
End Page.

(** What [parse_report] returns: the dict of a [_parse_*] method with its
    entry [parsed_at], or the dict with the key ["error"]. *)
Module ParseResult.
Inductive t (A : Type) : Type :=
| parsed (d : ReportDict.t A) (parsed_at : string)
| error (msg : string) (file_path : string).
Arguments parsed {A}.
Arguments error {A}.
End ParseResult.

Module PDFParserReport.

Definition _detect_bureau (text : string) : string :=
  let text_lower := lower text in
  let max_bureau :=
    max_item ("equifax", count "equifax" text_lower)
      [("experian", count "experian" text_lower);
       ("transunion", count "transunion" text_lower)] in
  if 0 <? max_bureau.2 then max_bureau.1 else "unknown".

Definition _detect_format (text : string) : string :=
  let text_lower := lower text in
  if contains "smartcredit" text_lower || contains "smart credit" text_lower
  then "SmartCredit"
  else if contains "identityiq" text_lower
          || contains "identity iq" text_lower
  then "IdentityIQ"
  else if contains "myfico" text_lower then "MyFICO"
  else if contains "annualcreditreport" text_lower then "AnnualCreditReport"
  else "Unknown".

Section Scores.

(** [int(re.search(pattern, text, re.IGNORECASE | re.DOTALL).group(1))],
    [None] when the pattern does not match; every pattern of
    [_extract_score] has one group, of three digits. *)
Variable re_search_int : string -> string -> option Z.

Definition score_patterns (bureau : option string) : list string :=
  [ (if truthy_str bureau
     then default EmptyString bureau +:+ ".*?score[:\s]*(\d{3})"
     else "credit\s*score[:\s]*(\d{3})");
    "score[:\s]*(\d{3})";
    "(\d{3})\s*(?:credit\s*)?score";
    "fico\s*score[:\s]*(\d{3})";
    "vantage\s*score[:\s]*(\d{3})" ].

(** The loop over the patterns: the first match within the range ends it. *)
Fixpoint first_score (patterns : list string) (text : string) : option Z :=
  match patterns with
  | [] => None
  | pattern :: patterns' =>
      match re_search_int pattern text with
      | Some score =>
          if (300 <=? score) && (score <=? 850) then Some score
          else first_score patterns' text
      | None => first_score patterns' text
      end
  end.

Definition _extract_score (text : string) (bureau : option string)
    : option Z :=
  first_score (score_patterns bureau) text.

End Scores.

Section Report.

(** The libraries and the methods that rest on regular expressions:
    [pdfplumber.open] with the pages of the file, the search of
    [_extract_score], and the extraction methods, each of which can raise.
    [_extract_accounts] is the method of [PDFParser] with its own
    parameters applied. *)
Variable A : Type.
Variable pdfplumber_open : string -> res (list Page.t).
Variable re_search_int : string -> string -> option Z.
Variable _extract_personal_info : string -> res PersonalInfo.t.
Variable _extract_accounts :
  string -> list (list (list (option string))) -> res (list A).
Variable _extract_inquiries : string -> res (list (string * string * string)).
Variable _extract_public_records :
  string -> res (list (string * string * string)).

(** The loop over the pages: the text of a page is added with a newline
    when there is any, and its tables are added. *)
Fixpoint read_pages (pages : list Page.t) (full_text : string)
    (tables : list (list (list (option string))))
    : res (string * list (list (list (option string)))) :=
  match pages with
  | [] => Ok (full_text, tables)
  | page :: pages' =>
      text ← Page.extract_text page;
      let full_text :=
        if truthy_str text
        then full_text +:+ default EmptyString text
             +:+ String "010"%char EmptyString
        else full_text in
      page_tables ← Page.extract_tables page;
      read_pages pages' full_text (tables ++ page_tables)
  end.

(** The dict that the six [_parse_*] methods build, for a format, a bureau
    and the bureaus whose score is looked for *)
Definition parsed_dict (now : datetime.t) (format bureau : string)
    (score_keys : list string) (text : string)
    (tables : list (list (list (option string)))) (file_path : string)
    : res (ParseResult.t A) :=
  personal_info ← _extract_personal_info text;
  let scores :=
    map (fun key => (key, _extract_score re_search_int text (Some key)))
        score_keys in
  accounts ← _extract_accounts text tables;
  inquiries ← _extract_inquiries text;
  public_records ← _extract_public_records text;
  Ok (ParseResult.parsed
        {| ReportDict.format := format;
           ReportDict.bureau := bureau;
           ReportDict.personal_info := personal_info;
           ReportDict.scores := scores;
           ReportDict.accounts := accounts;
           ReportDict.inquiries := inquiries;
           ReportDict.public_records := public_records;
           ReportDict.raw_text := str_take (Z.to_nat 50000) text;
           ReportDict.ocr_processed := false;
           ReportDict.file_path := file_path |}
        (datetime.isoformat now)).

Definition all_bureaus : list string := ["equifax"; "experian"; "transunion"].

Definition _parse_smartcredit now text tables file_path :=
  parsed_dict now "SmartCredit" (_detect_bureau text) all_bureaus
    text tables file_path.

Definition _parse_identityiq now text tables file_path :=
  parsed_dict now "IdentityIQ" (_detect_bureau text) all_bureaus
    text tables file_path.

Definition _parse_equifax now text tables file_path :=
  parsed_dict now "Equifax" "equifax" ["equifax"] text tables file_path.

Definition _parse_experian now text tables file_path :=
  parsed_dict now "Experian" "experian" ["experian"] text tables file_path.

Definition _parse_transunion now text tables file_path :=
  parsed_dict now "TransUnion" "transunion" ["transunion"]
    text tables file_path.

Definition _parse_generic now text tables file_path :=
  parsed_dict now "Unknown" "unknown" all_bureaus text tables file_path.

(** The body of the [try] of [parse_report]; [now] is the clock reading of
    the [_parse_*] method that is called. *)
Definition parse_report_body (now : datetime.t) (file_path : string)
    (bureau : option string) : res (ParseResult.t A) :=
  pages ← pdfplumber_open file_path;
  '(full_text, tables) ← read_pages pages EmptyString [];
  let detected_bureau :=
    if truthy_str bureau then default EmptyString bureau
    else _detect_bureau full_text in
  let report_format := _detect_format full_text in
  if String.eqb report_format "SmartCredit"
  then _parse_smartcredit now full_text tables file_path
  else if String.eqb report_format "IdentityIQ"
  then _parse_identityiq now full_text tables file_path
  else if String.eqb detected_bureau "equifax"
  then _parse_equifax now full_text tables file_path
  else if String.eqb detected_bureau "experian"
  then _parse_experian now full_text tables file_path
  else if String.eqb detected_bureau "transunion"
  then _parse_transunion now full_text tables file_path
  else _parse_generic now full_text tables file_path.

Definition parse_report (now : datetime.t) (file_path : string)
    (bureau : option string) : ParseResult.t A :=
  match parse_report_body now file_path bureau with
  | Ok result => result
  | Raise e => ParseResult.error (str_exn e) file_path
  end.

End Report.

End PDFParserReport.

(** ** OCRIntegration: [process_upload] *)

(** The data of an upload that is an image *)
Module ImageData.
Record t (A : Type) : Type := mk {
  format : string;
  raw_text : string;
  personal_info : PersonalInfo.t;
  accounts : list A;
  scores : list (string * option Z)
}.
Arguments mk {A}.
Arguments raw_text {A}.
Arguments accounts {A}.
End ImageData.

(** What [process_upload] returns: for an image the dict with the keys
    [success], [method_used] and [data]; otherwise the result of
    [process_credit_report]. *)
Module UploadResult.
Inductive t (A : Type) : Type :=
| image (success : bool) (method_used : string) (data : ImageData.t A)
| report (result : ProcessResult.t A).
Arguments image {A}.
Arguments report {A}.

Definition success {A} (r : t A) : bool :=
  match r with
  | image success _ _ => success
  | report result => ProcessResult.success result
  end.
End UploadResult.

Module OCRIntegrationUpload.

Section Upload.

(** [OCREngine.process_image], [process_credit_report] of this class with
    its default bureau, and the extraction methods of the parser on
    recognised text, each of which can raise *)
Variable A : Type.
Variable process_image : string -> string.
Variable process_credit_report :
  string -> option string -> ProcessResult.t A.
Variable _extract_accounts : string -> res (list A).
Variable _extract_personal_info : string -> res PersonalInfo.t.
Variable _extract_score : string -> string -> res (option Z).

Definition process_upload (file_path : string) (file_type : option string)
    : res (UploadResult.t A) :=
  if truthy_str file_type
     && startswith (default EmptyString file_type) "image/"
  then
    let ocr_text := process_image file_path in
    accounts ← _extract_accounts ocr_text;
    personal_info ← _extract_personal_info ocr_text;
    equifax ← _extract_score ocr_text "equifax";
    experian ← _extract_score ocr_text "experian";
    transunion ← _extract_score ocr_text "transunion";
    Ok (UploadResult.image true "ocr_image"
          {| ImageData.format := "Image_OCR";
             ImageData.raw_text := ocr_text;
             ImageData.personal_info := personal_info;
             ImageData.accounts := accounts;
             ImageData.scores :=
               [("equifax", equifax); ("experian", experian);
                ("transunion", transunion)] |})
  else Ok (UploadResult.report (process_credit_report file_path None)).

End Upload.

End OCRIntegrationUpload.

(** ** The analysis endpoint (backend/main.py, [analyze_credit_report]) *)

(** The columns of a [CreditAccount] row that the endpoint reads; [None] is
    the SQL null.  The two amounts are whole numbers, as the amounts of
    [Account] are. *)
Module CreditAccount.
Record t : Type := mk {
  creditor_name : option string;
  account_number : option string;
  current_balance : option Z;
  credit_limit : option Z;
  is_negative : option bool;
  is_collection : option bool;
  late_30_count : option Z;
  late_60_count : option Z;
  late_90_count : option Z;
  account_status : option string
}.
End CreditAccount.

Module main.

(** The value of a column as a dict entry: the key is there, with [None]
    for the SQL null. *)
Definition entry {A} (column : option A) : field A :=
  match column with Some a => Val a | None => Null end.

(** The dict that the endpoint makes of a row: ten keys. *)
Definition account_dict (a : CreditAccount.t) : Account.t :=
  {| Account.creditor_name := entry (CreditAccount.creditor_name a);
     Account.account_number := entry (CreditAccount.account_number a);
     Account.account_type := Missing;
     Account.account_status := entry (CreditAccount.account_status a);
     Account.current_balance := entry (CreditAccount.current_balance a);
     Account.credit_limit := entry (CreditAccount.credit_limit a);
     Account.late_30_count := entry (CreditAccount.late_30_count a);
     Account.late_60_count := entry (CreditAccount.late_60_count a);
     Account.late_90_count := entry (CreditAccount.late_90_count a);
     Account.is_negative := entry (CreditAccount.is_negative a);
     Account.is_collection := entry (CreditAccount.is_collection a);
     Account.is_charge_off := Missing;
     Account.is_authorized_user := Missing;
     Account.date_opened := Missing |}.

(** [report_data]: the dicts of the rows, and [report.parsed_data or {}] *)
Definition report_data (accounts : list CreditAccount.t)
    (parsed_data : option ParsedData.t) : ReportData.t :=
  {| ReportData.accounts := Val (map account_dict accounts);
     ReportData.parsed_data :=
       Val (default (ParsedData.mk Missing Missing) parsed_data) |}.

(** The errors that the endpoint stores with a row: those whose account
    number, [e.get("account", {}).get("account_number")], equals the number
    of the row. *)
Definition account_errors (errors : list Violation.t) (a : CreditAccount.t)
    : list Violation.t :=
  filter (fun e =>
            (ref ← Violation.account e; AccountRef.account_number ref)
            = CreditAccount.account_number a)
         errors.

End main.

(** * Vocabulary of the statements *)

(** The shape of a masked number [m] of the text [s]: the same length, the
    same last four characters, and [X] everywhere before them. *)
Definition masked_form (s m : string) : Prop :=
  String.length m = String.length s
  ∧ last_n 4 m = last_n 4 s
  ∧ ∀ i, (i + 4 < String.length s)%nat → String.get i m = Some "X"%char.

(** The number of errors of one type in a list of errors *)
Definition count_type (t : string) (errors : list Violation.t) : nat :=
  length (filter (λ e, Violation.type e = Some t) errors).

(** The late-payment pattern that cannot be: a 90-day count above zero while
    the 30-day or the 60-day count is zero.  A count that is missing or
    [None] reads as zero. *)
Definition impossible_late_pattern (account : Account.t) : Prop :=
  0 < get_or_0 (Account.late_90_count account)
  ∧ (get_or_0 (Account.late_30_count account) = 0
     ∨ get_or_0 (Account.late_60_count account) = 0).

(** The text entries of an account that the analysis lowers are not [None]. *)
Definition text_not_null (account : Account.t) : Prop :=
  Account.account_status account ≠ Null
  ∧ Account.account_type account ≠ Null
  ∧ Account.creditor_name account ≠ Null.

(** The account of the end-to-end scenario; the entries that the scenario
    leaves open are parameters. *)
Definition abc_bank (account_number account_type date_opened : field string)
    : Account.t :=
  {| Account.creditor_name := Val "ABC Bank";
     Account.account_number := account_number;
     Account.account_type := account_type;
     Account.account_status := Val "open";
     Account.current_balance := Val 1200;
     Account.credit_limit := Val 1000;
     Account.late_30_count := Val 0;
     Account.late_60_count := Val 0;
     Account.late_90_count := Val 0;
     Account.is_negative := Val false;
     Account.is_collection := Val false;
     Account.is_charge_off := Val false;
     Account.is_authorized_user := Val false;
     Account.date_opened := date_opened |}.

(** A list entry that holds nothing to iterate over *)
Definition holds_nothing {A} (f : field (list A)) : Prop :=
  f = Missing ∨ f = Val [].

(** Parsed data without inquiries and without public records *)
Definition nothing_parsed (f : field ParsedData.t) : Prop :=
  f = Missing
  ∨ ∃ d, f = Val d ∧ holds_nothing (ParsedData.inquiries d)
         ∧ holds_nothing (ParsedData.public_records d).

(** An account with the given late counts and nothing else that a rule
    looks at: open, within its limit, no flags. *)
Definition plain_account (late_30 late_60 late_90 : Z) : Account.t :=
  {| Account.creditor_name := Val "ABC Bank";
     Account.account_number := Val "4111111111111111";
     Account.account_type := Val "credit card";
     Account.account_status := Val "open";
     Account.current_balance := Val 200;
     Account.credit_limit := Val 1000;
     Account.late_30_count := Val late_30;
     Account.late_60_count := Val late_60;
     Account.late_90_count := Val late_90;
     Account.is_negative := Val false;
     Account.is_collection := Val false;
     Account.is_charge_off := Val false;
     Account.is_authorized_user := Val false;
     Account.date_opened := Val "01/2020" |}.

(** No rule of the analysis makes an error of the type of a discrepancy. *)
Definition not_discrepancy (e : Violation.t) : Prop :=
  Violation.type e ≠ Some "cross_bureau_discrepancy".

(** The sum of the counts of a severity summary *)
Definition summary_total (summary : gmap string Z) : Z :=
  map_fold (λ _ count total, count + total) 0 summary.

(** The recommendation at position [i] is made from the error [e]. *)
Definition recommends (i : nat) (e : Violation.t) (r : Recommendation.t)
    : Prop :=
  Recommendation.rank r = Z.of_nat i + 1
  ∧ Recommendation.error_type r = Violation.type e
  ∧ Recommendation.strategy r = Violation.dispute_strategy e
  ∧ Recommendation.priority r = Violation.priority e
  ∧ Recommendation.estimated_impact r = Violation.estimated_impact e.

(** The internal consistency of an analysis *)
Definition consistent (a : Analysis.t) : Prop :=
  Analysis.total_errors a = Z.of_nat (length (Analysis.errors a))
  ∧ Analysis.total_discrepancies a
    = Z.of_nat (length (Analysis.discrepancies a))
  ∧ Analysis.total_estimated_impact a
    = foldr Z.add 0
        (map (λ e, default 0 (Violation.estimated_impact e))
             (Analysis.errors a))
  ∧ summary_total (Analysis.error_summary a) = Analysis.total_errors a
  ∧ Analysis.priority_ranking a ≡ₚ Analysis.errors a
  ∧ Forall not_discrepancy (Analysis.errors a)
  ∧ Forall (λ d, Discrepancy.type d = "cross_bureau_discrepancy")
           (Analysis.discrepancies a)
  ∧ (length (Analysis.recommended_disputes a) ≤ 15)%nat
  ∧ length (Analysis.recommended_disputes a)
    = (length (Analysis.priority_ranking a) `min` 15)%nat
  ∧ ∀ i r, Analysis.recommended_disputes a !! i = Some r →
           ∃ e, Analysis.priority_ranking a !! i = Some e ∧ recommends i e r.

(** The entries of a report that the analysis iterates over are not [None],
    and no text entry that it lowers is [None]. *)
Definition report_not_null (r : ReportData.t) : Prop :=
  ReportData.accounts r ≠ Null
  ∧ Forall text_not_null (default [] (get (ReportData.accounts r)))
  ∧ ReportData.parsed_data r ≠ Null
  ∧ ∀ d, ReportData.parsed_data r = Val d →
         ParsedData.inquiries d ≠ Null ∧ ParsedData.public_records d ≠ Null.

(** The errors that the analysis collects for accounts, inquiries and
    records, in the order of the code *)
Definition collected now_outdated now_inquiries
    (accounts : list Account.t) (account_errors : list (list Violation.t))
    (inquiries : list Inquiry.t) (records : list PublicRecord.t)
    : list Violation.t :=
  ((concat account_errors
    ++ ErrorDetector._check_outdated_items now_outdated accounts)
   ++ ErrorDetector._check_inquiries now_inquiries inquiries)
  ++ ErrorDetector._check_public_records records.

(** The opening dates that [_check_outdated_items] compares with the
    clock: those of the accounts flagged negative, where they parse. *)
Definition negative_open_dates (accounts : list Account.t) : list datetime.t :=
  omap (λ account,
          let date_opened :=
            get_default (Account.date_opened account) EmptyString in
          if truthy_bool (Account.is_negative account)
             && truthy_str date_opened
          then datetime.strptime_m_Y (default EmptyString date_opened)
          else None)
       accounts.

(** The dates that [_check_inquiries] compares with the clock: those of the
    hard inquiries, where they parse. *)
Definition hard_inquiry_dates (inquiries : list Inquiry.t) : list datetime.t :=
  omap (λ inquiry,
          let inquiry_date :=
            get_default (Inquiry.inquiry_date inquiry) EmptyString in
          if bool_decide (get (Inquiry.type inquiry) = Some "hard")
             && truthy_str inquiry_date
          then datetime.strptime_m_d_Y (default EmptyString inquiry_date)
          else None)
       inquiries.

(** Two clock readings put every date of a list on the same side of the
    limit of [days] days. *)
Definition same_side (days : Z) (now now' : datetime.t)
    (dates : list datetime.t) : Prop :=
  Forall (λ d, datetime.ltb d (datetime.sub_days now days)
               = datetime.ltb d (datetime.sub_days now' days)) dates.

(** The accounts and the inquiries of a report, as the analysis reads them *)
Definition accounts_of (r : ReportData.t) : list Account.t :=
  default [] (get (ReportData.accounts r)).

Definition inquiries_of (r : ReportData.t) : list Inquiry.t :=
  default [] (d ← get (ReportData.parsed_data r);
              get (ParsedData.inquiries d)).

(** A report with one hard inquiry of 1 January 2020 and nothing else *)
Definition report_with_inquiry_2020 : ReportData.t :=
  {| ReportData.accounts := Val [];
     ReportData.parsed_data :=
       Val {| ParsedData.inquiries :=
                Val [{| Inquiry.creditor_name := Val "ABC Bank";
                        Inquiry.inquiry_date := Val "01/01/2020";
                        Inquiry.type := Val "hard" |}];
              ParsedData.public_records := Val [] |} |}.

(** Noon of 1 June 2021 and of 4 November 2026 *)
Definition noon_2021_06_01 : datetime.t :=
  datetime.mk (datetime._ymd2ord 2021 6 1) 43200000000.
Definition noon_2026_11_04 : datetime.t :=
  datetime.mk (datetime._ymd2ord 2026 11 4) 43200000000.

(** A report with two accounts under one number and an old hard inquiry *)
Definition report_of_two_accounts : ReportData.t :=
  {| ReportData.accounts :=
       Val [abc_bank (Val "4111111111111111") (Val "credit card")
              (Val "03/2015");
            plain_account 0 0 1];
     ReportData.parsed_data :=
       Val {| ParsedData.inquiries :=
                Val [{| Inquiry.creditor_name := Val "ABC Bank";
                        Inquiry.inquiry_date := Val "01/01/2020";
                        Inquiry.type := Val "hard" |}];
              ParsedData.public_records :=
                Val [{| PublicRecord.type := Val "tax_lien";
                        PublicRecord.details := Val "county";
                        PublicRecord.status := Val "active" |}] |} |}.

(** *** Grouping by account number, in the words of the specification *)

(** The number under which a record is grouped: its account number when it
    is there and not empty. *)
Definition number_of (a : Account.t) : option string :=
  match get_default (Account.account_number a) EmptyString with
  | Some (String c r) => Some (String c r)
  | _ => None
  end.

(** The records that share the number [k], in the order of the report *)
Definition records_of (k : string) (accounts : list Account.t)
    : list Account.t :=
  filter (λ a, number_of a = Some k) accounts.

(** The numbers of a report, each once, in the order of first appearance *)
Definition numbers (accounts : list Account.t) : list string :=
  fold_left
    (λ seen a,
       match number_of a with
       | Some k => if bool_decide (k ∈ seen) then seen else seen ++ [k]
       | None => seen
       end)
    accounts [].

(** The balance and the status of a record, as the comparison reads them *)
Definition balance_of (a : Account.t) : option Z :=
  get_default (Account.current_balance a) 0.

Definition status_of (a : Account.t) : option string :=
  get_default (Account.account_status a) EmptyString.

(** Two records of a list differ in the field [f]. *)
Definition differ {A B} `{EqDecision B} (f : A → B) (l : list A) : bool :=
  existsb (λ x, existsb (λ y, negb (bool_decide (f x = f y))) l) l.

(** One discrepancy for each field in which the records of a group of two
    or more differ *)
Definition discrepancies_of_group (recs : list Account.t) : nat :=
  if bool_decide (2 ≤ length recs)%nat
  then ((if differ balance_of recs then 1 else 0)
        + (if differ status_of recs then 1 else 0))%nat
  else 0%nat.

(** The two records of the scenario: one number, balances 500 and 750, one
    status *)
Definition record_4111 (balance : Z) : Account.t :=
  {| Account.creditor_name := Val "ABC Bank";
     Account.account_number := Val "4111111111111111";
     Account.account_type := Val "credit card";
     Account.account_status := Val "open";
     Account.current_balance := Val balance;
     Account.credit_limit := Val 1000;
     Account.late_30_count := Val 0;
     Account.late_60_count := Val 0;
     Account.late_90_count := Val 0;
     Account.is_negative := Val false;
     Account.is_collection := Val false;
     Account.is_charge_off := Val false;
     Account.is_authorized_user := Val false;
     Account.date_opened := Val "01/2020" |}.

(** *** The rounds, in closed form *)

(** The slice of a queue that round [i] takes: five items from position
    [5 * i]. *)
Definition slice (i : nat) (queue : list Violation.t) : list Item.t :=
  map StrategyBuilder.schedule (take 5 (drop (5 * i) queue)).

(** Round [i] (counted from 0) of the queues, when the first round has the
    number [start] *)
Definition round_at (by_bureau : StrategyBuilder.Queues) (start : Z) (i : nat)
    : Round.t :=
  {| Round.round_number := start + Z.of_nat i;
     Round.equifax := slice i (StrategyBuilder.q_equifax by_bureau);
     Round.experian := slice i (StrategyBuilder.q_experian by_bureau);
     Round.transunion := slice i (StrategyBuilder.q_transunion by_bureau) |}.

(** The number of rounds that empty the queues: the longest queue in fives,
    rounded up *)
Definition rounds_needed (by_bureau : StrategyBuilder.Queues) : nat :=
  ((Nat.max (Nat.max (length (StrategyBuilder.q_equifax by_bureau))
                     (length (StrategyBuilder.q_experian by_bureau)))
            (length (StrategyBuilder.q_transunion by_bureau)) + 4) / 5)%nat.

(** The sizes of a round: its number and the items of each bureau *)
Definition sizes (r : Round.t) : Z * nat * nat * nat :=
  (Round.round_number r, length (Round.equifax r),
   length (Round.experian r), length (Round.transunion r)).

(** No bureau has more than five items in the round. *)
Definition capped (r : Round.t) : Prop :=
  (length (Round.equifax r) ≤ 5)%nat
  ∧ (length (Round.experian r) ≤ 5)%nat
  ∧ (length (Round.transunion r) ≤ 5)%nat.

(** A violation with a priority and an impact, and nothing else *)
Definition violation (priority impact : Z) : Violation.t :=
  {| Violation.type := Some "balance_exceeds_limit";
     Violation.name := None;
     Violation.description := None;
     Violation.account := None;
     Violation.severity := Some "high";
     Violation.fcra_section := Some "623(a)(1)";
     Violation.estimated_impact := Some impact;
     Violation.dispute_strategy := Some "factual_dispute";
     Violation.priority := Some priority;
     Violation.inquiry := None;
     Violation.record := None |}.

(** Twelve violations *)
Definition twelve_violations : list Violation.t :=
  map (violation 2) [10; 15; 20; 5; 10; 15; 30; 10; 15; 20; 5; 10].

(** The timeline entry of round [i] (counted from 0) *)
Definition timeline_dates (now : datetime.t) (start : Z) (i : nat)
    (entry : TimelineEntry.t) : Prop :=
  let send := datetime.add_days now (Z.of_nat i * 45) in
  let deadline := datetime.add_days send 30 in
  let follow_up := datetime.add_days deadline 7 in
  TimelineEntry.round entry = start + Z.of_nat i
  ∧ TimelineEntry.send_date entry = datetime.strftime_Y_m_d send
  ∧ TimelineEntry.response_deadline entry = datetime.strftime_Y_m_d deadline
  ∧ TimelineEntry.follow_up_date entry = datetime.strftime_Y_m_d follow_up.

(** *** A document that cannot be read *)

(** A parser for which no file has a root object, and a rasteriser that
    cannot count the pages of any file *)
Definition unreadable_parse (file_path : string) (bureau : option string)
    : PdfData.t unit :=
  PdfData.error "No /Root object! - Is this really a PDF?" file_path.

Definition unreadable_convert (pdf_path : string) (dpi : Z)
    : res (list unit) :=
  Raise (Exception "Unable to get page count.").

(** The result of [process_credit_report] reports a failure. *)
Definition reports_failure {A} (result : ProcessResult.t A) : Prop :=
  ProcessResult.success result = false
  ∧ ProcessResult.errors result ≠ []
  ∧ ProcessResult.data result = None
  ∧ ProcessResult.method_used result = None.

(** The result of [process_credit_report] reports an extraction. *)
Definition reports_extraction {A} (result : ProcessResult.t A) : Prop :=
  ProcessResult.success result = true
  ∧ ProcessResult.errors result = []
  ∧ (∃ d, ProcessResult.data result = Some d)
  ∧ (∃ m, ProcessResult.method_used result = Some m).

(** The three estimates of an impact sum can be computed: no conversion
    between int and float overflows. *)
Definition estimates_defined (total_impact : Z) : bool :=
  match float.int_mul total_impact float.lit_1_0,
        float.int_mul total_impact float.lit_0_6,
        float.int_mul total_impact float.lit_0_3 with
  | Ok _, Ok _, Ok _ => true
  | _, _, _ => false
  end.

(** ** Vocabulary of the further properties *)

(** *** The ranking *)

(** [a] does not rank after [b]: its priority is smaller, or the priorities
    are the same and its impact is not smaller.  An error without priority
    counts as priority 5, one without impact as impact 0. *)
Definition ranks_before (a b : Violation.t) : Prop :=
  let priority e := default 5 (Violation.priority e) in
  let impact e := default 0 (Violation.estimated_impact e) in
  priority a < priority b
  ∨ (priority a = priority b ∧ impact b ≤ impact a).

(** The errors that rank alike: one priority and one impact *)
Definition ranks_as (priority impact : Z) (e : Violation.t) : Prop :=
  default 5 (Violation.priority e) = priority
  ∧ default 0 (Violation.estimated_impact e) = impact.

(** *** The severity summary *)

(** The keys that the summary starts with *)
Definition severities : list string := ["critical"; "high"; "medium"; "low"].

(** The number of errors of a severity; an error without severity counts
    as [low]. *)
Definition count_severity (sev : string) (errors : list Violation.t) : Z :=
  Z.of_nat
    (length (filter (λ e, default "low" (Violation.severity e) = sev) errors)).

(** *** The rules of the analysis *)

(** The balance and the limit of an account, as the rules read them *)
Definition balance (account : Account.t) : Z :=
  get_or_0 (Account.current_balance account).

Definition limit (account : Account.t) : Z :=
  get_or_0 (Account.credit_limit account).

(** The types of the errors of a list, in its order *)
Definition types (errors : list Violation.t) : list (option string) :=
  map Violation.type errors.

(** What [None.lower()] raises *)
Definition no_lower : exn :=
  AttributeError "'NoneType' object has no attribute 'lower'".

(** An account whose status is [None] *)
Definition account_of_status_None : Account.t :=
  {| Account.creditor_name := Val "ABC Bank";
     Account.account_number := Val "4111111111111111";
     Account.account_type := Val "credit card";
     Account.account_status := Null;
     Account.current_balance := Val 200;
     Account.credit_limit := Val 1000;
     Account.late_30_count := Val 0;
     Account.late_60_count := Val 0;
     Account.late_90_count := Val 0;
     Account.is_negative := Val false;
     Account.is_collection := Val false;
     Account.is_charge_off := Val false;
     Account.is_authorized_user := Val false;
     Account.date_opened := Val "01/2020" |}.

(** The rules that make errors: the type, the severity, the section, the
    impact, the priority and the strategy of the error of each, where it has
    them, and whether the error names an account. *)
Definition rules
    : list (string * string * string * Z * option Z * option string * bool) :=
  [("balance_exceeds_limit", "high", "623(a)(1)", 10, Some 2,
    Some "factual_dispute", true);
   ("missing_credit_limit", "medium", "609(a)(1)", 5, Some 3,
    Some "factual_dispute", true);
   ("impossible_late_pattern", "high", "623(a)(1)", 20, Some 2,
    Some "fcra_violation", true);
   ("closed_with_balance", "high", "623(a)(1)", 15, Some 2,
    Some "factual_dispute", true);
   ("medical_collection_ncap", "medium", "NCAP 2022", 15, Some 3,
    Some "collection_validation", true);
   ("authorized_user_negative", "medium", "605(a)(1)", 10, Some 3,
    Some "factual_dispute", true);
   ("outdated_negative", "high", "605(a)(1)", 15, Some 2,
    Some "fcra_violation", true);
   ("outdated_inquiry", "medium", "605(a)(3)", 5, None, None, false);
   ("tax_lien_ncap", "high", "NCAP 2018", 30, None, None, false)].

(** The same entries of an error; [None] when it lacks the type, the
    severity, the section or the impact. *)
Definition rule_of (e : Violation.t)
    : option (string * string * string * Z * option Z * option string * bool)
    :=
  type ← Violation.type e;
  severity ← Violation.severity e;
  fcra_section ← Violation.fcra_section e;
  estimated_impact ← Violation.estimated_impact e;
  Some (type, severity, fcra_section, estimated_impact, Violation.priority e,
        Violation.dispute_strategy e,
        match Violation.account e with Some _ => true | None => false end).

(** The error is as one of the rules makes it. *)
Definition made_by_a_rule (e : Violation.t) : bool :=
  match rule_of e with
  | Some rule => bool_decide (rule ∈ rules)
  | None => false
  end.

(** The error names an account. *)
Definition on_account (e : Violation.t) : Prop :=
  is_Some (Violation.account e).

(** The error has a priority that is smaller than the priority 5 of an
    error without one. *)
Definition has_priority (e : Violation.t) : Prop :=
  default 5 (Violation.priority e) < 5.

(** The clock reading [now'] is [now] or later. *)
Definition not_before (now now' : datetime.t) : Prop :=
  datetime.ltb now' now = false.

(** *** The analysis endpoint *)

(** The types of the errors that the endpoint can store *)
Definition endpoint_types : list (option string) :=
  [Some "balance_exceeds_limit"; Some "impossible_late_pattern";
   Some "closed_with_balance"; Some "medical_collection_ncap";
   Some "outdated_inquiry"; Some "tax_lien_ncap"].

(** The texts of a row that the analysis lowers are there: the status, and
    for a collection the name of the creditor. *)
Definition can_be_analysed (row : CreditAccount.t) : bool :=
  match CreditAccount.account_status row with
  | None => false
  | Some _ =>
      match CreditAccount.is_collection row, CreditAccount.creditor_name row
      with
      | Some true, None => false
      | _, _ => true
      end
  end.

(** The lists of the parsed data of a report are not [None]. *)
Definition lists_not_null (parsed_data : option ParsedData.t) : Prop :=
  ∀ d, parsed_data = Some d →
       ParsedData.inquiries d ≠ Null ∧ ParsedData.public_records d ≠ Null.

(** A row with the given number and status, and nothing else *)
Definition row_of (account_number account_status : option string)
    : CreditAccount.t :=
  {| CreditAccount.creditor_name := Some "ABC Bank";
     CreditAccount.account_number := account_number;
     CreditAccount.current_balance := Some 200;
     CreditAccount.credit_limit := Some 0;
     CreditAccount.is_negative := Some true;
     CreditAccount.is_collection := Some false;
     CreditAccount.late_30_count := Some 0;
     CreditAccount.late_60_count := Some 0;
     CreditAccount.late_90_count := Some 0;
     CreditAccount.account_status := account_status |}.

(** The parsed data of a report with an old hard inquiry and a tax lien *)
Definition parsed_inquiry_and_lien : ParsedData.t :=
  {| ParsedData.inquiries :=
       Val [{| Inquiry.creditor_name := Val "ABC Bank";
               Inquiry.inquiry_date := Val "01/01/2020";
               Inquiry.type := Val "hard" |}];
     ParsedData.public_records :=
       Val [{| PublicRecord.type := Val "tax_lien";
               PublicRecord.details := Val "county";
               PublicRecord.status := Val "active" |}] |}.

(** *** The strategy *)

(** The estimates of an impact sum: all of it, six tenths and three tenths,
    rounded down *)
Definition estimates_of (total_impact : Z) : Estimates.t :=
  {| Estimates.best := total_impact;
     Estimates.realistic := 6 * total_impact / 10;
     Estimates.conservative := 3 * total_impact / 10 |}.

(** The three conversions between int and float give these estimates. *)
Definition estimates_exact (total_impact : Z) : bool :=
  match float.int_mul total_impact float.lit_1_0,
        float.int_mul total_impact float.lit_0_6,
        float.int_mul total_impact float.lit_0_3 with
  | Ok best, Ok realistic, Ok conservative =>
      (best =? total_impact) && (realistic =? 6 * total_impact / 10)
      && (conservative =? 3 * total_impact / 10)
  | _, _, _ => false
  end.

(** The strategy [fcra_violation] of the builder *)
Definition fcra_violation : StrategyDetails.t :=
  StrategyDetails.mk "FCRA Violation Challenge"
    "Challenge based on FCRA violations" 30 (Qmake 80 100) "aggressive".

(** What the builder schedules for an error that a rule of the analysis
    made: the letter of a debt validation for a medical collection and the
    letter of a bureau dispute for every other error; the strategy of a
    challenge for the errors that the analysis marks [fcra_violation] and
    the strategy of a factual dispute for every other error. *)
Definition scheduled_for_a_rule (item : Item.t) : Prop :=
  Item.letter_type item
  = (if bool_decide (Violation.type (Item.error item)
                     = Some "medical_collection_ncap")
     then "debt_validation" else "bureau_dispute")
  ∧ Item.strategy item
    = (if bool_decide (Violation.dispute_strategy (Item.error item)
                       = Some "fcra_violation")
       then fcra_violation else StrategyBuilder.factual_dispute).

(** The items of the rounds, for each bureau *)
Definition items_of (rounds : list Round.t) : list Item.t :=
  concat (map (λ r, Round.equifax r ++ Round.experian r ++ Round.transunion r)
              rounds).

(** *** The parser *)

(** A text without white space around it *)
Definition trimmed (s : string) : Prop := strip s = s.

(** The names of the bureaus, in the order of the dict of [_detect_bureau] *)
Definition bureaus : list string := ["equifax"; "experian"; "transunion"].

(** A score within the range of a credit score *)
Definition in_range (score : Z) : Prop := 300 ≤ score ≤ 850.

(** The format, the bureau and the bureaus with a score of a parsed report:
    a report of SmartCredit or of IdentityIQ with the bureau that
    [_detect_bureau] answers and the scores of the three bureaus; a report
    of one bureau with its score; or a report of no known format and bureau,
    with the scores of the three bureaus. *)
Definition shape_of_a_report (format bureau : string)
    (score_keys : list string) : Prop :=
  (format ∈ ["SmartCredit"; "IdentityIQ"]
   ∧ bureau ∈ bureaus ++ ["unknown"]
   ∧ score_keys = bureaus)
  ∨ (format, bureau, score_keys)
    ∈ [("Equifax", "equifax", ["equifax"]);
       ("Experian", "experian", ["experian"]);
       ("TransUnion", "transunion", ["transunion"]);
       ("Unknown", "unknown", bureaus)].

(** A score that is there is within the range. *)
Definition score_in_range (entry : string * option Z) : Prop :=
  from_option in_range True entry.2.

(** An account as a row of a table gives it: a creditor, and neither a type
    nor a status *)
Definition of_a_row {F} (a : ParsedAccount.t F) : Prop :=
  ParsedAccount.creditor_name a ≠ EmptyString
  ∧ ParsedAccount.account_type a = EmptyString
  ∧ ParsedAccount.status a = EmptyString.

(** A file of one page that names Equifax, and a table of one account *)
Definition one_page_of_equifax (file_path : string) : res (list Page.t) :=
  Ok [{| Page.extract_text := Ok (Some "Equifax credit report");
         Page.extract_tables := Ok [] |}].

Definition table_of_one_account : list (list (option string)) :=
  [[Some "Creditor"; Some "Number"; Some "Balance"];
   [Some "ABC Bank"; Some "12345678"; Some "100"]].

(** An image that cannot be opened *)
Definition cannot_identify (image_path : string) : res unit :=
  Raise (Exception "cannot identify image file").

(** *** The text of the recognition *)

(** The text holds a line feed. *)
Fixpoint has_line_feed (s : string) : bool :=
  match s with
  | EmptyString => false
  | String c r => Ascii.eqb c "010"%char || has_line_feed r
  end.

(** A line that is not blank and has no white space around it *)
Definition clean_line (line : string) : Prop :=
  line ≠ EmptyString ∧ trimmed line.

(** * Properties *)

(** ** Text *)

Section Text.

Lemma length_str_replicate n c : String.length (str_replicate n c) = n.
Proof. induction n as [|n IH]; simpl; [done | by rewrite IH]. Qed.

Lemma length_str_app a b :
  String.length (a +:+ b) = (String.length a + String.length b)%nat.
Proof. induction a as [|c a IH]; simpl; [done | by rewrite IH]. Qed.

Lemma length_str_drop n s :
  String.length (str_drop n s) = (String.length s - n)%nat.
Proof.
  revert s. induction n as [|n IH]; intros [|c s]; simpl; try done.
Qed.

Lemma str_drop_app a b : str_drop (String.length a) (a +:+ b) = b.
Proof. induction a as [|c a IH]; simpl; [by destruct b | done]. Qed.

Lemma str_drop_all s : str_drop (String.length s) s = EmptyString.
Proof. induction s as [|c s IH]; simpl; done. Qed.

Lemma get_str_app_l a b i :
  (i < String.length a)%nat → String.get i (a +:+ b) = String.get i a.
Proof.
  revert i. induction a as [|c a IH]; intros i Hi; simpl in *; [lia|].
  destruct i as [|i]; [done|]. apply IH. lia.
Qed.

Lemma get_str_replicate n c i :
  (i < n)%nat → String.get i (str_replicate n c) = Some c.
Proof.
  revert i. induction n as [|n IH]; intros i Hi; [lia|].
  destruct i as [|i]; simpl; [done|]. apply IH. lia.
Qed.

Lemma length_last_n n s :
  String.length (last_n n s) = (String.length s `min` n)%nat.
Proof. unfold last_n. rewrite length_str_drop. lia. Qed.

Lemma prefix_app p s : String.prefix p (p +:+ s) = true.
Proof.
  induction p as [|c p IH]; simpl; [by destruct s|].
  by destruct (ascii_dec c c).
Qed.

End Text.

(** ** Lists *)

Section Lists.

Context {A B : Type}.

Lemma elem_of_concat (x : A) (ll : list (list A)) :
  x ∈ concat ll ↔ ∃ l, l ∈ ll ∧ x ∈ l.
Proof.
  rewrite list_elem_of_In, in_concat.
  split; intros (l & H1 & H2); exists l; by rewrite ?list_elem_of_In in *.
Qed.

Lemma elem_of_map (f : A → B) (l : list A) (y : B) :
  y ∈ map f l ↔ ∃ x, y = f x ∧ x ∈ l.
Proof.
  rewrite list_elem_of_In, in_map_iff.
  split; intros (x & H1 & H2); exists x; by rewrite ?list_elem_of_In in *.
Qed.

Lemma elem_of_when (c : bool) (a x : A) : x ∈ when c a ↔ c = true ∧ x = a.
Proof.
  destruct c; simpl.
  - rewrite list_elem_of_singleton. split; [done | by intros [_ ->]].
  - split; [by inversion 1 | by intros [? _]].
Qed.

End Lists.

(** ** Masking of account numbers *)

Section Masking.

Import PDFParser.

(** The masked number, in terms of the stripped text. *)
Lemma mask_stripped raw :
  _mask_account_number (Some raw) =
    let s := strip raw in
    if (4 <? String.length s)%nat
    then str_replicate (String.length s - 4) "X"%char +:+ last_n 4 s
    else s.
Proof.
  unfold _mask_account_number. destruct raw as [|c raw]; [done|]. done.
Qed.

Lemma masked_form_stripped raw :
  masked_form (strip raw) (_mask_account_number (Some raw)).
Proof.
  rewrite mask_stripped. cbv zeta. set (s := strip raw).
  destruct (4 <? String.length s)%nat eqn:Hlen.
  - apply Nat.ltb_lt in Hlen.
    assert (Hl4 : String.length (last_n 4 s) = 4%nat)
      by (rewrite length_last_n; lia).
    split; [|split].
    + rewrite length_str_app, length_str_replicate, Hl4. lia.
    + unfold last_n at 1.
      rewrite length_str_app, length_str_replicate, Hl4.
      replace (String.length s - 4 + 4 - 4)%nat
        with (String.length (str_replicate (String.length s - 4) "X"%char))
        by (rewrite length_str_replicate; lia).
      apply str_drop_app.
    + intros i Hi. rewrite get_str_app_l.
      * apply get_str_replicate. lia.
      * rewrite length_str_replicate. lia.
  - apply Nat.ltb_ge in Hlen. split; [done|]. split; [done|].
    intros i Hi. lia.
Qed.

Lemma extracted_number_is_masked F float_of_str float_zero findall text tables
    (a : ParsedAccount.t F) :
  a ∈ _extract_accounts F float_of_str float_zero findall text tables →
  ∃ cell, ParsedAccount.account_number a = _mask_account_number cell.
Proof.
  unfold _extract_accounts.
  set (from_tables := concat (map _ tables)).
  assert (Htab : ∀ b, b ∈ from_tables →
            ∃ cell, ParsedAccount.account_number b = _mask_account_number cell).
  { intros b Hb. subst from_tables.
    apply elem_of_concat in Hb as (accts & Haccts & Hb).
    apply elem_of_map in Haccts as (t & -> & _).
    unfold accounts_of_table in Hb.
  destruct (bool_decide _); [|by inversion Hb].
    apply elem_of_concat in Hb as (accts & Haccts & Hb).
    apply elem_of_map in Haccts as (row & -> & _).
    unfold accounts_of_row in Hb.
  destruct (bool_decide _); [|by inversion Hb].
    apply elem_of_when in Hb as [_ ->]. by eexists. }
  destruct from_tables as [|b0 rest] eqn:Hft; [|by apply Htab].
  intros Ha. apply elem_of_map in Ha as ([[[g1 g2] g3] g4] & -> & _).
  by eexists.
Qed.

End Masking.

(** C6, as amended.  The account number that [_mask_account_number] returns
    has the form of a masked number of the raw text with the white space
    around it removed: the same length as the stripped text, the same last
    four characters, and [X] in every position before them.  It has that form
    for the raw text itself when the raw text has no white space around it.
    Every account that [_extract_accounts] returns carries such a number,
    whether it comes from a table row or from the text of the report. *)
Theorem C6_masked_number_of_stripped_text :
  (∀ raw : string,
     masked_form (strip raw) (PDFParser._mask_account_number (Some raw))
     ∧ (strip raw = raw →
        masked_form raw (PDFParser._mask_account_number (Some raw))))
  ∧ PDFParser._mask_account_number None = EmptyString
  ∧ ∀ F float_of_str float_zero findall text tables (a : ParsedAccount.t F),
      a ∈ PDFParser._extract_accounts F float_of_str float_zero findall
            text tables →
      ∃ cell, ParsedAccount.account_number a
              = PDFParser._mask_account_number cell.
Proof.
  split; [|split; [done|]].
  - intros raw. split; [apply masked_form_stripped|].
    intros Hs. pose proof (masked_form_stripped raw) as H. by rewrite Hs in H.
  - intros. by eapply extracted_number_is_masked.
Qed.

(** A sixteen-digit number without white space keeps its last four digits
    behind twelve [X]. *)
Lemma C6_masked_number_witness :
  masked_form "4111111111111111"
    (PDFParser._mask_account_number (Some "4111111111111111")).
Proof.
  apply (proj2 (proj1 C6_masked_number_of_stripped_text "4111111111111111")).
  reflexivity.
Defined.

(** C6, as stated, fails on a raw number with white space after it: the cell
    ["12345678 "] has nine characters and is stored as ["XXXX5678"]. *)
Lemma C6_counterexample_trailing_space :
  PDFParser._mask_account_number (Some "12345678 ") = "XXXX5678"
  ∧ ¬ masked_form "12345678 "
        (PDFParser._mask_account_number (Some "12345678 ")).
Proof.
  split; [reflexivity|]. intros (Hlen & _). vm_compute in Hlen. discriminate.
Qed.

(** ** Per-account analysis *)

Section PerAccount.

Import ErrorDetector.

Lemma count_type_app t l1 l2 :
  count_type t (l1 ++ l2) = (count_type t l1 + count_type t l2)%nat.
Proof. unfold count_type. by rewrite filter_app, length_app. Qed.

Lemma count_type_when t c e :
  count_type t (when c e)
  = if c && bool_decide (Violation.type e = Some t) then 1%nat else 0%nat.
Proof.
  unfold count_type. destruct c; simpl; [|done].
  rewrite filter_cons, filter_nil. by case_bool_decide; case_decide.
Qed.

(** What a completed analysis of an account returns: the six rules in the
    order of the code, each adding its error or nothing. *)
Lemma analyze_account_Ok account errors :
  _analyze_account account = Ok errors →
  ∃ c1 c2 c3 c4 c5 c6 d1 d4,
    errors =
      when c1 (_create_error "balance_exceeds_limit" account d1)
      ++ when c2 (_create_error "missing_credit_limit" account
                    "Credit limit not reported")
      ++ when c3 (_create_error "impossible_late_pattern" account
                    "90+ day late without corresponding 30/60 day lates")
      ++ when c4 (_create_error "closed_with_balance" account d4)
      ++ when c5 (_create_error "medical_collection_ncap" account
                    "Medical collection - may be eligible for NCAP removal")
      ++ when c6 (_create_error "authorized_user_negative" account
                    "Authorized user account showing negative history")
    ∧ c1 = (0 <? get_or_0 (Account.credit_limit account))
           && (get_or_0 (Account.credit_limit account)
               <? get_or_0 (Account.current_balance account))
    ∧ c3 = (0 <? get_or_0 (Account.late_90_count account))
           && ((get_or_0 (Account.late_30_count account) =? 0)
               || (get_or_0 (Account.late_60_count account) =? 0)).
Proof.
  unfold _analyze_account.
  destruct (get_lower (Account.account_status account)) as [status|e]; [|done].
  cbn [mbind res_bind].
  destruct (String.eqb status "open"
            && (get_or_0 (Account.credit_limit account) =? 0)).
  - destruct (get_lower (Account.account_type account)) as [ty|e]; [|done].
    cbn [mbind res_bind].
    destruct (truthy_bool (Account.is_collection account)).
    + destruct (get_lower (Account.creditor_name account)) as [cr|e]; [|done].
      cbn [mbind res_bind]. intros [= <-].
      do 8 eexists. split; [|done]. rewrite <- !app_assoc. reflexivity.
    + cbn [mbind res_bind]. intros [= <-].
      eexists _, _, _, _, false, _, _, _. split; [|done].
      rewrite <- !app_assoc. reflexivity.
  - cbn [mbind res_bind].
    destruct (truthy_bool (Account.is_collection account)).
    + destruct (get_lower (Account.creditor_name account)) as [cr|e]; [|done].
      cbn [mbind res_bind]. intros [= <-].
      eexists _, false, _, _, _, _, _, _. split; [|done].
      rewrite <- !app_assoc. reflexivity.
    + cbn [mbind res_bind]. intros [= <-].
      eexists _, false, _, _, false, _, _, _. split; [|done].
      rewrite <- !app_assoc. reflexivity.
Qed.

(** The analysis of an account completes when no text entry that it lowers
    is [None]. *)
Lemma analyze_account_total account :
  text_not_null account → ∃ errors, _analyze_account account = Ok errors.
Proof.
  intros (Hs & Ht & Hc). unfold _analyze_account, get_lower.
  destruct (Account.account_status account) as [| |st]; [|done|];
    destruct (Account.account_type account) as [| |ty]; try done;
    destruct (Account.creditor_name account) as [| |cr]; try done;
    cbn [get_default mbind res_bind];
    repeat match goal with
      | |- context [if ?c then _ else _] => destruct c; cbn [mbind res_bind]
      end; by eexists.
Qed.

Lemma impossible_late_pattern_bool account :
  (0 <? get_or_0 (Account.late_90_count account))
  && ((get_or_0 (Account.late_30_count account) =? 0)
      || (get_or_0 (Account.late_60_count account) =? 0)) = true
  ↔ impossible_late_pattern account.
Proof.
  unfold impossible_late_pattern.
  rewrite andb_true_iff, orb_true_iff, Z.ltb_lt, !Z.eqb_eq. done.
Qed.

Lemma count_late_pattern account errors :
  _analyze_account account = Ok errors →
  count_type "impossible_late_pattern" errors
  = if (0 <? get_or_0 (Account.late_90_count account))
       && ((get_or_0 (Account.late_30_count account) =? 0)
           || (get_or_0 (Account.late_60_count account) =? 0))
    then 1%nat else 0%nat.
Proof.
  intros (c1&c2&c3&c4&c5&c6&d1&d4& -> & _ & <-)%analyze_account_Ok.
  rewrite !count_type_app, !count_type_when.
  destruct c1, c2, c3, c4, c5, c6; reflexivity.
Qed.

End PerAccount.

(** C2.  The analysis of an account returns exactly one error of type
    [impossible_late_pattern] when the 90-day count is above zero while the
    30-day or the 60-day count is zero, and none otherwise; this holds for
    every account whose analysis completes, and the analysis completes for
    every account whose status, type and creditor name are not [None].  An
    account with counts 0, 0, 1 and nothing else that a rule looks at gets
    that one error and no other; with counts 1, 1, 1 it gets no error. *)
Theorem C2_impossible_late_pattern_iff :
  (∀ account,
     (∀ errors, ErrorDetector._analyze_account account = Ok errors →
        (count_type "impossible_late_pattern" errors = 1%nat
         ↔ impossible_late_pattern account)
        ∧ (count_type "impossible_late_pattern" errors = 0%nat
           ↔ ¬ impossible_late_pattern account))
     ∧ (text_not_null account →
        ∃ errors, ErrorDetector._analyze_account account = Ok errors))
  ∧ ErrorDetector._analyze_account (plain_account 0 0 1)
    = Ok [ErrorDetector._create_error "impossible_late_pattern"
            (plain_account 0 0 1)
            "90+ day late without corresponding 30/60 day lates"]
  ∧ ErrorDetector._analyze_account (plain_account 1 1 1) = Ok [].
Proof.
  split; [|split; reflexivity].
  intros account. split; [|apply analyze_account_total].
  intros errors Hok. rewrite (count_late_pattern _ _ Hok).
  rewrite <- impossible_late_pattern_bool.
  destruct (_ && _); split; split; try done; intros H; by destruct H.
Qed.

(** The general statement at the account with counts 0, 0, 1. *)
Lemma C2_impossible_late_pattern_witness :
  count_type "impossible_late_pattern"
    [ErrorDetector._create_error "impossible_late_pattern"
       (plain_account 0 0 1)
       "90+ day late without corresponding 30/60 day lates"] = 1%nat
  ∧ ∃ errors,
      ErrorDetector._analyze_account (plain_account 0 0 1) = Ok errors.
Proof.
  pose proof (proj1 C2_impossible_late_pattern_iff (plain_account 0 0 1))
    as [Hcount Htotal].
  split.
  - apply (Hcount _ eq_refl). vm_compute. split; [reflexivity|].
    left; reflexivity.
  - apply Htotal. unfold text_not_null. simpl. done.
Defined.

(** C1.  A report with the one account of ABC Bank (balance 1200, limit
    1000, status [open], late counts 0, flags false), whatever its account
    number, type and opening date, and without inquiries and public
    records, is analysed at any time to exactly one error: its type is
    [balance_exceeds_limit], its impact 10, its severity [high] and its
    priority 2. *)
Theorem C1_abc_bank_end_to_end :
  ∀ now_outdated now_inquiries account_number account_type date_opened parsed,
    nothing_parsed parsed →
    ∃ v,
      Analysis.errors
        <$> ErrorDetector.analyze_report now_outdated now_inquiries
              (ReportData.mk
                 (Val [abc_bank account_number account_type date_opened])
                 parsed)
      = Ok [v]
      ∧ Violation.type v = Some "balance_exceeds_limit"
      ∧ Violation.estimated_impact v = Some 10
      ∧ Violation.severity v = Some "high"
      ∧ Violation.priority v = Some 2
      ∧ Violation.description v = Some "Balance ($1200) exceeds limit ($1000)".
Proof.
  intros now_outdated now_inquiries number type opened parsed Hparsed.
  exists (ErrorDetector._create_error "balance_exceeds_limit"
            (abc_bank number type opened)
            "Balance ($1200) exceeds limit ($1000)").
  split; [|by vm_compute].
  destruct Hparsed as [-> | ([inquiries records] & -> & Hi & Hr)];
    [reflexivity|].
  simpl in Hi, Hr. destruct Hi as [-> | ->], Hr as [-> | ->]; reflexivity.
Qed.

(** The scenario with an account number, no type, no opening date, and
    parsed data that hold empty lists. *)
Lemma C1_abc_bank_witness :
  ∃ v,
    Analysis.errors
      <$> ErrorDetector.analyze_report
            (datetime.mk 739924 0) (datetime.mk 739924 1)
            (ReportData.mk
               (Val [abc_bank (Val "4111111111111111") Missing Missing])
               (Val (ParsedData.mk (Val []) (Val []))))
    = Ok [v]
    ∧ Violation.type v = Some "balance_exceeds_limit"
    ∧ Violation.estimated_impact v = Some 10
    ∧ Violation.severity v = Some "high"
    ∧ Violation.priority v = Some 2
    ∧ Violation.description v = Some "Balance ($1200) exceeds limit ($1000)".
Proof.
  apply C1_abc_bank_end_to_end.
  right. eexists. split; [reflexivity|]. split; right; reflexivity.
Defined.

(** ** Sorting *)

Section Sorting.

Context {A : Type} (key : A → Z * Z).

Lemma sorted_insert_Permutation x l : sorted_insert key x l ≡ₚ x :: l.
Proof.
  induction l as [|y l IH]; simpl; [done|].
  destruct (key_le _ _); [done|]. rewrite IH. apply Permutation_swap.
Qed.

Lemma sorted_Permutation l : sorted key l ≡ₚ l.
Proof.
  induction l as [|x l IH]; simpl; [done|].
  rewrite sorted_insert_Permutation. by rewrite IH.
Qed.

Lemma length_sorted l : length (sorted key l) = length l.
Proof. by rewrite sorted_Permutation. Qed.

Lemma key_le_total a b : key_le a b = false → key_le b a = true.
Proof.
  unfold key_le. destruct a as [a1 a2], b as [b1 b2]. simpl.
  intros H. apply orb_false_iff in H as [H1 H2].
  apply Z.ltb_ge in H1. apply andb_false_iff in H2.
  apply orb_true_iff. destruct (Z.eq_dec a1 b1) as [->|Hne].
  - right. rewrite Z.eqb_refl in *. destruct H2 as [H2|H2]; [done|].
    apply Z.leb_gt in H2. apply Z.leb_le. lia.
  - left. apply Z.ltb_lt. lia.
Qed.

Lemma key_le_trans a b c :
  key_le a b = true → key_le b c = true → key_le a c = true.
Proof.
  unfold key_le. destruct a as [a1 a2], b as [b1 b2], c as [c1 c2]. simpl.
  rewrite !orb_true_iff, !andb_true_iff, !Z.ltb_lt, !Z.eqb_eq, !Z.leb_le. lia.
Qed.

(** The result is in ascending order of the key. *)
Lemma sorted_insert_Sorted x l :
  StronglySorted (λ a b, key_le (key a) (key b) = true) l →
  StronglySorted (λ a b, key_le (key a) (key b) = true) (sorted_insert key x l).
Proof.
  induction 1 as [|y l Hl IH Hy]; simpl; [repeat constructor|].
  destruct (key_le (key x) (key y)) eqn:Hxy.
  - constructor; [by constructor|]. constructor; [done|].
    eapply Forall_impl; [exact Hy|]. intros z Hz. by eapply key_le_trans.
  - constructor; [done|]. rewrite sorted_insert_Permutation.
    constructor; [by apply key_le_total | done].
Qed.

Lemma sorted_Sorted l :
  StronglySorted (λ a b, key_le (key a) (key b) = true) (sorted key l).
Proof.
  induction l as [|x l IH]; simpl; [constructor|].
  by apply sorted_insert_Sorted.
Qed.

End Sorting.

(** ** The analysis of a report *)

Section Report.

Import ErrorDetector.

Lemma mapM_Ok {A B} (f : A → res B) l bs :
  mapM f l = Ok bs → Forall2 (λ a b, f a = Ok b) l bs.
Proof.
  revert bs. induction l as [|a l IH]; simpl; intros bs.
  - intros [= <-]. constructor.
  - destruct (f a) as [b|e] eqn:Hb; [|done]. cbn [mbind res_bind].
    destruct (mapM f l) as [bs'|e]; [|done]. cbn [mbind res_bind].
    intros [= <-]. constructor; [done | by apply IH].
Qed.

Lemma mapM_total {A B} (f : A → res B) l :
  Forall (λ a, ∃ b, f a = Ok b) l → ∃ bs, mapM f l = Ok bs.
Proof.
  induction 1 as [|a l [b Hb] _ [bs Hbs]]; simpl; [by eexists|].
  rewrite Hb. cbn [mbind res_bind]. rewrite Hbs. by eexists.
Qed.

(** What a completed analysis returns. *)
Lemma analyze_report_Ok now_outdated now_inquiries r a :
  analyze_report now_outdated now_inquiries r = Ok a →
  ∃ accounts account_errors parsed inquiries records,
    get_default (ReportData.accounts r) [] = Some accounts
    ∧ mapM _analyze_account accounts = Ok account_errors
    ∧ get_default (ReportData.parsed_data r) (ParsedData.mk Missing Missing)
      = Some parsed
    ∧ get_default (ParsedData.inquiries parsed) [] = Some inquiries
    ∧ get_default (ParsedData.public_records parsed) [] = Some records
    ∧ let errors :=
        collected now_outdated now_inquiries accounts account_errors
          inquiries records in
      a = {| Analysis.total_errors := Z.of_nat (length errors);
             Analysis.total_discrepancies :=
               Z.of_nat (length (_check_cross_bureau_discrepancies accounts));
             Analysis.total_estimated_impact := sum_impact errors;
             Analysis.errors := errors;
             Analysis.discrepancies :=
               _check_cross_bureau_discrepancies accounts;
             Analysis.error_summary := _summarize_errors errors;
             Analysis.priority_ranking := _rank_by_priority errors;
             Analysis.recommended_disputes :=
               _generate_dispute_recommendations errors |}.
Proof.
  unfold analyze_report.
  destruct (get_default (ReportData.accounts r) []) as [accounts|] eqn:Ha;
    [|done].
  cbn [iter mbind res_bind].
  destruct (mapM _analyze_account accounts) as [account_errors|e] eqn:Hacc;
    [|done].
  cbn [mbind res_bind].
  destruct (get_default (ReportData.parsed_data r) _) as [parsed|] eqn:Hp;
    [|done].
  cbn [mbind res_bind].
  destruct (get_default (ParsedData.inquiries parsed) [])
    as [inquiries|] eqn:Hi; [|done].
  cbn [iter mbind res_bind].
  destruct (get_default (ParsedData.public_records parsed) [])
    as [records|] eqn:Hr; [|done].
  cbn [iter mbind res_bind]. intros [= <-].
  exists accounts, account_errors, parsed, inquiries, records.
  do 5 (split; [done|]). reflexivity.
Qed.

Lemma analyze_account_types account errors :
  _analyze_account account = Ok errors → Forall not_discrepancy errors.
Proof.
  intros (c1&c2&c3&c4&c5&c6&d1&d4& -> & _)%analyze_account_Ok.
  rewrite !Forall_app. repeat split;
    match goal with |- Forall _ (when ?c _) => destruct c end;
    repeat constructor; done.
Qed.

Lemma account_errors_types accounts account_errors :
  mapM _analyze_account accounts = Ok account_errors →
  Forall not_discrepancy (concat account_errors).
Proof.
  intros H%mapM_Ok. induction H as [|a errs l ll Ha _ IH]; simpl;
    [constructor|].
  apply Forall_app. split; [by eapply analyze_account_types | done].
Qed.

Lemma Forall_concat_map {A B} (P : B → Prop) (f : A → list B) l :
  (∀ a, Forall P (f a)) → Forall P (concat (map f l)).
Proof.
  intros Hf. induction l as [|a l IH]; simpl; [constructor|].
  apply Forall_app. by split.
Qed.

Lemma outdated_items_types now accounts :
  Forall not_discrepancy (_check_outdated_items now accounts).
Proof.
  apply Forall_concat_map. intros account. cbv beta zeta.
  destruct (_ && _); [|constructor].
  destruct (datetime.strptime_m_Y _); [|constructor].
  destruct (datetime.ltb _ _); repeat constructor; done.
Qed.

Lemma inquiries_types now inquiries :
  Forall not_discrepancy (_check_inquiries now inquiries).
Proof.
  apply Forall_concat_map. intros inquiry. cbv beta zeta.
  destruct (bool_decide _); [|constructor].
  destruct (truthy_str _); [|constructor].
  destruct (datetime.strptime_m_d_Y _); [|constructor].
  destruct (datetime.ltb _ _); repeat constructor; done.
Qed.

Lemma public_records_types records :
  Forall not_discrepancy (_check_public_records records).
Proof.
  apply Forall_concat_map. intros record. cbv beta zeta.
  destruct (bool_decide _); repeat constructor; done.
Qed.

Lemma discrepancies_types accounts :
  Forall (λ d, Discrepancy.type d = "cross_bureau_discrepancy")
         (_check_cross_bureau_discrepancies accounts).
Proof.
  apply Forall_concat_map. intros [acct_num acct_list].
  unfold group_discrepancies. destruct (bool_decide _); [|constructor].
  apply Forall_app. split;
    match goal with |- Forall _ (when ?c _) => destruct c end;
    repeat constructor.
Qed.

(** *** The severity summary *)

Lemma summary_total_count (summary : gmap string Z) sev :
  summary_total (<[sev := default 0 (summary !! sev) + 1]> summary)
  = summary_total summary + 1.
Proof.
  unfold summary_total.
  assert (Hcomm : ∀ (m : gmap string Z) (j1 j2 : string) (z1 z2 y : Z),
            j1 ≠ j2 → m !! j1 = Some z1 → m !! j2 = Some z2 →
            z1 + (z2 + y) = z2 + (z1 + y)) by (intros; lia).
  destruct (summary !! sev) as [count|] eqn:Hsev; simpl.
  - rewrite <- insert_delete_eq.
    rewrite map_fold_insert_L; [|by apply Hcomm|by apply lookup_delete_eq].
    rewrite (map_fold_delete_L _ _ sev count summary);
      [lia | by apply Hcomm | done].
  - rewrite map_fold_insert_L; [lia | by apply Hcomm | done].
Qed.

Lemma summarize_errors_total errors :
  summary_total (_summarize_errors errors) = Z.of_nat (length errors).
Proof.
  unfold _summarize_errors.
  set (initial := list_to_map _).
  assert (Hinit : summary_total initial = 0) by by vm_compute.
  replace (Z.of_nat (length errors))
    with (summary_total initial + Z.of_nat (length errors)) by lia.
  clear Hinit. generalize initial. clear initial.
  induction errors as [|e errors IH]; intros summary; simpl; [lia|].
  rewrite IH, summary_total_count. lia.
Qed.

(** *** The recommendations *)

Lemma recommendations_length errors :
  length (_generate_dispute_recommendations errors)
  = (length (_rank_by_priority errors) `min` 15)%nat.
Proof.
  unfold _generate_dispute_recommendations.
  rewrite length_imap, length_take. lia.
Qed.

Lemma recommendations_lookup errors i r :
  _generate_dispute_recommendations errors !! i = Some r →
  ∃ e, _rank_by_priority errors !! i = Some e ∧ recommends i e r.
Proof.
  unfold _generate_dispute_recommendations. rewrite list_lookup_imap.
  destruct (take 15 (_rank_by_priority errors) !! i) as [e|] eqn:He; [|done].
  apply lookup_take_Some in He as [He _]. intros [= <-].
  exists e. split; [done|]. by repeat split.
Qed.

Lemma sum_impact_map errors :
  sum_impact errors
  = foldr Z.add 0 (map (λ e, default 0 (Violation.estimated_impact e)) errors).
Proof. induction errors as [|e errors IH]; simpl; [done | by rewrite IH]. Qed.

(** *** Consistency and completion *)

Lemma analyze_report_consistent now_outdated now_inquiries r a :
  analyze_report now_outdated now_inquiries r = Ok a → consistent a.
Proof.
  intros (accounts & account_errors & parsed & inquiries & records
          & _ & Hacc & _ & _ & _ & ->)%analyze_report_Ok.
  unfold consistent. cbn [Analysis.total_errors Analysis.total_discrepancies
    Analysis.total_estimated_impact Analysis.errors Analysis.discrepancies
    Analysis.error_summary Analysis.priority_ranking
    Analysis.recommended_disputes].
  split; [done|]. split; [done|]. split; [apply sum_impact_map|].
  split; [apply summarize_errors_total|].
  split; [apply sorted_Permutation|].
  split.
  { unfold collected. rewrite !Forall_app.
    eauto using account_errors_types, outdated_items_types, inquiries_types,
      public_records_types. }
  split; [apply discrepancies_types|].
  split; [rewrite recommendations_length; lia|].
  split; [apply recommendations_length|].
  apply recommendations_lookup.
Qed.

Lemma analyze_report_total now_outdated now_inquiries r :
  report_not_null r → ∃ a, analyze_report now_outdated now_inquiries r = Ok a.
Proof.
  intros (Ha & Htext & Hp & Hd). unfold analyze_report.
  destruct (ReportData.accounts r) as [| |accounts] eqn:Eacc; [|done|];
    cbn [get_default iter mbind res_bind].
  - destruct (ReportData.parsed_data r) as [| |parsed]; [|done|];
      cbn [get_default iter mbind res_bind mapM]; [by eexists|].
    destruct (Hd parsed eq_refl) as [Hi Hr].
    destruct (ParsedData.inquiries parsed); [|done|];
      destruct (ParsedData.public_records parsed); try done;
      cbn [get_default iter mbind res_bind]; by eexists.
  - simpl in Htext.
    destruct (mapM_total _analyze_account accounts) as [errs ->].
    { eapply Forall_impl; [exact Htext|]. apply analyze_account_total. }
    cbn [mbind res_bind].
    destruct (ReportData.parsed_data r) as [| |parsed]; [|done|];
      cbn [get_default iter mbind res_bind]; [by eexists|].
    destruct (Hd parsed eq_refl) as [Hi Hr].
    destruct (ParsedData.inquiries parsed); [|done|];
      destruct (ParsedData.public_records parsed); try done;
      cbn [get_default iter mbind res_bind]; by eexists.
Qed.

End Report.

(** C10.  Every analysis that [analyze_report] returns is consistent:
    [total_errors] and [total_discrepancies] are the lengths of the two
    lists; [total_estimated_impact] is the sum of the impacts of the errors,
    and of nothing else; the counts of the severity summary add up to
    [total_errors]; the priority ranking is a rearrangement of the errors, no
    error has the type of a discrepancy and every discrepancy has it; the
    recommendations are at most 15, as many as the ranking has up to 15, and
    the recommendation at a position is made from the error at that position
    of the ranking.  The analysis returns for every report in which no entry
    that it iterates over or lowers is [None]. *)
Theorem C10_analysis_is_consistent :
  ∀ now_outdated now_inquiries r,
    (∀ a, ErrorDetector.analyze_report now_outdated now_inquiries r = Ok a →
          consistent a)
    ∧ (report_not_null r →
       ∃ a, ErrorDetector.analyze_report now_outdated now_inquiries r = Ok a).
Proof.
  intros now_outdated now_inquiries r. split.
  - intros a. apply analyze_report_consistent.
  - apply analyze_report_total.
Qed.

(** The analysis of a report with two accounts, an inquiry and a tax lien
    returns, and what it returns is consistent. *)
Lemma C10_analysis_witness :
  ∃ a, ErrorDetector.analyze_report noon_2026_11_04 noon_2026_11_04
         report_of_two_accounts = Ok a
       ∧ consistent a.
Proof.
  destruct (C10_analysis_is_consistent noon_2026_11_04 noon_2026_11_04
              report_of_two_accounts) as [Hconsistent Hreturns].
  destruct Hreturns as [a Ha].
  - unfold report_not_null, report_of_two_accounts, text_not_null. simpl.
    split; [done|]. split; [repeat constructor; done|]. split; [done|].
    intros d [= <-]. done.
  - exists a. split; [exact Ha | exact (Hconsistent a Ha)].
Defined.

(** ** The clock *)

Section Clock.

Import ErrorDetector.

Lemma check_outdated_items_same_side now now' accounts :
  same_side (7 * 365) now now' (negative_open_dates accounts) →
  _check_outdated_items now accounts = _check_outdated_items now' accounts.
Proof.
  unfold same_side, _check_outdated_items, negative_open_dates.
  induction accounts as [|account accounts IH]; [done|].
  cbn [omap list_omap map concat]. intros H.
  destruct (truthy_bool (Account.is_negative account) && _).
  - destruct (datetime.strptime_m_Y _) as [opened|].
    + apply Forall_cons in H as [-> H]. f_equal. by apply IH.
    + f_equal. by apply IH.
  - f_equal. by apply IH.
Qed.

Lemma check_inquiries_same_side now now' inquiries :
  same_side (2 * 365) now now' (hard_inquiry_dates inquiries) →
  _check_inquiries now inquiries = _check_inquiries now' inquiries.
Proof.
  unfold same_side, _check_inquiries, hard_inquiry_dates.
  induction inquiries as [|inquiry inquiries IH]; [done|].
  cbn [omap list_omap map concat]. intros H.
  destruct (bool_decide (get (Inquiry.type inquiry) = Some "hard")).
  - cbn [andb] in *. destruct (truthy_str _).
    + destruct (datetime.strptime_m_d_Y _) as [date|].
      * apply Forall_cons in H as [-> H]. f_equal. by apply IH.
      * f_equal. by apply IH.
    + f_equal. by apply IH.
  - cbn [andb] in *. f_equal. by apply IH.
Qed.

End Clock.

(** C7, as amended.  Two runs of [analyze_report] on the same report return
    the same result (errors, discrepancies, totals, summary, ranking and
    recommendations, or the same exception) whenever the clock readings of
    the two runs put every parsed opening date of an account flagged
    negative on the same side of the limit of 7*365 days, and every parsed
    date of a hard inquiry on the same side of the limit of 2*365 days; in
    particular when the readings are the same, and for every pair of readings
    when the report has no such date. *)
Theorem C7_same_result_when_dates_fall_alike :
  ∀ now_outdated now_inquiries now_outdated' now_inquiries' r,
    same_side (7 * 365) now_outdated now_outdated'
      (negative_open_dates (accounts_of r)) →
    same_side (2 * 365) now_inquiries now_inquiries'
      (hard_inquiry_dates (inquiries_of r)) →
    ErrorDetector.analyze_report now_outdated now_inquiries r
    = ErrorDetector.analyze_report now_outdated' now_inquiries' r.
Proof.
  intros now_outdated now_inquiries now_outdated' now_inquiries' r.
  unfold accounts_of, inquiries_of, ErrorDetector.analyze_report.
  intros Ha Hi.
  destruct (ReportData.accounts r) as [| |accounts];
    cbn [get get_default default iter mbind res_bind option_bind] in *;
    [|done|].
  - destruct (ReportData.parsed_data r) as [| |parsed];
      cbn [get get_default default iter mbind res_bind option_bind mapM
           ParsedData.inquiries ParsedData.public_records] in *; try done.
    destruct (ParsedData.inquiries parsed) as [| |inquiries];
      cbn [get get_default default iter mbind res_bind option_bind] in *;
      try done.
    rewrite (check_inquiries_same_side now_inquiries now_inquiries' inquiries)
      by exact Hi.
    done.
  - destruct (mapM ErrorDetector._analyze_account accounts); [|done].
    cbn [mbind res_bind].
    rewrite (check_outdated_items_same_side now_outdated now_outdated' accounts)
      by exact Ha.
    destruct (ReportData.parsed_data r) as [| |parsed];
      cbn [get get_default default iter mbind res_bind option_bind mapM
           ParsedData.inquiries ParsedData.public_records] in *; try done.
    destruct (ParsedData.inquiries parsed) as [| |inquiries];
      cbn [get get_default default iter mbind res_bind option_bind] in *;
      try done.
    rewrite (check_inquiries_same_side now_inquiries now_inquiries' inquiries)
      by exact Hi.
    done.
Qed.

(** The inquiry of 1 January 2020 is past the limit on 4 November 2026 and
    on 5 November 2026 alike. *)
Lemma C7_same_result_witness :
  ErrorDetector.analyze_report noon_2026_11_04 noon_2026_11_04
    report_with_inquiry_2020
  = ErrorDetector.analyze_report
      (datetime.add_days noon_2026_11_04 1)
      (datetime.add_days noon_2026_11_04 1) report_with_inquiry_2020.
Proof.
  apply C7_same_result_when_dates_fall_alike.
  - constructor.
  - change (hard_inquiry_dates (inquiries_of report_with_inquiry_2020))
      with [datetime.mk 737425 0].
    constructor; [reflexivity | constructor].
Defined.

(** C7, as stated, fails: the report with one hard inquiry of 1 January 2020
    has no error when it is analysed on 1 June 2021 and one error,
    [outdated_inquiry], when it is analysed on 4 November 2026. *)
Lemma C7_counterexample_two_evaluation_times :
  Analysis.total_errors
    <$> ErrorDetector.analyze_report noon_2021_06_01 noon_2021_06_01
          report_with_inquiry_2020 = Ok 0
  ∧ Analysis.total_errors
      <$> ErrorDetector.analyze_report noon_2026_11_04 noon_2026_11_04
            report_with_inquiry_2020 = Ok 1
  ∧ ErrorDetector.analyze_report noon_2021_06_01 noon_2021_06_01
      report_with_inquiry_2020
    ≠ ErrorDetector.analyze_report noon_2026_11_04 noon_2026_11_04
        report_with_inquiry_2020.
Proof.
  split; [by vm_compute|]. split; [by vm_compute|].
  intros H. apply (f_equal (fmap Analysis.total_errors)) in H.
  vm_compute in H. discriminate.
Qed.

(** ** Discrepancies between bureaus *)

Section CrossBureau.

Import ErrorDetector.

Lemma varies_differ `{Countable B} (l : list B) :
  varies l = true ↔ ∃ x y, x ∈ l ∧ y ∈ l ∧ x ≠ y.
Proof.
  unfold varies. rewrite bool_decide_eq_true.
  set (X := list_to_set l : gset B). split.
  - intros Hsize.
    destruct (size_pos_elem_of X) as [x Hx]; [lia|].
    destruct (size_pos_elem_of (X ∖ {[x]})) as [y Hy].
    { rewrite size_difference by set_solver. rewrite size_singleton. lia. }
    exists x, y. subst X. set_solver.
  - intros (x & y & Hx & Hy & Hne).
    destruct (decide (1 < size X)%nat) as [|Hle]; [done|]. exfalso.
    assert (Hx' : x ∈ X) by (subst X; set_solver).
    assert (Hy' : y ∈ X) by (subst X; set_solver).
    assert (size X = 1%nat).
    { assert (size X ≠ 0%nat); [|lia].
      intros H0%size_empty_inv. set_solver. }
    apply Hne. by eapply (size_singleton_inv X).
Qed.

Lemma differ_spec {A B} `{EqDecision B} (f : A → B) (l : list A) :
  differ f l = true ↔ ∃ x y, x ∈ l ∧ y ∈ l ∧ f x ≠ f y.
Proof.
  unfold differ. rewrite existsb_exists. split.
  - intros (x & Hx%list_elem_of_In & (y & Hy%list_elem_of_In & Hne)%existsb_exists).
    exists x, y. split; [done|]. split; [done|].
    by apply negb_true_iff, bool_decide_eq_false in Hne.
  - intros (x & y & Hx & Hy & Hne). exists x.
    split; [by apply list_elem_of_In|]. apply existsb_exists. exists y.
    split; [by apply list_elem_of_In|].
    by apply negb_true_iff, bool_decide_eq_false.
Qed.

Lemma varies_map_differ {A} `{Countable B} (f : A → B) (l : list A) :
  varies (map f l) = differ f l.
Proof.
  apply eq_true_iff_eq. rewrite varies_differ, differ_spec. split.
  - intros (x & y & (a & -> & Ha)%elem_of_map & (b & -> & Hb)%elem_of_map & Hne).
    by exists a, b.
  - intros (a & b & Ha & Hb & Hne). exists (f a), (f b).
    split; [apply elem_of_map; eauto|]. split; [apply elem_of_map; eauto|done].
Qed.

(** The number of discrepancies of one group *)
Lemma length_group_discrepancies k recs :
  length (group_discrepancies k recs) = discrepancies_of_group recs.
Proof.
  unfold group_discrepancies, discrepancies_of_group.
  rewrite (bool_decide_ext (1 < length recs)%nat (2 ≤ length recs)%nat) by lia.
  destruct (bool_decide (2 ≤ length recs)%nat); [|done].
  rewrite length_app.
  change (map (λ a, get_default (Account.current_balance a) 0) recs)
    with (map balance_of recs).
  change (map (λ a, get_default (Account.account_status a) EmptyString) recs)
    with (map status_of recs).
  rewrite !varies_map_differ.
  by destruct (differ balance_of recs), (differ status_of recs).
Qed.

(** *** The dict [by_account] *)

Lemma group_step by_account account :
  match get_default (Account.account_number account) EmptyString with
  | Some (String c r) => by_account_append by_account (String c r) account
  | _ => by_account
  end
  = match number_of account with
    | Some k => by_account_append by_account k account
    | None => by_account
    end.
Proof.
  unfold number_of.
  by destruct (get_default (Account.account_number account) EmptyString)
    as [[|c r]|].
Qed.

Lemma group_by_account_snoc accounts account :
  group_by_account (accounts ++ [account])
  = match number_of account with
    | Some k => by_account_append (group_by_account accounts) k account
    | None => group_by_account accounts
    end.
Proof.
  unfold group_by_account. rewrite fold_left_app. simpl. apply group_step.
Qed.

Lemma numbers_snoc accounts account :
  numbers (accounts ++ [account])
  = match number_of account with
    | Some k =>
        if bool_decide (k ∈ numbers accounts) then numbers accounts
        else numbers accounts ++ [k]
    | None => numbers accounts
    end.
Proof. unfold numbers. by rewrite fold_left_app. Qed.

Lemma records_of_snoc k accounts account :
  records_of k (accounts ++ [account])
  = records_of k accounts
    ++ (if bool_decide (number_of account = Some k) then [account] else []).
Proof.
  unfold records_of. rewrite filter_app. f_equal.
  rewrite filter_cons, filter_nil. by case_decide; case_bool_decide.
Qed.

Lemma elem_of_numbers k accounts :
  k ∈ numbers accounts ↔ ∃ a, a ∈ accounts ∧ number_of a = Some k.
Proof.
  induction accounts as [|account accounts IH] using rev_ind.
  - split; [by inversion 1 | by intros (a & Ha%elem_of_nil & _)].
  - rewrite numbers_snoc. setoid_rewrite elem_of_app.
    setoid_rewrite list_elem_of_singleton.
    destruct (number_of account) as [k'|] eqn:Hk'.
    + case_bool_decide as Hin.
      * rewrite IH. split; [naive_solver|].
        intros (a & [Ha | ->] & Hnum); [eauto|].
        assert (k' = k) as -> by congruence. by apply IH.
      * rewrite elem_of_app, list_elem_of_singleton, IH.
        split; [intros [(a & Ha & Hnum) | ->]; eauto|].
        intros (a & [Ha | ->] & Hnum); [eauto|]. right. congruence.
    + rewrite IH. split; [naive_solver|].
      intros (a & [Ha | ->] & Hnum); [eauto | congruence].
Qed.

Lemma NoDup_numbers accounts : NoDup (numbers accounts).
Proof.
  induction accounts as [|account accounts IH] using rev_ind;
    [constructor|].
  rewrite numbers_snoc. destruct (number_of account) as [k|]; [|done].
  case_bool_decide as Hin; [done|].
  apply NoDup_app. split; [done|]. split; [|apply NoDup_singleton].
  intros x Hx ->%list_elem_of_singleton. done.
Qed.

Lemma records_of_nil_iff k accounts :
  records_of k accounts = [] ↔ k ∉ numbers accounts.
Proof.
  rewrite elem_of_numbers. unfold records_of. split.
  - intros Hnil (a & Ha & Hnum).
    assert (a ∈ filter (λ a, number_of a = Some k) accounts) as Hin
      by by apply list_elem_of_filter.
    rewrite Hnil in Hin. by apply elem_of_nil in Hin.
  - intros Hno. destruct (filter _ accounts) as [|a l] eqn:Hf; [done|].
    exfalso. apply Hno. exists a.
    assert (a ∈ filter (λ a, number_of a = Some k) accounts) as Hin
      by (rewrite Hf; left).
    apply list_elem_of_filter in Hin as [? ?]. done.
Qed.

Lemma by_account_append_new (f : string → list Account.t) ns k account :
  k ∉ ns →
  by_account_append (map (λ k', (k', f k')) ns) k account
  = map (λ k', (k', f k')) ns ++ [(k, [account])].
Proof.
  induction ns as [|n ns IH]; simpl; [done|].
  intros Hk. apply not_elem_of_cons in Hk as [Hne Hk].
  destruct (String.eqb n k) eqn:Heq.
  - apply String.eqb_eq in Heq. congruence.
  - by rewrite IH.
Qed.

Lemma by_account_append_old (f : string → list Account.t) ns k account :
  k ∈ ns → NoDup ns →
  by_account_append (map (λ k', (k', f k')) ns) k account
  = map (λ k', (k', if bool_decide (k' = k) then f k' ++ [account] else f k'))
        ns.
Proof.
  induction ns as [|n ns IH]; simpl; [by intros ?%elem_of_nil|].
  intros Hk Hnd. apply NoDup_cons in Hnd as [Hn Hnd].
  destruct (String.eqb n k) eqn:Heq.
  - apply String.eqb_eq in Heq as ->.
    rewrite bool_decide_eq_true_2 by done. f_equal.
    apply map_ext_in. intros k' Hk'%list_elem_of_In.
    rewrite bool_decide_eq_false_2; [done|]. by intros ->.
  - apply String.eqb_neq in Heq.
    rewrite bool_decide_eq_false_2 by done. f_equal.
    apply IH; [|done]. apply elem_of_cons in Hk as [->|]; done.
Qed.

(** The dict holds, for each number of the report in the order of first
    appearance, the records that share the number. *)
Lemma group_by_account_spec accounts :
  group_by_account accounts
  = map (λ k, (k, records_of k accounts)) (numbers accounts).
Proof.
  induction accounts as [|account accounts IH] using rev_ind; [done|].
  rewrite group_by_account_snoc, numbers_snoc, IH.
  destruct (number_of account) as [k|] eqn:Hk.
  - case_bool_decide as Hin.
    + rewrite by_account_append_old by (done || apply NoDup_numbers).
      apply map_ext. intros k'. rewrite records_of_snoc, Hk.
      case_bool_decide as H1; case_bool_decide as H2; try done.
      * congruence.
      * congruence.
      * by rewrite app_nil_r.
    + rewrite by_account_append_new by done.
      rewrite map_app. simpl. f_equal.
      * apply map_ext_in. intros k' Hk'%list_elem_of_In.
        rewrite records_of_snoc, Hk.
        rewrite bool_decide_eq_false_2, app_nil_r; [done|].
        intros [= ->]. done.
      * rewrite records_of_snoc, Hk, bool_decide_eq_true_2 by done.
        apply records_of_nil_iff in Hin. by rewrite Hin.
  - apply map_ext. intros k'. rewrite records_of_snoc, Hk.
    by rewrite bool_decide_eq_false_2, app_nil_r.
Qed.

Lemma check_cross_bureau_spec accounts :
  _check_cross_bureau_discrepancies accounts
  = concat (map (λ k, group_discrepancies k (records_of k accounts))
                (numbers accounts)).
Proof.
  unfold _check_cross_bureau_discrepancies.
  rewrite group_by_account_spec, map_map. done.
Qed.

Lemma concat_map_only {A B} (g : A → list B) (ns : list A) (k : A) :
  NoDup ns → k ∈ ns → (∀ k', k' ∈ ns → k' ≠ k → g k' = []) →
  concat (map g ns) = g k.
Proof.
  induction ns as [|n ns IH]; simpl; [by intros _ ?%elem_of_nil|].
  intros [Hn Hnd]%NoDup_cons Hk Hg.
  apply elem_of_cons in Hk as [->|Hk].
  - assert (concat (map g ns) = []) as ->; [|by rewrite app_nil_r].
    clear IH. induction ns as [|m ns IH]; simpl; [done|].
    apply not_elem_of_cons in Hn as [Hne Hn].
    apply NoDup_cons in Hnd as [_ Hnd].
    rewrite (Hg m); [|by right; left|done]. simpl. apply IH; [done..|].
    intros k' Hk'. apply Hg. apply elem_of_cons in Hk' as [->|Hk'];
      [by left | by right; right].
  - rewrite (Hg n); [|by left|by intros ->]. simpl.
    apply IH; [done..|]. intros k' Hk'. apply Hg. by right.
Qed.

Lemma concat_map_nil {A B} (g : A → list B) (ns : list A) :
  (∀ k, g k = []) → concat (map g ns) = [].
Proof.
  intros Hg. induction ns as [|n ns IH]; simpl; [done|]. by rewrite Hg, IH.
Qed.

Lemma group_discrepancies_agree k recs :
  ((2 ≤ length recs)%nat →
   differ balance_of recs = false ∧ differ status_of recs = false) →
  group_discrepancies k recs = [].
Proof.
  intros Hagree. apply nil_length_inv.
  rewrite length_group_discrepancies. unfold discrepancies_of_group.
  case_bool_decide as Hlen; [|done]. destruct (Hagree Hlen) as [-> ->]. done.
Qed.

Lemma group_discrepancies_single k recs :
  (length recs ≤ 1)%nat → group_discrepancies k recs = [].
Proof.
  intros Hlen. unfold group_discrepancies.
  by rewrite bool_decide_eq_false_2 by lia.
Qed.

Lemma length_concat_map {A B} (g : A → list B) (ns : list A) :
  length (concat (map g ns)) = sum_list (map (λ k, length (g k)) ns).
Proof.
  induction ns as [|n ns IH]; simpl; [done|]. by rewrite length_app, IH.
Qed.

(** Two records under one number with two balances and one status *)
Lemma group_discrepancies_two_balances k a b (x y : Z) :
  x ≠ y → balance_of a = Some x → balance_of b = Some y →
  status_of a = status_of b →
  group_discrepancies k [a; b]
  = [{| Discrepancy.type := "cross_bureau_discrepancy";
        Discrepancy.account_number := k;
        Discrepancy.description :=
          "Balance varies across bureaus: "
          +:+ repr_list (repr_option str_int) [Some x; Some y];
        Discrepancy.severity := "high";
        Discrepancy.fcra_section := "623(a)(1)" |}].
Proof.
  intros Hxy Ha Hb Hs. unfold group_discrepancies.
  rewrite bool_decide_eq_true_2 by (simpl; lia).
  change (map (λ a, get_default (Account.current_balance a) 0) [a; b])
    with (map balance_of [a; b]).
  change (map (λ a, get_default (Account.account_status a) EmptyString) [a; b])
    with (map status_of [a; b]).
  rewrite !varies_map_differ.
  assert (differ balance_of [a; b] = true) as ->.
  { apply differ_spec. exists a, b.
    split; [by left|]. split; [by right; left|]. rewrite Ha, Hb. congruence. }
  assert (differ status_of [a; b] = false) as ->.
  { unfold differ. simpl. rewrite Hs.
    by rewrite !bool_decide_eq_true_2 by done. }
  simpl. by rewrite Ha, Hb.
Qed.

End CrossBureau.

(** C3.  The check groups the records by account number: a record is in a
    group when its number is there and not empty, each number has one group,
    and the groups come in the order in which the numbers first appear.  For
    each group of two or more records it adds one discrepancy when the
    balances differ and one when the statuses differ, and every discrepancy
    has the type [cross_bureau_discrepancy].  When, under every shared
    number, balances agree and statuses agree, there is no discrepancy.  When
    exactly two records share a number, no other number is shared, their
    balances are 500 and 750 and their statuses are equal, there is exactly
    one discrepancy; its description names both balances. *)
Theorem C3_cross_bureau_discrepancies :
  (∀ accounts,
     ErrorDetector._check_cross_bureau_discrepancies accounts
     = concat (map (λ k, ErrorDetector.group_discrepancies k
                           (records_of k accounts))
                   (numbers accounts))
     ∧ NoDup (numbers accounts)
     ∧ (∀ k, k ∈ numbers accounts ↔ records_of k accounts ≠ [])
     ∧ (∀ k, length (ErrorDetector.group_discrepancies k
                       (records_of k accounts))
             = discrepancies_of_group (records_of k accounts))
     ∧ length (ErrorDetector._check_cross_bureau_discrepancies accounts)
       = sum_list (map (λ k, discrepancies_of_group (records_of k accounts))
                       (numbers accounts))
     ∧ Forall (λ d, Discrepancy.type d = "cross_bureau_discrepancy")
              (ErrorDetector._check_cross_bureau_discrepancies accounts))
  ∧ (∀ accounts,
       (∀ k, (2 ≤ length (records_of k accounts))%nat →
             differ balance_of (records_of k accounts) = false
             ∧ differ status_of (records_of k accounts) = false) →
       ErrorDetector._check_cross_bureau_discrepancies accounts = [])
  ∧ (∀ accounts k a b,
       records_of k accounts = [a; b] →
       (∀ k', k' ≠ k → (length (records_of k' accounts) ≤ 1)%nat) →
       (balance_of a = Some 500 ∧ balance_of b = Some 750
        ∨ balance_of a = Some 750 ∧ balance_of b = Some 500) →
       status_of a = status_of b →
       ∃ d, ErrorDetector._check_cross_bureau_discrepancies accounts = [d]
            ∧ Discrepancy.type d = "cross_bureau_discrepancy"
            ∧ Discrepancy.account_number d = k
            ∧ contains "500" (Discrepancy.description d) = true
            ∧ contains "750" (Discrepancy.description d) = true).
Proof.
  split; [|split].
  - intros accounts. split; [apply check_cross_bureau_spec|].
    split; [apply NoDup_numbers|]. split.
    { intros k. rewrite records_of_nil_iff.
      destruct (decide (k ∈ numbers accounts)); naive_solver. }
    split; [intros k; apply length_group_discrepancies|].
    split; [|apply discrepancies_types].
    rewrite check_cross_bureau_spec, length_concat_map. f_equal.
    apply map_ext. intros k. apply length_group_discrepancies.
  - intros accounts Hagree. rewrite check_cross_bureau_spec.
    apply concat_map_nil. intros k. apply group_discrepancies_agree, Hagree.
  - intros accounts k a b Hk Hothers Hbal Hstatus.
    rewrite check_cross_bureau_spec.
    rewrite (concat_map_only _ _ k).
    + rewrite Hk. destruct Hbal as [[Ha Hb] | [Ha Hb]].
      * rewrite (group_discrepancies_two_balances k a b 500 750) by done.
        eexists. split; [reflexivity|]. by vm_compute.
      * rewrite (group_discrepancies_two_balances k a b 750 500) by done.
        eexists. split; [reflexivity|]. by vm_compute.
    + apply NoDup_numbers.
    + destruct (decide (k ∈ numbers accounts)) as [|Hno]; [done|].
      apply records_of_nil_iff in Hno. by rewrite Hno in Hk.
    + intros k' _ Hne. by apply group_discrepancies_single, Hothers.
Qed.

(** The two records of the scenario, among a record without a number and a
    record with a number of its own. *)
Lemma C3_cross_bureau_witness :
  ∃ d,
    ErrorDetector._check_cross_bureau_discrepancies
      [record_4111 500; abc_bank Missing Missing Missing; record_4111 750;
       abc_bank (Val "5500000000000004") Missing Missing]
    = [d]
    ∧ Discrepancy.type d = "cross_bureau_discrepancy"
    ∧ Discrepancy.account_number d = "4111111111111111"
    ∧ contains "500" (Discrepancy.description d) = true
    ∧ contains "750" (Discrepancy.description d) = true.
Proof.
  apply (proj2 (proj2 C3_cross_bureau_discrepancies) _ _
           (record_4111 500) (record_4111 750)).
  - reflexivity.
  - intros k' Hne. unfold records_of.
    rewrite !filter_cons, filter_nil. cbn [number_of abc_bank record_4111
      get_default Account.account_number].
    repeat case_decide; try congruence; simpl; lia.
  - left. split; reflexivity.
  - reflexivity.
Defined.

(** ** The rounds of a strategy *)

Section Rounds.

Import StrategyBuilder.

Lemma fives_step (m : nat) :
  (0 < m → (m + 4) / 5 = S ((m - 5 + 4) / 5))%nat.
Proof.
  intros Hm. destruct (decide (m < 5)%nat) as [Hlt|Hge].
  - do 5 (destruct m as [|m]; [done || lia|]). lia.
  - replace (m + 4)%nat with (m - 5 + 4 + 1 * 5)%nat by lia.
    rewrite Nat.div_add by done. lia.
Qed.

Lemma rounds_loop_unfold by_bureau round_num :
  rounds_loop by_bureau round_num
  = if any_items by_bureau
    then (take_round by_bureau round_num).1
         :: rounds_loop (take_round by_bureau round_num).2 (round_num + 1)
    else [].
Proof.
  rewrite rounds_loop_equation_1. unfold rounds_loop_unfold_clause_1.
  destruct (any_items by_bureau); reflexivity.
Qed.

Lemma any_items_false by_bureau :
  any_items by_bureau = false →
  q_equifax by_bureau = [] ∧ q_experian by_bureau = []
  ∧ q_transunion by_bureau = [].
Proof.
  unfold any_items. intros H.
  apply orb_false_iff in H as [H Ht]. apply orb_false_iff in H as [He Hx].
  apply bool_decide_eq_false in He, Hx, Ht.
  repeat split; apply nil_length_inv; lia.
Qed.

Lemma any_items_true by_bureau :
  any_items by_bureau = true →
  (0 < Nat.max (Nat.max (length (q_equifax by_bureau))
                        (length (q_experian by_bureau)))
               (length (q_transunion by_bureau)))%nat.
Proof.
  unfold any_items. intros H.
  repeat (apply orb_prop in H as [H|H]); apply bool_decide_eq_true in H; lia.
Qed.

Lemma assign_to_bureaus_from sorted_errors a b c :
  fold_left
    (λ by_bureau error,
       if bool_decide (Violation.type error = Some "cross_bureau_discrepancy")
       then mkQueues (q_equifax by_bureau ++ [error])
                     (q_experian by_bureau ++ [error])
                     (q_transunion by_bureau ++ [error])
       else mkQueues (q_equifax by_bureau ++ [error])
                     (q_experian by_bureau ++ [error])
                     (q_transunion by_bureau ++ [error]))
    sorted_errors (mkQueues a b c)
  = mkQueues (a ++ sorted_errors) (b ++ sorted_errors) (c ++ sorted_errors).
Proof.
  revert a b c. induction sorted_errors as [|e l IH]; intros a b c; simpl.
  - by rewrite !app_nil_r.
  - destruct (bool_decide _); rewrite IH, <- !app_assoc; reflexivity.
Qed.

(** Every error is queued for every bureau. *)
Lemma assign_to_bureaus_all sorted_errors :
  assign_to_bureaus sorted_errors
  = mkQueues sorted_errors sorted_errors sorted_errors.
Proof. unfold assign_to_bureaus. by rewrite assign_to_bureaus_from. Qed.

Lemma slice_next i queue : slice (S i) queue = slice i (drop 5 queue).
Proof.
  unfold slice. rewrite drop_drop. do 3 f_equal. lia.
Qed.

Lemma round_at_next by_bureau start i :
  round_at by_bureau start (S i)
  = round_at (take_round by_bureau start).2 (start + 1) i.
Proof.
  unfold round_at. simpl. rewrite !slice_next. f_equal. lia.
Qed.

(** The loop makes the rounds of the closed form. *)
Lemma rounds_loop_closed_form by_bureau start :
  rounds_loop by_bureau start
  = map (round_at by_bureau start) (seq 0 (rounds_needed by_bureau)).
Proof.
  remember (queued by_bureau) as m eqn:Hm. revert by_bureau start Hm.
  induction m as [m IH] using lt_wf_ind. intros by_bureau start ->.
  rewrite rounds_loop_unfold. destruct (any_items by_bureau) eqn:Hany.
  - pose proof (take_round_queued by_bureau start Hany) as Hlt.
    rewrite (IH _ Hlt _ (start + 1) eq_refl).
    assert (rounds_needed by_bureau
            = S (rounds_needed (take_round by_bureau start).2)) as ->.
    { apply any_items_true in Hany. unfold rounds_needed, take_round.
      cbn [snd q_equifax q_experian q_transunion].
      rewrite !length_drop, !Nat.sub_max_distr_r. by apply fives_step. }
    simpl. f_equal.
    + unfold round_at, take_round, slice. simpl. f_equal. lia.
    + rewrite <- seq_shift, map_map. apply map_ext. intros i.
      symmetry. apply round_at_next.
  - apply any_items_false in Hany as (He & Hx & Ht).
    unfold rounds_needed. rewrite He, Hx, Ht. reflexivity.
Qed.

Lemma length_slice i queue :
  length (slice i queue) = (5 `min` (length queue - 5 * i))%nat.
Proof. unfold slice. by rewrite length_map, length_take, length_drop. Qed.

(** The loop empties each queue: the rounds hold the items of a queue, all
    of them and in its order. *)
Lemma rounds_loop_all_items by_bureau start :
  concat (map Round.equifax (rounds_loop by_bureau start))
  = map schedule (q_equifax by_bureau)
  ∧ concat (map Round.experian (rounds_loop by_bureau start))
    = map schedule (q_experian by_bureau)
  ∧ concat (map Round.transunion (rounds_loop by_bureau start))
    = map schedule (q_transunion by_bureau).
Proof.
  remember (queued by_bureau) as m eqn:Hm. revert by_bureau start Hm.
  induction m as [m IH] using lt_wf_ind. intros by_bureau start ->.
  rewrite rounds_loop_unfold. destruct (any_items by_bureau) eqn:Hany.
  - pose proof (take_round_queued by_bureau start Hany) as Hlt.
    destruct (IH _ Hlt _ (start + 1) eq_refl) as (He & Hx & Ht).
    cbn [map concat]. rewrite He, Hx, Ht. simpl.
    rewrite <- !map_app, !take_drop. done.
  - apply any_items_false in Hany as (-> & -> & ->). done.
Qed.

Lemma rounds_loop_capped by_bureau start :
  Forall capped (rounds_loop by_bureau start).
Proof.
  rewrite rounds_loop_closed_form. apply Forall_forall.
  intros r (i & -> & _)%elem_of_map. unfold capped, round_at. simpl.
  rewrite !length_slice. lia.
Qed.

Lemma organize_rounds_closed_form errors start :
  _organize_rounds errors start
  = map (round_at (let l := sorted ErrorDetector.priority_key errors in
                   mkQueues l l l) start)
        (seq 0 ((length errors + 4) / 5)).
Proof.
  unfold _organize_rounds. cbv zeta.
  rewrite assign_to_bureaus_all, rounds_loop_closed_form.
  unfold rounds_needed. cbn [q_equifax q_experian q_transunion].
  by rewrite length_sorted, !Nat.max_id.
Qed.

Lemma build_strategy_Ok now errors client_data round_number s :
  build_strategy now errors client_data round_number = Ok s →
  Strategy.rounds s = _organize_rounds errors round_number
  ∧ Strategy.total_rounds s
    = Z.of_nat (length (_organize_rounds errors round_number))
  ∧ Strategy.timeline s
    = _create_timeline now (_organize_rounds errors round_number) round_number
  ∧ _calculate_estimates errors = Ok (Strategy.estimated_improvement s).
Proof.
  unfold build_strategy.
  destruct (_calculate_estimates errors) as [estimates|e]; [|done].
  cbn [mbind res_bind]. by intros [= <-].
Qed.

(** The estimates of every impact sum from 0 to 5000 can be computed. *)
Lemma estimates_defined_upto_5000 :
  forallb (λ i, estimates_defined (Z.of_nat i)) (seq 0 (Z.to_nat 5001))
  = true.
Proof. vm_compute. reflexivity. Qed.

Lemma estimates_defined_range z :
  0 ≤ z ≤ 5000 → estimates_defined z = true.
Proof.
  intros Hz. pose proof estimates_defined_upto_5000 as H.
  rewrite forallb_forall in H. specialize (H (Z.to_nat z)).
  rewrite Z2Nat.id in H by lia. apply H, in_seq. lia.
Qed.

Lemma calculate_estimates_total errors :
  0 ≤ ErrorDetector.sum_impact errors ≤ 5000 →
  ∃ estimates, _calculate_estimates errors = Ok estimates.
Proof.
  intros H%estimates_defined_range. unfold _calculate_estimates.
  destruct errors as [|e errors]; [by eexists|].
  unfold estimates_defined in H.
  destruct (float.int_mul _ float.lit_1_0); [|done].
  destruct (float.int_mul _ float.lit_0_6); [|done].
  destruct (float.int_mul _ float.lit_0_3); [|done].
  cbn [mbind res_bind]. by eexists.
Qed.

Lemma build_strategy_total now errors client_data round_number :
  0 ≤ ErrorDetector.sum_impact errors ≤ 5000 →
  ∃ s, build_strategy now errors client_data round_number = Ok s.
Proof.
  intros [estimates He]%calculate_estimates_total. unfold build_strategy.
  rewrite He. cbn [mbind res_bind]. by eexists.
Qed.

Lemma organize_rounds_length errors start :
  length (_organize_rounds errors start) = ((length errors + 4) / 5)%nat.
Proof.
  by rewrite organize_rounds_closed_form, length_map, length_seq.
Qed.

Lemma organize_rounds_all_items errors start :
  let rounds := _organize_rounds errors start in
  let scheduled := map schedule (sorted ErrorDetector.priority_key errors) in
  concat (map Round.equifax rounds) = scheduled
  ∧ concat (map Round.experian rounds) = scheduled
  ∧ concat (map Round.transunion rounds) = scheduled.
Proof.
  unfold _organize_rounds. cbv zeta. rewrite assign_to_bureaus_all.
  apply rounds_loop_all_items.
Qed.

Lemma organize_rounds_twelve errors :
  length errors = 12%nat →
  map sizes (_organize_rounds errors 1)
  = [(1, 5%nat, 5%nat, 5%nat); (2, 5%nat, 5%nat, 5%nat);
     (3, 2%nat, 2%nat, 2%nat)].
Proof.
  intros Hlen. rewrite organize_rounds_closed_form, Hlen.
  change ((12 + 4) / 5)%nat with 3%nat.
  cbn [seq map]. unfold sizes, round_at.
  cbn [Round.round_number Round.equifax Round.experian Round.transunion
       q_equifax q_experian q_transunion].
  rewrite !length_slice, length_sorted, Hlen. reflexivity.
Qed.

(** *** The timeline *)

Lemma add_days_0 d : datetime.add_days d 0 = d.
Proof. destruct d. unfold datetime.add_days. simpl. f_equal. lia. Qed.

Lemma add_days_add d a b :
  datetime.add_days (datetime.add_days d a) b = datetime.add_days d (a + b).
Proof. unfold datetime.add_days. simpl. f_equal. lia. Qed.

Lemma create_timeline_lookup now rounds start i entry :
  _create_timeline now rounds start !! i = Some entry →
  timeline_dates now start i entry.
Proof.
  unfold _create_timeline. rewrite list_lookup_imap.
  destruct (rounds !! i) as [round_data|]; [|done].
  intros [= <-]. by repeat split.
Qed.

Lemma create_timeline_length now rounds start :
  length (_create_timeline now rounds start) = length rounds.
Proof. apply length_imap. Qed.

End Rounds.

(** C4.  [_organize_rounds] gives no bureau more than five items in any
    round, makes as many rounds as the errors need in fives, and goes on
    until each queue is empty: the rounds hold, for each bureau, every
    error, in the order of the ranking.  Twelve errors and a first round
    numbered 1 make exactly three rounds, numbered 1, 2 and 3, in which each
    of the three bureaus has 5, 5 and 2 items.  A strategy that
    [build_strategy] returns holds these rounds and their number, and
    [build_strategy] returns one whenever the impacts of the errors add up
    to a number from 0 to 5000. *)
Theorem C4_rounds_of_five :
  (∀ errors start,
     let rounds := StrategyBuilder._organize_rounds errors start in
     let scheduled :=
       map StrategyBuilder.schedule
           (sorted ErrorDetector.priority_key errors) in
     Forall capped rounds
     ∧ length rounds = ((length errors + 4) / 5)%nat
     ∧ concat (map Round.equifax rounds) = scheduled
     ∧ concat (map Round.experian rounds) = scheduled
     ∧ concat (map Round.transunion rounds) = scheduled
     ∧ (∀ now client_data s,
          StrategyBuilder.build_strategy now errors client_data start = Ok s →
          Strategy.rounds s = rounds
          ∧ Strategy.total_rounds s = Z.of_nat (length rounds))
     ∧ (0 ≤ ErrorDetector.sum_impact errors ≤ 5000 →
        ∀ now client_data,
          ∃ s, StrategyBuilder.build_strategy now errors client_data start
               = Ok s))
  ∧ (∀ errors,
       length errors = 12%nat →
       let three_rounds :=
         [(1, 5%nat, 5%nat, 5%nat); (2, 5%nat, 5%nat, 5%nat);
          (3, 2%nat, 2%nat, 2%nat)] in
       map sizes (StrategyBuilder._organize_rounds errors 1) = three_rounds
       ∧ ∀ now client_data s,
           StrategyBuilder.build_strategy now errors client_data 1 = Ok s →
           Strategy.total_rounds s = 3
           ∧ map sizes (Strategy.rounds s) = three_rounds).
Proof.
  split.
  - intros errors start. cbv zeta.
    split; [apply rounds_loop_capped|].
    split; [apply organize_rounds_length|].
    destruct (organize_rounds_all_items errors start) as (He & Hx & Ht).
    do 3 (split; [done|]). split.
    + intros now client_data s (Hr & Hn & _)%build_strategy_Ok. done.
    + intros Hsum now client_data. by apply build_strategy_total.
  - intros errors Hlen. cbv zeta.
    split; [by apply organize_rounds_twelve|].
    intros now client_data s (Hr & Hn & _)%build_strategy_Ok.
    rewrite Hn, Hr, organize_rounds_length, Hlen.
    split; [reflexivity | by apply organize_rounds_twelve].
Qed.

(** The strategy for twelve violations *)
Lemma C4_rounds_of_five_witness :
  ∃ s, StrategyBuilder.build_strategy noon_2026_11_04 twelve_violations
         (Client.mk (Val 7) (Val "A. Client")) 1 = Ok s
       ∧ Strategy.total_rounds s = 3
       ∧ map sizes (Strategy.rounds s)
         = [(1, 5%nat, 5%nat, 5%nat); (2, 5%nat, 5%nat, 5%nat);
            (3, 2%nat, 2%nat, 2%nat)].
Proof.
  destruct (StrategyBuilder.build_strategy noon_2026_11_04 twelve_violations
              (Client.mk (Val 7) (Val "A. Client")) 1) as [s|e] eqn:Hs.
  - exists s. split; [reflexivity|].
    exact (proj2 (proj2 C4_rounds_of_five twelve_violations eq_refl) _ _ _ Hs).
  - vm_compute in Hs. discriminate Hs.
Defined.

(** C5.  For a list of errors that is not empty the timeline has an entry
    for each round, and at least one.  The entry at position [i], counted
    from 0, has the round number [start + i], the send date of the clock
    reading plus [45 * i] days, the response deadline 30 days after the send
    date and the follow-up date 7 days after the deadline, each printed as
    year-month-day.  With a first round numbered 1 the second entry is round
    2: it is sent 45 days after the first, and its response is due 30 days
    after it is sent.  A strategy that [build_strategy] returns holds this
    timeline, and [build_strategy] returns one whenever the impacts of the
    errors add up to a number from 0 to 5000. *)
Theorem C5_timeline_dates :
  ∀ now errors start,
    errors ≠ [] →
    let rounds := StrategyBuilder._organize_rounds errors start in
    let timeline := StrategyBuilder._create_timeline now rounds start in
    (1 ≤ length timeline)%nat
    ∧ length timeline = length rounds
    ∧ (∀ i entry, timeline !! i = Some entry →
                  timeline_dates now start i entry)
    ∧ (∀ first second,
         start = 1 →
         timeline !! 0%nat = Some first → timeline !! 1%nat = Some second →
         ∃ sent,
           TimelineEntry.round first = 1
           ∧ TimelineEntry.send_date first = datetime.strftime_Y_m_d sent
           ∧ TimelineEntry.round second = 2
           ∧ TimelineEntry.send_date second
             = datetime.strftime_Y_m_d (datetime.add_days sent 45)
           ∧ TimelineEntry.response_deadline second
             = datetime.strftime_Y_m_d
                 (datetime.add_days (datetime.add_days sent 45) 30))
    ∧ (∀ client_data s,
         StrategyBuilder.build_strategy now errors client_data start = Ok s →
         Strategy.timeline s = timeline)
    ∧ (0 ≤ ErrorDetector.sum_impact errors ≤ 5000 →
       ∀ client_data,
         ∃ s, StrategyBuilder.build_strategy now errors client_data start
              = Ok s).
Proof.
  intros now errors start Herrors. cbv zeta.
  split; [|split; [apply create_timeline_length|split; [|split; [|split]]]].
  - rewrite create_timeline_length, organize_rounds_length.
    destruct errors as [|e errors]; [done|]. simpl length.
    apply Nat.div_le_lower_bound; lia.
  - intros i entry. apply create_timeline_lookup.
  - intros first second -> (H1 & Hs1 & _)%create_timeline_lookup
      (H2 & Hs2 & Hr2 & _)%create_timeline_lookup.
    exists now. change (Z.of_nat 0 * 45) with 0 in Hs1.
    rewrite add_days_0 in Hs1.
    split; [done|]. split; [done|]. split; [done|]. by rewrite Hs2, Hr2.
  - intros client_data s (_ & _ & Ht & _)%build_strategy_Ok. done.
  - intros Hsum client_data. by apply build_strategy_total.
Qed.

(** The timeline of the twelve violations on 4 November 2026: the second
    round is sent on 19 December 2026 and its response is due on 18 January
    2027. *)
Lemma C5_timeline_dates_witness :
  ∃ first second,
    StrategyBuilder._create_timeline noon_2026_11_04
      (StrategyBuilder._organize_rounds twelve_violations 1) 1
    !! 1%nat = Some second
    ∧ StrategyBuilder._create_timeline noon_2026_11_04
        (StrategyBuilder._organize_rounds twelve_violations 1) 1
      !! 0%nat = Some first
    ∧ TimelineEntry.send_date first = "2026-11-04"
    ∧ TimelineEntry.send_date second = "2026-12-19"
    ∧ TimelineEntry.response_deadline second = "2027-01-18"
    ∧ TimelineEntry.follow_up_date second = "2027-01-25"
    ∧ timeline_dates noon_2026_11_04 1 1 second.
Proof.
  destruct (StrategyBuilder._create_timeline noon_2026_11_04
              (StrategyBuilder._organize_rounds twelve_violations 1) 1
            !! 1%nat) as [second|] eqn:H2;
    [|vm_compute in H2; discriminate H2].
  destruct (StrategyBuilder._create_timeline noon_2026_11_04
              (StrategyBuilder._organize_rounds twelve_violations 1) 1
            !! 0%nat) as [first|] eqn:H1;
    [|vm_compute in H1; discriminate H1].
  exists first, second. split; [reflexivity|]. split; [reflexivity|].
  assert (Hnonempty : twelve_violations ≠ []) by discriminate.
  pose proof (proj1 (proj2 (proj2
    (C5_timeline_dates noon_2026_11_04 twelve_violations 1 Hnonempty))))
    as Hdates.
  pose proof (Hdates _ _ H1) as (_ & Hs1 & _).
  pose proof (Hdates _ _ H2) as (Hr2 & Hs2 & Hd2 & Hf2).
  split; [rewrite Hs1; reflexivity|].
  split; [rewrite Hs2; reflexivity|].
  split; [rewrite Hd2; reflexivity|].
  split; [rewrite Hf2; reflexivity|].
  exact (Hdates _ _ H2).
Defined.

(** C9.  For an empty list of errors, whoever the client and whatever the
    number of the first round, [build_strategy] returns a strategy with no
    round ([total_rounds] is 0), an empty timeline, and the estimates best,
    realistic and conservative all 0. *)
Theorem C9_empty_strategy :
  ∀ now client_data round_number,
    ∃ s, StrategyBuilder.build_strategy now [] client_data round_number = Ok s
         ∧ Strategy.total_rounds s = 0
         ∧ Strategy.rounds s = []
         ∧ Strategy.timeline s = []
         ∧ Strategy.estimated_improvement s = Estimates.mk 0 0 0
         ∧ Strategy.current_round s = round_number.
Proof.
  intros now client_data round_number. eexists. split.
  - unfold StrategyBuilder.build_strategy.
    rewrite organize_rounds_closed_form. reflexivity.
  - by repeat split.
Qed.

(** ** Failures of the extraction *)

Section Failures.

Import OCREngine OCRIntegration.

Lemma startswith_OCR_Error msg :
  startswith ("OCR Error: " +:+ msg) "OCR Error:" = true
  ∧ startswith ("OCR Error: " +:+ msg) "OCR Error" = true.
Proof. split; reflexivity. Qed.

Lemma pages_text_raises {Image} (_process_image : Image → res string)
    images image e :
  image ∈ images → _process_image image = Raise e →
  ∀ i full_text, ∃ e', pages_text Image _process_image i images full_text
                       = Raise e'.
Proof.
  induction images as [|first images IH]; [by intros ?%elem_of_nil|].
  intros Hin He i full_text. simpl.
  destruct (_process_image first) as [page_text|e'] eqn:Hfirst;
    cbn [mbind res_bind]; [|by eexists].
  apply elem_of_cons in Hin as [->|Hin]; [congruence|]. by apply IH.
Qed.

Lemma process_credit_report_cases A parse_report process_pdf _detect_bureau
    _extract_personal_info _extract_accounts _extract_inquiries
    _extract_public_records _extract_score file_path bureau :
  let result :=
    process_credit_report A parse_report process_pdf _detect_bureau
      _extract_personal_info _extract_accounts _extract_inquiries
      _extract_public_records _extract_score file_path bureau in
  reports_failure result ∨ reports_extraction result.
Proof.
  cbv zeta. unfold process_credit_report.
  destruct (has_meaningful_data A (parse_report file_path bureau)).
  - destruct (parse_report file_path bureau) as [d|msg path].
    + right. repeat split; eauto.
    + destruct (negb (startswith (process_pdf file_path) "OCR Error")).
      * destruct (parse_ocr_text _ _ _ _ _ _ _ _ _) as [data|e].
        -- right. repeat split; eauto.
        -- left. by repeat split.
      * left. by repeat split.
  - destruct (negb (startswith (process_pdf file_path) "OCR Error")).
    + destruct (parse_ocr_text _ _ _ _ _ _ _ _ _) as [data|e].
      * right. repeat split; eauto.
      * left. by repeat split.
    + left. by repeat split.
Qed.

Lemma process_credit_report_both_fail A parse_report process_pdf
    _detect_bureau _extract_personal_info _extract_accounts
    _extract_inquiries _extract_public_records _extract_score
    file_path bureau :
  has_meaningful_data A (parse_report file_path bureau) = false →
  startswith (process_pdf file_path) "OCR Error" = true →
  let result :=
    process_credit_report A parse_report process_pdf _detect_bureau
      _extract_personal_info _extract_accounts _extract_inquiries
      _extract_public_records _extract_score file_path bureau in
  reports_failure result
  ∧ ProcessResult.errors result = ["Both PDF parsing and OCR failed"].
Proof.
  intros Hdirect Hocr. cbv zeta. unfold process_credit_report.
  rewrite Hdirect, Hocr. simpl. by repeat split.
Qed.

End Failures.

(** C8.  [process_pdf] and [process_image] return text and raise nothing:
    when the rasteriser, the opening of the image, or the recognition of a
    page raises, what they return is ["OCR Error: "] followed by the text
    of the exception, and otherwise the recognised text after its
    corrections.  [process_credit_report] raises nothing either, and its
    result reports either a failure ([success] false, a list of errors that
    is not empty, no data) or an extraction ([success] true, no error, data),
    so that a failure cannot be taken for an extraction without content.
    When direct parsing gives nothing to use and the recognition fails, the
    result reports a failure whose one error is ["Both PDF parsing and OCR
    failed"]. *)
Theorem C8_extraction_failures_are_reported :
  (∀ Image convert_from_path (_process_image : Image → res string)
     pdf_path dpi,
     let body :=
       OCREngine.process_pdf_body Image convert_from_path _process_image
         pdf_path dpi in
     let text :=
       OCREngine.process_pdf Image convert_from_path _process_image
         pdf_path dpi in
     (∀ e, body = Raise e →
           text = "OCR Error: " +:+ str_exn e
           ∧ startswith text "OCR Error:" = true)
     ∧ (∀ t, body = Ok t → text = t)
     ∧ (∀ e, convert_from_path pdf_path dpi = Raise e → body = Raise e)
     ∧ (∀ images image e,
          convert_from_path pdf_path dpi = Ok images →
          image ∈ images → _process_image image = Raise e →
          ∃ e', body = Raise e'))
  ∧ (∀ Image Image_open (_process_image : Image → res string) image_path,
       let body :=
         OCREngine.process_image_body Image Image_open _process_image
           image_path in
       let text :=
         OCREngine.process_image Image Image_open _process_image image_path in
       (∀ e, body = Raise e →
             text = "OCR Error: " +:+ str_exn e
             ∧ startswith text "OCR Error:" = true)
       ∧ (∀ t, body = Ok t → text = t)
       ∧ (∀ e, Image_open image_path = Raise e → body = Raise e)
       ∧ (∀ image e, Image_open image_path = Ok image →
                     _process_image image = Raise e → body = Raise e))
  ∧ (∀ A parse_report process_pdf _detect_bureau _extract_personal_info
       _extract_accounts _extract_inquiries _extract_public_records
       _extract_score file_path bureau,
       let result :=
         OCRIntegration.process_credit_report A parse_report process_pdf
           _detect_bureau _extract_personal_info _extract_accounts
           _extract_inquiries _extract_public_records _extract_score
           file_path bureau in
       (reports_failure result ∨ reports_extraction result)
       ∧ (OCRIntegration.has_meaningful_data A (parse_report file_path bureau)
          = false →
          startswith (process_pdf file_path) "OCR Error" = true →
          reports_failure result
          ∧ ProcessResult.errors result
            = ["Both PDF parsing and OCR failed"])).
Proof.
  split; [|split].
  - intros Image convert_from_path _process_image pdf_path dpi. cbv zeta.
    unfold OCREngine.process_pdf, OCREngine.process_pdf_body.
    split; [|split; [|split]].
    + intros e ->. split; [done | apply startswith_OCR_Error].
    + by intros t ->.
    + by intros e ->.
    + intros images image e -> Hin He. cbn [mbind res_bind].
      destruct (pages_text_raises _process_image images image e Hin He
                  0%nat EmptyString) as [e' ->].
      by eexists.
  - intros Image Image_open _process_image image_path. cbv zeta.
    unfold OCREngine.process_image, OCREngine.process_image_body.
    split; [|split; [|split]].
    + intros e ->. split; [done | apply startswith_OCR_Error].
    + by intros t ->.
    + by intros e ->.
    + intros image e -> He. cbn [mbind res_bind]. by rewrite He.
  - intros. cbv zeta. split.
    + apply process_credit_report_cases.
    + apply process_credit_report_both_fail.
Qed.

(** A file that the parser cannot read and the rasteriser cannot open: the
    recognition returns the failure text, and the result reports the failure
    of both. *)
Lemma C8_extraction_failure_witness :
  OCREngine.process_pdf unit unreadable_convert (λ _, Ok "text")
    "report.pdf" 300
  = "OCR Error: Unable to get page count."
  ∧ reports_failure
      (OCRIntegration.process_credit_report unit unreadable_parse
         (λ path, OCREngine.process_pdf unit unreadable_convert
                    (λ _, Ok "text") path 300)
         (λ _, Ok "unknown")
         (λ _, Ok (PersonalInfo.mk None None None None))
         (λ _, Ok []) (λ _, Ok []) (λ _, Ok []) (λ _ _, Ok None)
         "report.pdf" None).
Proof.
  destruct C8_extraction_failures_are_reported as (Hpdf & _ & Hreport).
  split.
  - destruct (Hpdf unit unreadable_convert (λ _, Ok "text") "report.pdf" 300)
      as (Hraise & _).
    exact (proj1 (Hraise (Exception "Unable to get page count.") eq_refl)).
  - apply (Hreport unit unreadable_parse); reflexivity.
Defined.

(** * Further properties *)

(** ** The ranking is sorted, and stable *)

Section Ranking.

Import ErrorDetector.

Lemma sorted_insert_stable {A} (key : A → Z * Z) k x l :
  filter (λ a, key a = k) (sorted_insert key x l)
  = filter (λ a, key a = k) (x :: l).
Proof.
  induction l as [|y l IH]; [done|]. cbn [sorted_insert].
  destruct (key_le (key x) (key y)) eqn:Hxy; [done|].
  rewrite filter_cons, IH, !filter_cons.
  destruct (decide (key y = k)) as [Hy|Hy],
           (decide (key x = k)) as [Hx|Hx]; try done.
  exfalso. rewrite Hx, <- Hy in Hxy. unfold key_le in Hxy.
  rewrite Z.eqb_refl, Z.leb_refl, orb_true_r in Hxy. done.
Qed.

Lemma sorted_stable {A} (key : A → Z * Z) k l :
  filter (λ a, key a = k) (sorted key l) = filter (λ a, key a = k) l.
Proof.
  induction l as [|x l IH]; [done|]. cbn [sorted foldr].
  fold (sorted key l). rewrite sorted_insert_stable, !filter_cons, IH. done.
Qed.

Lemma StronglySorted_impl {A} (R S : A → A → Prop) l :
  (∀ a b, R a b → S a b) → StronglySorted R l → StronglySorted S l.
Proof.
  intros HRS. induction 1 as [|a l _ IH Ha]; constructor; [done|].
  eapply Forall_impl; [exact Ha|]. auto.
Qed.

Lemma key_le_ranks_before a b :
  key_le (priority_key a) (priority_key b) = true → ranks_before a b.
Proof.
  unfold key_le, priority_key, ranks_before. simpl.
  rewrite orb_true_iff, andb_true_iff, Z.ltb_lt, Z.eqb_eq, Z.leb_le. lia.
Qed.

Lemma rank_by_priority_Sorted errors :
  StronglySorted ranks_before (_rank_by_priority errors).
Proof.
  eapply StronglySorted_impl; [|apply sorted_Sorted].
  apply key_le_ranks_before.
Qed.

End Ranking.

(** X1.  [_rank_by_priority] returns the errors in the order of their
    priority, the smaller first, and within a priority in the order of their
    impact, the greater first; errors of one priority and one impact keep
    the order in which they were given. *)
Theorem X1_ranking_is_sorted_and_stable :
  ∀ errors,
    StronglySorted ranks_before (ErrorDetector._rank_by_priority errors)
    ∧ ∀ priority impact,
        filter (ranks_as priority impact)
               (ErrorDetector._rank_by_priority errors)
        = filter (ranks_as priority impact) errors.
Proof.
  intros errors. split; [apply rank_by_priority_Sorted|].
  intros priority impact. unfold ErrorDetector._rank_by_priority.
  pose proof (sorted_stable ErrorDetector.priority_key (priority, - impact)
                errors) as H.
  assert (Hiff : ∀ e, ranks_as priority impact e
                      ↔ ErrorDetector.priority_key e = (priority, - impact)).
  { intros e. unfold ranks_as, ErrorDetector.priority_key. split.
    - intros [-> <-]. done.
    - intros [= -> H2]. split; [done | lia]. }
  rewrite !(list_filter_iff _ _ _ Hiff). exact H.
Qed.

(** ** The severity summary, severity by severity *)

Section Summary.

Import ErrorDetector.

Lemma summarize_from (summary : gmap string Z) errors sev :
  fold_left
    (λ (summary : gmap string Z) error,
       let sev := default "low" (Violation.severity error) in
       <[sev := default 0 (summary !! sev) + 1]> summary)
    errors summary !! sev
  = match summary !! sev with
    | Some n => Some (n + count_severity sev errors)
    | None =>
        if 0 <? count_severity sev errors
        then Some (count_severity sev errors) else None
    end.
Proof.
  revert summary. unfold count_severity.
  induction errors as [|e errors IH]; intros summary.
  - simpl. destruct (summary !! sev); [f_equal; lia | done].
  - cbn [fold_left]. rewrite IH. cbv zeta. rewrite filter_cons.
    destruct (decide (default "low" (Violation.severity e) = sev)) as [->|Hne].
    + rewrite lookup_insert_eq. cbn [length]. rewrite Nat2Z.inj_succ.
      destruct (summary !! _); cbn [default from_option id].
      * f_equal. lia.
      * destruct (0 <? Z.succ _) eqn:Hpos; [f_equal; lia|].
        apply Z.ltb_ge in Hpos. lia.
    + rewrite lookup_insert_ne by done. done.
Qed.

Lemma summarize_errors_lookup errors sev :
  _summarize_errors errors !! sev
  = if bool_decide (sev ∈ severities) || (0 <? count_severity sev errors)
    then Some (count_severity sev errors)
    else None.
Proof.
  unfold _summarize_errors. rewrite summarize_from.
  case_bool_decide as Hsev.
  - unfold severities in Hsev.
    repeat (apply elem_of_cons in Hsev as [->|Hsev]; [reflexivity|]).
    by apply elem_of_nil in Hsev.
  - assert (Hnone : (list_to_map [("critical", 0); ("high", 0); ("medium", 0);
                       ("low", 0)] : gmap string Z) !! sev = None).
    { apply not_elem_of_list_to_map_1. simpl. exact Hsev. }
    rewrite Hnone. done.
Qed.

End Summary.

(** X2.  The summary of [_summarize_errors] holds, under each severity, the
    number of errors of that severity, an error without severity counted as
    [low]: the four keys [critical], [high], [medium] and [low] are always
    there, with 0 when no error has the severity, and any other severity is a
    key exactly when an error has it. *)
Theorem X2_summary_counts_each_severity :
  ∀ errors sev,
    ErrorDetector._summarize_errors errors !! sev
    = if bool_decide (sev ∈ severities) || (0 <? count_severity sev errors)
      then Some (count_severity sev errors)
      else None.
Proof. apply summarize_errors_lookup. Qed.

(** ** The rules of an account, one against the other *)

Section Rules.

Import ErrorDetector.

(** What a completed analysis of an account returns, with what each rule
    needs to add its error. *)
Lemma analyze_account_rules account errors :
  _analyze_account account = Ok errors →
  ∃ c1 c2 c3 c4 c5 c6 d1 d4,
    errors =
      when c1 (_create_error "balance_exceeds_limit" account d1)
      ++ when c2 (_create_error "missing_credit_limit" account
                    "Credit limit not reported")
      ++ when c3 (_create_error "impossible_late_pattern" account
                    "90+ day late without corresponding 30/60 day lates")
      ++ when c4 (_create_error "closed_with_balance" account d4)
      ++ when c5 (_create_error "medical_collection_ncap" account
                    "Medical collection - may be eligible for NCAP removal")
      ++ when c6 (_create_error "authorized_user_negative" account
                    "Authorized user account showing negative history")
    ∧ (c1 = true → 0 < limit account < balance account)
    ∧ (c2 = true → limit account = 0
                   ∧ ∃ ty, Account.account_type account = Val ty)
    ∧ (c4 = true → 0 < balance account
                   ∧ truthy_bool (Account.is_collection account) = false)
    ∧ (c5 = true → truthy_bool (Account.is_collection account) = true)
    ∧ c6 = truthy_bool (Account.is_authorized_user account)
           && truthy_bool (Account.is_negative account).
Proof.
  unfold _analyze_account, limit, balance.
  destruct (get_lower (Account.account_status account)) as [status|e]; [|done].
  cbn [mbind res_bind].
  assert (H1 : ∀ l b, (0 <? l) && (l <? b) = true → 0 < l < b).
  { intros l b [?%Z.ltb_lt ?%Z.ltb_lt]%andb_true_iff. lia. }
  assert (H4 : ∀ (x : bool) b c, x && (0 <? b) && negb c = true →
                                 0 < b ∧ c = false).
  { intros x b c [[_ ?%Z.ltb_lt]%andb_true_iff ?%negb_true_iff]%andb_true_iff.
    done. }
  specialize (H4 (contains "closed" status || contains "paid" status)
                (get_or_0 (Account.current_balance account))
                (truthy_bool (Account.is_collection account))).
  destruct (String.eqb status "open"
            && (get_or_0 (Account.credit_limit account) =? 0)) eqn:H2.
  - apply andb_true_iff in H2 as [_ H2%Z.eqb_eq].
    assert (Hty : ∀ ty, get_lower (Account.account_type account) = Ok ty →
              bool_decide (ty ∈ ["credit card"; "revolving"]) = true →
              ∃ ty', Account.account_type account = Val ty').
    { intros ty Hty Hin. destruct (Account.account_type account) as [| |ty'].
      - injection Hty as <-. done.
      - done.
      - by eexists. }
    destruct (get_lower (Account.account_type account)) as [ty|e]; [|done].
    cbn [mbind res_bind].
    destruct (truthy_bool (Account.is_collection account)) eqn:Hcol.
    + destruct (get_lower (Account.creditor_name account)) as [cr|e]; [|done].
      cbn [mbind res_bind]. intros [= <-].
      do 8 eexists. split; [rewrite <- !app_assoc; reflexivity|].
      split; [apply H1|]. split; [by eauto|]. split; [exact H4|]. done.
    + cbn [mbind res_bind]. intros [= <-].
      eexists _, _, _, _, false, _, _, _.
      split; [rewrite <- !app_assoc; reflexivity|].
      split; [apply H1|]. split; [by eauto|]. split; [exact H4|]. done.
  - cbn [mbind res_bind].
    destruct (truthy_bool (Account.is_collection account)) eqn:Hcol.
    + destruct (get_lower (Account.creditor_name account)) as [cr|e]; [|done].
      cbn [mbind res_bind]. intros [= <-].
      eexists _, false, _, _, _, _, _, _.
      split; [rewrite <- !app_assoc; reflexivity|].
      split; [apply H1|]. split; [done|]. split; [exact H4|]. done.
    + cbn [mbind res_bind]. intros [= <-].
      eexists _, false, _, _, false, _, _, _.
      split; [rewrite <- !app_assoc; reflexivity|].
      split; [apply H1|]. split; [done|]. split; [exact H4|]. done.
Qed.

(** Every exception of the analysis of an account is that of [None.lower()]. *)
Lemma analyze_account_Raise account e :
  _analyze_account account = Raise e → e = no_lower.
Proof.
  assert (Hl : ∀ f s, get_lower f = Raise s → s = no_lower).
  { intros [| |x] s; simpl; [done| |done]. by intros [= <-]. }
  unfold _analyze_account.
  destruct (get_lower (Account.account_status account)) as [status|e0] eqn:Hs.
  2:{ cbn [mbind res_bind]. intros [= <-]. by eapply Hl. }
  cbn [mbind res_bind].
  destruct (String.eqb status "open" && _).
  - destruct (get_lower (Account.account_type account)) as [ty|e0] eqn:Ht.
    2:{ cbn [mbind res_bind]. intros [= <-]. by eapply Hl. }
    cbn [mbind res_bind].
    destruct (truthy_bool (Account.is_collection account)); [|done].
    destruct (get_lower (Account.creditor_name account)) as [cr|e0] eqn:Hc.
    2:{ cbn [mbind res_bind]. intros [= <-]. by eapply Hl. }
    done.
  - cbn [mbind res_bind].
    destruct (truthy_bool (Account.is_collection account)); [|done].
    destruct (get_lower (Account.creditor_name account)) as [cr|e0] eqn:Hc.
    2:{ cbn [mbind res_bind]. intros [= <-]. by eapply Hl. }
    done.
Qed.

Lemma analyze_account_status_None account :
  Account.account_status account = Null →
  _analyze_account account = Raise no_lower.
Proof. intros H. unfold _analyze_account. rewrite H. reflexivity. Qed.

(** A loop stops at the first exception. *)
Lemma mapM_Raise {A B} (f : A → res B) (l : list A) (e0 : exn) :
  (∀ a e, f a = Raise e → e = e0) →
  (∃ a, a ∈ l ∧ f a = Raise e0) →
  mapM f l = Raise e0.
Proof.
  intros Hall. induction l as [|a l IH]; intros (x & Hx & Hfx).
  - by apply elem_of_nil in Hx.
  - simpl. destruct (f a) as [b|e] eqn:Hfa.
    + cbn [mbind res_bind]. rewrite IH; [done|].
      apply elem_of_cons in Hx as [->|Hx]; [congruence|]. by exists x.
    + cbn [mbind res_bind]. f_equal. by eapply Hall.
Qed.

Lemma type_create_error t account d :
  Violation.type (_create_error t account d) = Some t.
Proof. reflexivity. Qed.

End Rules.

(** X3.  In the errors that [_analyze_account] returns for an account, no
    type comes twice, and there are at most four errors: an account has
    either a balance above its limit or a limit that is not reported, never
    both, and it is either closed with a balance or a medical collection,
    never both. *)
Theorem X3_rules_of_an_account_exclude_each_other :
  ∀ account errors,
    ErrorDetector._analyze_account account = Ok errors →
    NoDup (types errors)
    ∧ (length errors ≤ 4)%nat
    ∧ (count_type "balance_exceeds_limit" errors
       + count_type "missing_credit_limit" errors ≤ 1)%nat
    ∧ (count_type "closed_with_balance" errors
       + count_type "medical_collection_ncap" errors ≤ 1)%nat.
Proof.
  intros account errors
    (c1&c2&c3&c4&c5&c6&d1&d4& -> & H1 & H2 & H4 & H5 & _)%analyze_account_rules.
  assert (H12 : c1 && c2 = false).
  { destruct c1, c2; try done.
    pose proof (H1 eq_refl). pose proof (H2 eq_refl) as [? _]. lia. }
  assert (H45 : c4 && c5 = false).
  { destruct c4, c5; try done.
    pose proof (H4 eq_refl) as [_ ?]. pose proof (H5 eq_refl). congruence. }
  unfold types. rewrite !count_type_app, !count_type_when.
  clear H1 H2 H4 H5.
  destruct c1, c2; try discriminate H12;
    destruct c4, c5; try discriminate H45;
    destruct c3, c6; cbn [when app map length];
    rewrite ?type_create_error;
    (split; [apply (bool_decide_unpack _); vm_compute; reflexivity|]);
    (split; [lia|]); split; vm_compute; lia.
Qed.

(** The account with the late counts 0, 0, 1 *)
Lemma X3_rules_witness :
  ∃ errors,
    ErrorDetector._analyze_account (plain_account 0 0 1) = Ok errors
    ∧ NoDup (types errors)
    ∧ (length errors ≤ 4)%nat.
Proof.
  eexists. split; [reflexivity|].
  pose proof (X3_rules_of_an_account_exclude_each_other
                (plain_account 0 0 1) _ eq_refl) as (Hd & Hl & _).
  split; [exact Hd | exact Hl].
Defined.

(** X4.  An account whose status is [None] aborts the analysis of the whole
    report: [analyze_report] raises the [AttributeError] of [None.lower()],
    whatever the other accounts, the inquiries and the public records are. *)
Theorem X4_a_status_of_None_aborts_the_analysis :
  ∀ now_outdated now_inquiries r accounts account,
    ReportData.accounts r = Val accounts →
    account ∈ accounts →
    Account.account_status account = Null →
    ErrorDetector.analyze_report now_outdated now_inquiries r
    = Raise no_lower.
Proof.
  intros now_outdated now_inquiries r accounts account Hr Hin Hstatus.
  unfold ErrorDetector.analyze_report. rewrite Hr.
  cbn [get_default iter mbind res_bind].
  rewrite (mapM_Raise ErrorDetector._analyze_account accounts no_lower);
    [reflexivity | apply analyze_account_Raise |].
  exists account. split; [done|]. by apply analyze_account_status_None.
Qed.

(** A report of two accounts, the second without a status *)
Lemma X4_status_of_None_witness :
  ErrorDetector.analyze_report noon_2026_11_04 noon_2026_11_04
    (ReportData.mk (Val [plain_account 0 0 1; account_of_status_None]) Missing)
  = Raise no_lower.
Proof.
  apply (X4_a_status_of_None_aborts_the_analysis _ _ _
           [plain_account 0 0 1; account_of_status_None]
           account_of_status_None).
  - reflexivity.
  - apply elem_of_cons. right. apply elem_of_cons. left. reflexivity.
  - reflexivity.
Defined.

(** ** The errors that an analysis can hold *)

Section Catalogue.

Import ErrorDetector.

Lemma analyze_account_made account errors :
  _analyze_account account = Ok errors →
  Forall (λ e, made_by_a_rule e = true) errors.
Proof.
  intros (c1&c2&c3&c4&c5&c6&d1&d4& -> & _)%analyze_account_Ok.
  rewrite !Forall_app. repeat split;
    match goal with |- Forall _ (when ?c _) => destruct c end;
    repeat constructor; vm_compute; reflexivity.
Qed.

Lemma account_errors_made accounts account_errors :
  mapM _analyze_account accounts = Ok account_errors →
  Forall (λ e, made_by_a_rule e = true) (concat account_errors).
Proof.
  intros H%mapM_Ok. induction H as [|a errs l ll Ha _ IH]; simpl;
    [constructor|].
  apply Forall_app. split; [by eapply analyze_account_made | done].
Qed.

Lemma outdated_items_made now accounts :
  Forall (λ e, made_by_a_rule e = true) (_check_outdated_items now accounts).
Proof.
  apply Forall_concat_map. intros account. cbv beta zeta.
  destruct (_ && _); [|constructor].
  destruct (datetime.strptime_m_Y _); [|constructor].
  destruct (datetime.ltb _ _); repeat constructor; vm_compute; reflexivity.
Qed.

Lemma inquiries_made now inquiries :
  Forall (λ e, made_by_a_rule e = true) (_check_inquiries now inquiries).
Proof.
  apply Forall_concat_map. intros inquiry. cbv beta zeta.
  destruct (bool_decide _); [|constructor].
  destruct (truthy_str _); [|constructor].
  destruct (datetime.strptime_m_d_Y _); [|constructor].
  destruct (datetime.ltb _ _); repeat constructor.
Qed.

Lemma public_records_made records :
  Forall (λ e, made_by_a_rule e = true) (_check_public_records records).
Proof.
  apply Forall_concat_map. intros record. cbv beta zeta.
  destruct (bool_decide _); repeat constructor.
Qed.

Lemma analyze_report_made now_outdated now_inquiries r a :
  analyze_report now_outdated now_inquiries r = Ok a →
  Forall (λ e, made_by_a_rule e = true) (Analysis.errors a).
Proof.
  intros (accounts & account_errors & parsed & inquiries & records
          & _ & Hacc & _ & _ & _ & ->)%analyze_report_Ok.
  cbn [Analysis.errors]. unfold collected. rewrite !Forall_app.
  eauto using account_errors_made, outdated_items_made, inquiries_made,
    public_records_made.
Qed.

(** The entries of an error that a rule made *)
Lemma made_by_a_rule_entries e :
  made_by_a_rule e = true →
  ∃ type severity fcra_section estimated_impact account,
    (type, severity, fcra_section, estimated_impact, Violation.priority e,
     Violation.dispute_strategy e, account) ∈ rules
    ∧ Violation.type e = Some type
    ∧ Violation.severity e = Some severity
    ∧ Violation.fcra_section e = Some fcra_section
    ∧ Violation.estimated_impact e = Some estimated_impact
    ∧ account = match Violation.account e with
                | Some _ => true | None => false
                end.
Proof.
  unfold made_by_a_rule, rule_of.
  destruct (Violation.type e) as [t|]; [|done].
  destruct (Violation.severity e) as [s|]; [|done].
  destruct (Violation.fcra_section e) as [f|]; [|done].
  destruct (Violation.estimated_impact e) as [i|]; [|done].
  cbn [mbind option_bind]. intros H%bool_decide_eq_true.
  by eexists t, s, f, i, _.
Qed.

End Catalogue.

(** X5.  Every error of an analysis that [analyze_report] returns is as one
    of nine rules makes it: of the 23 types of [ERROR_TYPES], the errors have
    one of nine, each with its one severity, section, impact, priority and
    strategy; the errors of the types [outdated_inquiry] and [tax_lien_ncap]
    have no priority and no strategy and name no account, the others have
    both and name one. *)
Theorem X5_errors_are_made_by_nine_rules :
  ∀ now_outdated now_inquiries r a,
    ErrorDetector.analyze_report now_outdated now_inquiries r = Ok a →
    Forall (λ e, made_by_a_rule e = true) (Analysis.errors a)
    ∧ Forall (λ e, made_by_a_rule e = true) (Analysis.priority_ranking a).
Proof.
  intros now_outdated now_inquiries r a Ha.
  pose proof (analyze_report_made _ _ _ _ Ha) as Hmade.
  split; [done|].
  apply analyze_report_Ok in Ha
    as (accounts & account_errors & parsed & inquiries & records
        & _ & _ & _ & _ & _ & ->).
  cbn [Analysis.errors Analysis.priority_ranking] in *.
  unfold ErrorDetector._rank_by_priority. by rewrite sorted_Permutation.
Qed.

(** The report of two accounts, an inquiry and a tax lien *)
Lemma X5_nine_rules_witness :
  ∃ a, ErrorDetector.analyze_report noon_2026_11_04 noon_2026_11_04
         report_of_two_accounts = Ok a
       ∧ Forall (λ e, made_by_a_rule e = true) (Analysis.errors a).
Proof.
  eexists. split; [reflexivity|].
  exact (proj1 (X5_errors_are_made_by_nine_rules noon_2026_11_04
                  noon_2026_11_04 report_of_two_accounts _ eq_refl)).
Defined.

(** ** Impacts, severities and the place of the account errors *)

(** The cases of a rule of the list *)
Ltac rule_cases H :=
  unfold rules in H;
  repeat (apply elem_of_cons in H as [H|H]);
  [..| by apply elem_of_nil in H]; injection H as -> -> -> -> ? ? ->.

Section Bounds.

Import ErrorDetector.

Lemma made_by_a_rule_bounds e :
  made_by_a_rule e = true →
  5 ≤ default 0 (Violation.estimated_impact e) ≤ 30
  ∧ (Violation.severity e = Some "high"
     ∨ Violation.severity e = Some "medium").
Proof.
  intros (t & s & f & i & acc & Hin & _ & -> & _ & -> & _)
    %made_by_a_rule_entries.
  rule_cases Hin; simpl; split; first [lia | by left | by right].
Qed.

Lemma made_by_a_rule_account e :
  made_by_a_rule e = true →
  (has_priority e → on_account e)
  ∧ (¬ has_priority e → Violation.account e = None).
Proof.
  intros (t & s & f & i & acc & Hin & _ & _ & _ & _ & Hacc)
    %made_by_a_rule_entries.
  unfold has_priority, on_account.
  rule_cases Hin;
    match goal with H : Violation.priority e = _ |- _ => rewrite H end;
    destruct (Violation.account e); try discriminate Hacc; simpl;
    split; intros ?; first [done | lia | by eexists].
Qed.

Lemma sum_impact_bounds errors :
  Forall (λ e, made_by_a_rule e = true) errors →
  5 * Z.of_nat (length errors) ≤ sum_impact errors
  ≤ 30 * Z.of_nat (length errors).
Proof.
  induction 1 as [|e errors [He _]%made_by_a_rule_bounds _ IH];
    cbn [sum_impact foldr length]; [lia|].
  fold (sum_impact errors). lia.
Qed.

Lemma count_severity_made errors :
  Forall (λ e, made_by_a_rule e = true) errors →
  count_severity "critical" errors = 0
  ∧ count_severity "low" errors = 0
  ∧ count_severity "high" errors + count_severity "medium" errors
    = Z.of_nat (length errors).
Proof.
  unfold count_severity.
  induction 1 as [|e errors [_ He]%made_by_a_rule_bounds _ IH];
    [done|].
  rewrite !filter_cons.
  destruct He as [-> | ->]; cbn [default from_option id];
    repeat case_decide; try congruence; cbn [length]; lia.
Qed.

(** A sorted ranking has the errors with a priority in front. *)
Lemma ranking_split l :
  StronglySorted ranks_before l →
  l = filter has_priority l ++ filter (λ e, ¬ has_priority e) l.
Proof.
  induction 1 as [|a l _ IH Ha]; [done|].
  rewrite !filter_cons. destruct (decide (has_priority a)) as [Hp|Hp].
  - rewrite decide_False by tauto. simpl. by f_equal.
  - rewrite decide_True by done.
    assert (Hnone : Forall (λ e, ¬ has_priority e) l).
    { eapply Forall_impl; [exact Ha|]. intros e.
      unfold ranks_before, has_priority in *. lia. }
    assert (filter has_priority l = []) as ->.
    { clear -Hnone. induction Hnone as [|e l He _ IH]; [done|].
      by rewrite filter_cons, decide_False. }
    simpl. f_equal.
    clear -Hnone. induction Hnone as [|e l He _ IH]; [done|].
    rewrite filter_cons, decide_True by done. by f_equal.
Qed.

End Bounds.

(** X6.  In an analysis that [analyze_report] returns, the total impact is
    at least 5 and at most 30 for each error; the summary counts no error as
    [critical] and none as [low], so that the errors counted as [high] and
    those counted as [medium] are all the errors. *)
Theorem X6_impact_and_severities_of_an_analysis :
  ∀ now_outdated now_inquiries r a,
    ErrorDetector.analyze_report now_outdated now_inquiries r = Ok a →
    5 * Analysis.total_errors a ≤ Analysis.total_estimated_impact a
    ≤ 30 * Analysis.total_errors a
    ∧ Analysis.error_summary a !! "critical" = Some 0
    ∧ Analysis.error_summary a !! "low" = Some 0
    ∧ ∃ high medium,
        Analysis.error_summary a !! "high" = Some high
        ∧ Analysis.error_summary a !! "medium" = Some medium
        ∧ high + medium = Analysis.total_errors a.
Proof.
  intros now_outdated now_inquiries r a Ha.
  pose proof (analyze_report_made _ _ _ _ Ha) as Hmade.
  apply analyze_report_Ok in Ha
    as (accounts & account_errors & parsed & inquiries & records
        & _ & _ & _ & _ & _ & ->).
  cbn [Analysis.errors Analysis.total_errors Analysis.total_estimated_impact
       Analysis.error_summary] in *.
  split; [by apply sum_impact_bounds|].
  destruct (count_severity_made _ Hmade) as (Hc & Hl & Hhm).
  rewrite !summarize_errors_lookup, Hc, Hl.
  split; [reflexivity|]. split; [reflexivity|].
  eexists _, _. split; [reflexivity|]. split; [reflexivity|]. exact Hhm.
Qed.

(** The report of two accounts, an inquiry and a tax lien: four errors, the
    impacts of which add up to 65 *)
Lemma X6_impact_witness :
  ∃ a, ErrorDetector.analyze_report noon_2026_11_04 noon_2026_11_04
         report_of_two_accounts = Ok a
       ∧ 5 * Analysis.total_errors a ≤ Analysis.total_estimated_impact a
         ≤ 30 * Analysis.total_errors a.
Proof.
  eexists. split; [reflexivity|].
  exact (proj1 (X6_impact_and_severities_of_an_analysis noon_2026_11_04
                  noon_2026_11_04 report_of_two_accounts _ eq_refl)).
Defined.

(** X7.  In the ranking of an analysis that [analyze_report] returns, the
    errors that name an account come first: an outdated inquiry and a tax
    lien, which have no priority, rank after every error of an account,
    whatever the severities and the impacts. *)
Theorem X7_errors_of_accounts_rank_first :
  ∀ now_outdated now_inquiries r a,
    ErrorDetector.analyze_report now_outdated now_inquiries r = Ok a →
    ∃ of_accounts others,
      Analysis.priority_ranking a = of_accounts ++ others
      ∧ Forall on_account of_accounts
      ∧ Forall (λ e, Violation.account e = None
                     ∧ Violation.priority e = None) others.
Proof.
  intros now_outdated now_inquiries r a Ha.
  pose proof (analyze_report_made _ _ _ _ Ha) as Hmade.
  apply analyze_report_Ok in Ha
    as (accounts & account_errors & parsed & inquiries & records
        & _ & _ & _ & _ & _ & ->).
  cbn [Analysis.errors Analysis.priority_ranking] in *.
  set (errors := collected _ _ _ _ _ _) in *.
  assert (Hranked : Forall (λ e, made_by_a_rule e = true)
                      (ErrorDetector._rank_by_priority errors)).
  { unfold ErrorDetector._rank_by_priority. by rewrite sorted_Permutation. }
  eexists _, _. split; [apply ranking_split, rank_by_priority_Sorted|].
  rewrite Forall_forall in Hranked. split; apply Forall_forall; intros e.
  - intros [Hp He]%list_elem_of_filter.
    by apply (made_by_a_rule_account e (Hranked e He)).
  - intros [Hp He]%list_elem_of_filter.
    split; [by apply (made_by_a_rule_account e (Hranked e He))|].
    unfold has_priority in Hp.
    destruct (made_by_a_rule_entries e (Hranked e He))
      as (t & s & f & i & acc & Hin & _).
    rule_cases Hin;
      match goal with H : Violation.priority e = _ |- _ =>
        rewrite H in *
      end; simpl in *; first [done | lia].
Qed.

(** The report of two accounts, an inquiry and a tax lien *)
Lemma X7_rank_first_witness :
  ∃ a of_accounts others,
    ErrorDetector.analyze_report noon_2026_11_04 noon_2026_11_04
      report_of_two_accounts = Ok a
    ∧ Analysis.priority_ranking a = of_accounts ++ others
    ∧ Forall on_account of_accounts.
Proof.
  destruct (X7_errors_of_accounts_rank_first noon_2026_11_04
              noon_2026_11_04 report_of_two_accounts _ eq_refl)
    as (of_accounts & others & Hsplit & Hacc & _).
  eexists _, of_accounts, others. split; [reflexivity|]. by split.
Defined.

(** ** The errors grow with the time *)

Section Later.

Import ErrorDetector.

Lemma ltb_sub_days_later d now now' days :
  not_before now now' →
  datetime.ltb d (datetime.sub_days now days) = true →
  datetime.ltb d (datetime.sub_days now' days) = true.
Proof.
  unfold not_before, datetime.ltb, datetime.sub_days. simpl.
  rewrite orb_false_iff, andb_false_iff, !orb_true_iff, !andb_true_iff,
    !Z.ltb_lt, !Z.ltb_ge, !Z.eqb_eq, Z.eqb_neq.
  lia.
Qed.

Lemma sublist_concat_map {A B} (f g : A → list B) l :
  (∀ a, f a `sublist_of` g a) →
  concat (map f l) `sublist_of` concat (map g l).
Proof.
  intros Hfg. induction l as [|a l IH]; simpl; [constructor|].
  by apply sublist_app.
Qed.

Lemma sublist_when {A} (c c' : bool) (a : A) :
  (c = true → c' = true) → when c a `sublist_of` when c' a.
Proof.
  destruct c, c'; simpl; intros H; try done.
  - by discriminate H.
  - apply sublist_nil_l.
Qed.

Lemma check_outdated_items_later now now' accounts :
  not_before now now' →
  _check_outdated_items now accounts
  `sublist_of` _check_outdated_items now' accounts.
Proof.
  intros Hlater. apply sublist_concat_map. intros account. cbv beta zeta.
  destruct (_ && _); [|done].
  destruct (datetime.strptime_m_Y _); [|done].
  apply sublist_when. by apply ltb_sub_days_later.
Qed.

Lemma check_inquiries_later now now' inquiries :
  not_before now now' →
  _check_inquiries now inquiries `sublist_of` _check_inquiries now' inquiries.
Proof.
  intros Hlater. apply sublist_concat_map. intros inquiry. cbv beta zeta.
  destruct (bool_decide _); [|done].
  destruct (truthy_str _); [|done].
  destruct (datetime.strptime_m_d_Y _); [|done].
  apply sublist_when. by apply ltb_sub_days_later.
Qed.

(** The analysis of a report whose entries can be read returns. *)
Lemma analyze_report_intro now_outdated now_inquiries r accounts
    account_errors parsed inquiries records :
  get_default (ReportData.accounts r) [] = Some accounts →
  mapM _analyze_account accounts = Ok account_errors →
  get_default (ReportData.parsed_data r) (ParsedData.mk Missing Missing)
  = Some parsed →
  get_default (ParsedData.inquiries parsed) [] = Some inquiries →
  get_default (ParsedData.public_records parsed) [] = Some records →
  let errors :=
    collected now_outdated now_inquiries accounts account_errors
      inquiries records in
  analyze_report now_outdated now_inquiries r
  = Ok {| Analysis.total_errors := Z.of_nat (length errors);
          Analysis.total_discrepancies :=
            Z.of_nat (length (_check_cross_bureau_discrepancies accounts));
          Analysis.total_estimated_impact := sum_impact errors;
          Analysis.errors := errors;
          Analysis.discrepancies :=
            _check_cross_bureau_discrepancies accounts;
          Analysis.error_summary := _summarize_errors errors;
          Analysis.priority_ranking := _rank_by_priority errors;
          Analysis.recommended_disputes :=
            _generate_dispute_recommendations errors |}.
Proof.
  intros Ha Hacc Hp Hi Hr. unfold analyze_report.
  rewrite Ha. cbn [iter mbind res_bind]. rewrite Hacc. cbn [mbind res_bind].
  rewrite Hp. cbn [mbind res_bind]. rewrite Hi. cbn [iter mbind res_bind].
  rewrite Hr. reflexivity.
Qed.

End Later.

(** X8.  An error does not go away with the time: when [analyze_report]
    returns an analysis of a report, it returns one at every later reading
    of the clock, with the same discrepancies and with every error of the
    earlier analysis, in the same order; what a later analysis adds are
    items that have become outdated. *)
Theorem X8_errors_grow_with_the_time :
  ∀ now_outdated now_inquiries now_outdated' now_inquiries' r a,
    not_before now_outdated now_outdated' →
    not_before now_inquiries now_inquiries' →
    ErrorDetector.analyze_report now_outdated now_inquiries r = Ok a →
    ∃ a',
      ErrorDetector.analyze_report now_outdated' now_inquiries' r = Ok a'
      ∧ Analysis.errors a `sublist_of` Analysis.errors a'
      ∧ Analysis.total_errors a ≤ Analysis.total_errors a'
      ∧ Analysis.discrepancies a' = Analysis.discrepancies a.
Proof.
  intros now_outdated now_inquiries now_outdated' now_inquiries' r a
    Houtdated Hinquiries
    (accounts & account_errors & parsed & inquiries & records
     & Ha & Hacc & Hp & Hi & Hr & ->)%analyze_report_Ok.
  eexists. split.
  { by apply (analyze_report_intro now_outdated' now_inquiries' r accounts
                account_errors parsed inquiries records). }
  cbn [Analysis.errors Analysis.total_errors Analysis.discrepancies].
  assert (Hsub : collected now_outdated now_inquiries accounts account_errors
                   inquiries records
                 `sublist_of`
                 collected now_outdated' now_inquiries' accounts
                   account_errors inquiries records).
  { unfold collected. repeat apply sublist_app; try done.
    - by apply check_outdated_items_later.
    - by apply check_inquiries_later. }
  split; [done|]. split; [|done].
  apply sublist_length in Hsub. lia.
Qed.

(** The report with the inquiry of 1 January 2020, at noon of 1 June 2021
    and of 4 November 2026: no error at the first time, one at the second *)
Lemma X8_errors_grow_witness :
  ∃ a a',
    ErrorDetector.analyze_report noon_2021_06_01 noon_2021_06_01
      report_with_inquiry_2020 = Ok a
    ∧ ErrorDetector.analyze_report noon_2026_11_04 noon_2026_11_04
        report_with_inquiry_2020 = Ok a'
    ∧ Analysis.errors a `sublist_of` Analysis.errors a'
    ∧ Analysis.total_errors a = 0
    ∧ Analysis.total_errors a' = 1.
Proof.
  destruct (X8_errors_grow_with_the_time noon_2021_06_01 noon_2021_06_01
              noon_2026_11_04 noon_2026_11_04 report_with_inquiry_2020 _
              eq_refl eq_refl eq_refl) as (a' & Ha' & Hsub & _).
  eexists _, a'. split; [reflexivity|]. split; [exact Ha'|].
  split; [exact Hsub|]. split; [reflexivity|].
  vm_compute in Ha'. injection Ha' as <-. reflexivity.
Defined.

(** ** The analysis endpoint *)

Section Endpoint.

Import ErrorDetector.

Lemma mapM_Forall_concat {A B} (f : A → res (list B)) (P : B → Prop) l bs :
  (∀ a b, f a = Ok b → Forall P b) →
  mapM f l = Ok bs → Forall P (concat bs).
Proof.
  intros Hf H%mapM_Ok. induction H as [|a b l bs Hab _ IH]; simpl;
    [constructor|].
  apply Forall_app. split; [by eapply Hf | done].
Qed.

Lemma mapM_map {A B C} (f : B → res C) (g : A → B) l :
  mapM f (map g l) = mapM (λ a, f (g a)) l.
Proof. induction l as [|a l IH]; simpl; [done | by rewrite IH]. Qed.

(** The errors of the dict of a row: four rules at most. *)
Lemma analyze_account_dict row errors :
  _analyze_account (main.account_dict row) = Ok errors →
  Forall (λ e, Violation.type e ∈ endpoint_types ∧ on_account e) errors.
Proof.
  intros (c1&c2&c3&c4&c5&c6&d1&d4& -> & _ & H2 & _ & _ & ->)
    %analyze_account_rules.
  assert (c2 = false) as ->.
  { destruct c2; [|done]. by destruct (H2 eq_refl) as [_ [ty Hty]]. }
  cbn [main.account_dict Account.is_authorized_user truthy_bool andb when].
  rewrite !Forall_app. repeat split;
    match goal with
    | |- Forall _ (when ?c _) => destruct c
    | |- _ => idtac
    end;
    repeat constructor; unfold endpoint_types, on_account;
    rewrite ?type_create_error; first [set_solver | by eexists].
Qed.

Lemma check_outdated_items_dict now rows :
  _check_outdated_items now (map main.account_dict rows) = [].
Proof.
  unfold _check_outdated_items. induction rows as [|row rows IH]; [done|].
  cbn [map concat]. rewrite IH.
  cbn [main.account_dict Account.date_opened get_default truthy_str].
  by rewrite andb_false_r.
Qed.

Lemma inquiries_endpoint_types now inquiries :
  Forall (λ e, Violation.type e = Some "outdated_inquiry"
               ∧ Violation.account e = None)
         (_check_inquiries now inquiries).
Proof.
  apply Forall_concat_map. intros inquiry. cbv beta zeta.
  destruct (bool_decide _); [|constructor].
  destruct (truthy_str _); [|constructor].
  destruct (datetime.strptime_m_d_Y _); [|constructor].
  destruct (datetime.ltb _ _); repeat constructor.
Qed.

Lemma public_records_endpoint_types records :
  Forall (λ e, Violation.type e = Some "tax_lien_ncap"
               ∧ Violation.account e = None)
         (_check_public_records records).
Proof.
  apply Forall_concat_map. intros record. cbv beta zeta.
  destruct (bool_decide _); repeat constructor.
Qed.

(** What the analysis of the report of the endpoint returns *)
Lemma analyze_report_endpoint now_outdated now_inquiries rows parsed a :
  analyze_report now_outdated now_inquiries (main.report_data rows parsed)
  = Ok a →
  ∃ account_errors inquiries records,
    Analysis.errors a
    = (concat account_errors
       ++ _check_inquiries now_inquiries inquiries)
      ++ _check_public_records records
    ∧ Forall (λ e, Violation.type e ∈ endpoint_types ∧ on_account e)
             (concat account_errors).
Proof.
  intros (accounts & account_errors & parsed' & inquiries & records
          & Ha & Hacc & _ & _ & _ & ->)%analyze_report_Ok.
  cbn [main.report_data ReportData.accounts get_default] in Ha.
  injection Ha as <-.
  exists account_errors, inquiries, records.
  cbn [Analysis.errors]. unfold collected.
  rewrite check_outdated_items_dict, app_nil_r. split; [done|].
  rewrite mapM_map in Hacc.
  eapply mapM_Forall_concat; [|exact Hacc].
  intros row errors. apply analyze_account_dict.
Qed.

Lemma analyze_account_dict_total row :
  can_be_analysed row = true →
  ∃ errors, _analyze_account (main.account_dict row) = Ok errors.
Proof.
  destruct row as [cr num bal lim neg col l30 l60 l90 st].
  unfold can_be_analysed, _analyze_account, get_lower, main.account_dict,
    main.entry.
  cbn [CreditAccount.account_status CreditAccount.is_collection
       CreditAccount.creditor_name CreditAccount.account_number
       CreditAccount.current_balance CreditAccount.credit_limit
       CreditAccount.is_negative CreditAccount.late_30_count
       CreditAccount.late_60_count CreditAccount.late_90_count
       Account.account_status Account.account_type Account.creditor_name
       Account.is_collection].
  destruct st as [st|]; [|done].
  destruct col as [[|]|], cr as [cr|]; try done;
    cbn [get_default truthy_bool mbind res_bind];
    repeat match goal with
      | |- context [if ?c then _ else _] => destruct c; cbn [mbind res_bind]
      end; by eexists.
Qed.

Lemma analyze_account_dict_Raise row :
  can_be_analysed row = false →
  _analyze_account (main.account_dict row) = Raise no_lower.
Proof.
  destruct row as [cr num bal lim neg col l30 l60 l90 st].
  unfold can_be_analysed, _analyze_account, get_lower, main.account_dict,
    main.entry.
  cbn [CreditAccount.account_status CreditAccount.is_collection
       CreditAccount.creditor_name CreditAccount.account_number
       CreditAccount.current_balance CreditAccount.credit_limit
       CreditAccount.is_negative CreditAccount.late_30_count
       CreditAccount.late_60_count CreditAccount.late_90_count
       Account.account_status Account.account_type Account.creditor_name
       Account.is_collection].
  destruct st as [st|]; [|done].
  destruct col as [[|]|], cr as [cr|]; try done.
  intros _. cbn [get_default truthy_bool mbind res_bind].
  repeat match goal with
    | |- context [if ?c then _ else _] => destruct c; cbn [mbind res_bind]
    end; reflexivity.
Qed.

Lemma forallb_false {A} (f : A → bool) l :
  forallb f l = false → ∃ a, a ∈ l ∧ f a = false.
Proof.
  induction l as [|a l IH]; simpl; [done|].
  destruct (f a) eqn:Hfa; simpl.
  - intros (x & Hx & Hfx)%IH. exists x. split; [by right | done].
  - intros _. exists a. split; [by left | done].
Qed.

Lemma analyze_report_endpoint_total now_outdated now_inquiries rows parsed :
  lists_not_null parsed →
  forallb can_be_analysed rows = true →
  ∃ a, analyze_report now_outdated now_inquiries
         (main.report_data rows parsed) = Ok a.
Proof.
  intros Hlists Hrows. unfold analyze_report, main.report_data.
  cbn [ReportData.accounts ReportData.parsed_data get_default iter mbind
       res_bind].
  destruct (mapM_total _analyze_account (map main.account_dict rows))
    as [errs ->].
  { apply Forall_forall. intros account (row & -> & Hrow)%elem_of_map.
    apply analyze_account_dict_total.
    rewrite forallb_forall in Hrows. apply Hrows.
    by apply list_elem_of_In. }
  cbn [mbind res_bind].
  destruct parsed as [d|]; cbn [default from_option id].
  - destruct (Hlists d eq_refl) as [Hi Hr].
    destruct (ParsedData.inquiries d); [|done|];
      destruct (ParsedData.public_records d); try done;
      cbn [get_default iter mbind res_bind]; by eexists.
  - cbn [ParsedData.inquiries ParsedData.public_records get_default iter
         mbind res_bind]. by eexists.
Qed.

Lemma analyze_report_endpoint_Raise now_outdated now_inquiries rows parsed :
  forallb can_be_analysed rows = false →
  analyze_report now_outdated now_inquiries (main.report_data rows parsed)
  = Raise no_lower.
Proof.
  intros (row & Hrow & Hcan)%forallb_false.
  unfold analyze_report, main.report_data.
  cbn [ReportData.accounts ReportData.parsed_data get_default iter mbind
       res_bind].
  rewrite (mapM_Raise _analyze_account _ no_lower);
    [reflexivity | apply analyze_account_Raise |].
  exists (main.account_dict row). split.
  - apply elem_of_map. by exists row.
  - by apply analyze_account_dict_Raise.
Qed.

End Endpoint.

(** X9.  The analysis that the endpoint runs on the rows of a report never
    finds an error of the types [missing_credit_limit],
    [authorized_user_negative] and [outdated_negative]: the dict that the
    endpoint makes of a row has no type, no authorized-user flag and no
    opening date.  The errors that it stores have one of six types. *)
Theorem X9_the_endpoint_finds_six_types :
  ∀ now_outdated now_inquiries rows parsed a,
    ErrorDetector.analyze_report now_outdated now_inquiries
      (main.report_data rows parsed) = Ok a →
    Forall (λ e, Violation.type e ∈ endpoint_types) (Analysis.errors a)
    ∧ count_type "missing_credit_limit" (Analysis.errors a) = 0%nat
    ∧ count_type "authorized_user_negative" (Analysis.errors a) = 0%nat
    ∧ count_type "outdated_negative" (Analysis.errors a) = 0%nat.
Proof.
  intros now_outdated now_inquiries rows parsed a
    (account_errors & inquiries & records & -> & Hacc)
    %analyze_report_endpoint.
  assert (Htypes : Forall (λ e, Violation.type e ∈ endpoint_types)
            ((concat account_errors
              ++ ErrorDetector._check_inquiries now_inquiries inquiries)
             ++ ErrorDetector._check_public_records records)).
  { rewrite !Forall_app. repeat split.
    - eapply Forall_impl; [exact Hacc|]. by intros e [He _].
    - eapply Forall_impl; [apply inquiries_endpoint_types|].
      intros e [-> _]. unfold endpoint_types. set_solver.
    - eapply Forall_impl; [apply public_records_endpoint_types|].
      intros e [-> _]. unfold endpoint_types. set_solver. }
  split; [exact Htypes|].
  assert (Hcount : ∀ t, Some t ∉ endpoint_types →
            count_type t
              ((concat account_errors
                ++ ErrorDetector._check_inquiries now_inquiries inquiries)
               ++ ErrorDetector._check_public_records records) = 0%nat).
  { intros t Ht. unfold count_type.
    induction Htypes as [|e l He _ IH]; [done|].
    rewrite filter_cons. destruct (decide (Violation.type e = Some t)) as [Heq|];
      [|done].
    rewrite Heq in He. done. }
  repeat split; apply Hcount; unfold endpoint_types;
    apply (bool_decide_unpack _); vm_compute; reflexivity.
Qed.

(** A row of a negative account that is open without a limit: no error *)
Lemma X9_six_types_witness :
  ∃ a, ErrorDetector.analyze_report noon_2026_11_04 noon_2026_11_04
         (main.report_data [row_of (Some "4111") (Some "Open")] None) = Ok a
       ∧ count_type "missing_credit_limit" (Analysis.errors a) = 0%nat.
Proof.
  eexists. split; [reflexivity|].
  exact (proj1 (proj2 (X9_the_endpoint_finds_six_types noon_2026_11_04
                         noon_2026_11_04 [row_of (Some "4111") (Some "Open")]
                         None _ eq_refl))).
Defined.

(** X10.  The analysis that the endpoint runs returns when every row has a
    status and every row of a collection has a creditor name, and raises the
    [AttributeError] of [None.lower()] when a row lacks one: a single such
    row leaves the report without analysis. *)
Theorem X10_the_endpoint_needs_the_texts_of_every_row :
  ∀ now_outdated now_inquiries rows parsed,
    (lists_not_null parsed →
     forallb can_be_analysed rows = true →
     ∃ a, ErrorDetector.analyze_report now_outdated now_inquiries
            (main.report_data rows parsed) = Ok a)
    ∧ (forallb can_be_analysed rows = false →
       ErrorDetector.analyze_report now_outdated now_inquiries
         (main.report_data rows parsed) = Raise no_lower).
Proof.
  intros now_outdated now_inquiries rows parsed. split.
  - apply analyze_report_endpoint_total.
  - apply analyze_report_endpoint_Raise.
Qed.

(** Two rows, the second without a status; and the first row alone *)
Lemma X10_texts_witness :
  ErrorDetector.analyze_report noon_2026_11_04 noon_2026_11_04
    (main.report_data [row_of (Some "4111") (Some "Open");
                       row_of (Some "4222") None] None)
  = Raise no_lower
  ∧ ∃ a, ErrorDetector.analyze_report noon_2026_11_04 noon_2026_11_04
           (main.report_data [row_of (Some "4111") (Some "Open")] None)
         = Ok a.
Proof.
  split.
  - apply (proj2 (X10_the_endpoint_needs_the_texts_of_every_row
                    noon_2026_11_04 noon_2026_11_04 _ None)).
    reflexivity.
  - apply (proj1 (X10_the_endpoint_needs_the_texts_of_every_row
                    noon_2026_11_04 noon_2026_11_04 _ None)).
    + intros d Hd. discriminate Hd.
    + reflexivity.
Defined.

(** X11.  The endpoint stores with a row the errors whose account number is
    the number of the row.  An outdated inquiry and a tax lien name no
    account, and their number reads as [None]: the endpoint stores every one
    of them with every row that has no account number, and with no row that
    has one; the errors that it stores with a row that has a number name an
    account with that number. *)
Theorem X11_errors_without_account_go_to_rows_without_number :
  ∀ now_outdated now_inquiries rows parsed a row,
    ErrorDetector.analyze_report now_outdated now_inquiries
      (main.report_data rows parsed) = Ok a →
    (CreditAccount.account_number row = None →
     ∀ e, e ∈ Analysis.errors a →
          Violation.type e = Some "outdated_inquiry"
          ∨ Violation.type e = Some "tax_lien_ncap" →
          e ∈ main.account_errors (Analysis.errors a) row)
    ∧ (∀ number e,
         CreditAccount.account_number row = Some number →
         e ∈ main.account_errors (Analysis.errors a) row →
         (∃ ref, Violation.account e = Some ref
                 ∧ AccountRef.account_number ref = Some number)
         ∧ Violation.type e ≠ Some "outdated_inquiry"
         ∧ Violation.type e ≠ Some "tax_lien_ncap").
Proof.
  intros now_outdated now_inquiries rows parsed a row Ha.
  pose proof (analyze_report_made _ _ _ _ Ha) as Hmade.
  rewrite Forall_forall in Hmade. unfold main.account_errors. split.
  - intros Hrow e He Htype. apply list_elem_of_filter. split; [|done].
    rewrite Hrow.
    destruct (made_by_a_rule_entries e (Hmade e He))
      as (t & s & f & i & acc & Hin & Ht & _ & _ & _ & Hacc).
    rule_cases Hin; destruct Htype as [Htype|Htype]; try congruence;
      by destruct (Violation.account e).
  - intros number e Hrow [Hnum He]%list_elem_of_filter.
    rewrite Hrow in Hnum.
    destruct (Violation.account e) as [ref|] eqn:Hacc; [|done].
    split; [by exists ref|].
    destruct (made_by_a_rule_entries e (Hmade e He))
      as (t & s & f & i & acc & Hin & Ht & _ & _ & _ & Hacc').
    rewrite Hacc in Hacc'.
    rule_cases Hin; rewrite Ht; done.
Qed.

(** A row without account number, and the report with an old inquiry and a
    tax lien: both errors are stored with the row. *)
Lemma X11_rows_without_number_witness :
  ∃ a, ErrorDetector.analyze_report noon_2026_11_04 noon_2026_11_04
         (main.report_data [row_of None (Some "Open")]
            (Some parsed_inquiry_and_lien)) = Ok a
       ∧ length (main.account_errors (Analysis.errors a)
                   (row_of None (Some "Open"))) = 2%nat
       ∧ ∀ e, e ∈ Analysis.errors a →
              Violation.type e = Some "outdated_inquiry"
              ∨ Violation.type e = Some "tax_lien_ncap" →
              e ∈ main.account_errors (Analysis.errors a)
                    (row_of None (Some "Open")).
Proof.
  eexists. split; [reflexivity|]. split; [vm_compute; reflexivity|].
  exact (proj1 (X11_errors_without_account_go_to_rows_without_number
                  noon_2026_11_04 noon_2026_11_04
                  [row_of None (Some "Open")] (Some parsed_inquiry_and_lien)
                  _ (row_of None (Some "Open")) eq_refl) eq_refl).
Defined.

(** ** The rounds, one by one *)

Section EachRound.

Import StrategyBuilder.

Lemma lookup_map {A B} (f : A → B) l i : map f l !! i = f <$> l !! i.
Proof.
  revert i. induction l as [|a l IH]; intros [|i]; simpl; try done.
Qed.

Lemma organize_rounds_lookup errors start i r :
  _organize_rounds errors start !! i = Some r →
  Round.round_number r = start + Z.of_nat i
  ∧ Round.experian r = Round.equifax r
  ∧ Round.transunion r = Round.equifax r
  ∧ length (Round.equifax r) = (5 `min` (length errors - 5 * i))%nat
  ∧ (0 < length (Round.equifax r))%nat.
Proof.
  rewrite organize_rounds_closed_form, lookup_map. cbv zeta.
  destruct (seq 0 ((length errors + 4) / 5) !! i) as [k|] eqn:Hk; [|done].
  apply lookup_seq in Hk as [-> Hi]. simpl. intros [= <-].
  unfold round_at. cbn [Round.round_number Round.equifax Round.experian
    Round.transunion q_equifax q_experian q_transunion].
  rewrite length_slice, length_sorted.
  assert (5 * S i ≤ length errors + 4)%nat.
  { pose proof (Nat.Div0.mul_div_le (length errors + 4) 5). lia. }
  repeat split; lia.
Qed.

Lemma elem_of_organize_rounds errors start r item :
  r ∈ _organize_rounds errors start →
  item ∈ Round.equifax r ++ Round.experian r ++ Round.transunion r →
  ∃ e, e ∈ errors ∧ item = schedule e.
Proof.
  intros Hr Hitem.
  assert (Hq : item ∈ map schedule (sorted ErrorDetector.priority_key errors)).
  { destruct (organize_rounds_all_items errors start) as (He & Hx & Ht).
    cbv zeta in *.
    apply elem_of_app in Hitem as [Hitem|Hitem];
      [|apply elem_of_app in Hitem as [Hitem|Hitem]].
    - rewrite <- He. apply elem_of_concat. eexists. split; [|exact Hitem].
      apply elem_of_map. by exists r.
    - rewrite <- Hx. apply elem_of_concat. eexists. split; [|exact Hitem].
      apply elem_of_map. by exists r.
    - rewrite <- Ht. apply elem_of_concat. eexists. split; [|exact Hitem].
      apply elem_of_map. by exists r. }
  apply elem_of_map in Hq as (e & -> & He). exists e. split; [|done].
  by rewrite sorted_Permutation in He.
Qed.

Lemma create_timeline_bureaus now errors start entry :
  entry ∈ _create_timeline now (_organize_rounds errors start) start →
  TimelineEntry.bureaus entry = ["equifax"; "experian"; "transunion"].
Proof.
  intros [i Hi]%list_elem_of_lookup. unfold _create_timeline in Hi.
  rewrite list_lookup_imap in Hi.
  destruct (_organize_rounds errors start !! i) as [r|] eqn:Hr; [|done].
  injection Hi as <-. cbn [TimelineEntry.bureaus].
  apply organize_rounds_lookup in Hr as (_ & -> & -> & _ & Hpos).
  rewrite bool_decide_eq_true_2 by done. reflexivity.
Qed.

(** The estimates of every impact sum from 0 to 5000 are the exact ones. *)
Lemma estimates_exact_upto_5000 :
  forallb (λ i, estimates_exact (Z.of_nat i)) (seq 0 (Z.to_nat 5001)) = true.
Proof. vm_compute. reflexivity. Qed.

Lemma estimates_exact_range z :
  0 ≤ z ≤ 5000 → estimates_exact z = true.
Proof.
  intros Hz. pose proof estimates_exact_upto_5000 as H.
  rewrite forallb_forall in H. specialize (H (Z.to_nat z)).
  rewrite Z2Nat.id in H by lia. apply H, in_seq. lia.
Qed.

Lemma calculate_estimates_exact errors :
  0 ≤ ErrorDetector.sum_impact errors ≤ 5000 →
  _calculate_estimates errors
  = Ok (estimates_of (ErrorDetector.sum_impact errors)).
Proof.
  intros H%estimates_exact_range. unfold _calculate_estimates.
  destruct errors as [|e errors]; [reflexivity|].
  unfold estimates_exact in H.
  destruct (float.int_mul _ float.lit_1_0) as [best|]; [|done].
  destruct (float.int_mul _ float.lit_0_6) as [realistic|]; [|done].
  destruct (float.int_mul _ float.lit_0_3) as [conservative|]; [|done].
  apply andb_true_iff in H as [[H1 H2]%andb_true_iff H3].
  apply Z.eqb_eq in H1, H2, H3. cbn [mbind res_bind].
  unfold estimates_of. by rewrite H1, H2, H3.
Qed.

Lemma schedule_made e :
  made_by_a_rule e = true → scheduled_for_a_rule (schedule e).
Proof.
  intros (t & s & f & i & acc & Hin & Ht & _ & _ & _ & _)
    %made_by_a_rule_entries.
  unfold scheduled_for_a_rule, schedule, _get_letter_type.
  cbn [Item.letter_type Item.strategy Item.error].
  rule_cases Hin;
    repeat match goal with
      | H : Violation.dispute_strategy e = _ |- _ => rewrite H; clear H
      end;
    rewrite Ht; split; vm_compute; reflexivity.
Qed.

End EachRound.

(** X12.  Round [i] of [_organize_rounds], counted from 0, has the number
    [start + i]; it holds the same items for Equifax, for Experian and for
    TransUnion, five of them as long as five errors are left and otherwise
    those that are left, and it is never empty. *)
Theorem X12_every_round_is_the_same_for_the_three_bureaus :
  ∀ errors start i r,
    StrategyBuilder._organize_rounds errors start !! i = Some r →
    Round.round_number r = start + Z.of_nat i
    ∧ Round.experian r = Round.equifax r
    ∧ Round.transunion r = Round.equifax r
    ∧ length (Round.equifax r) = (5 `min` (length errors - 5 * i))%nat
    ∧ (0 < length (Round.equifax r))%nat.
Proof. apply organize_rounds_lookup. Qed.

(** The third round of the twelve violations: number 3, two items *)
Lemma X12_every_round_witness :
  ∃ r, StrategyBuilder._organize_rounds twelve_violations 1 !! 2%nat = Some r
       ∧ Round.round_number r = 3
       ∧ Round.experian r = Round.equifax r
       ∧ length (Round.equifax r) = 2%nat.
Proof.
  assert (Hr : ∃ r, StrategyBuilder._organize_rounds twelve_violations 1
                    !! 2%nat = Some r).
  { rewrite organize_rounds_closed_form. by eexists. }
  destruct Hr as [r Hr]. exists r. split; [exact Hr|].
  destruct (X12_every_round_is_the_same_for_the_three_bureaus
              twelve_violations 1 2%nat r Hr) as (Hn & Hx & _ & Hl & _).
  split; [exact Hn|]. split; [exact Hx | exact Hl].
Defined.

(** X13.  Every entry of the timeline of the rounds of [_organize_rounds]
    lists the three bureaus, in the order Equifax, Experian, TransUnion. *)
Theorem X13_every_timeline_entry_lists_the_three_bureaus :
  ∀ now errors start entry,
    entry ∈ StrategyBuilder._create_timeline now
              (StrategyBuilder._organize_rounds errors start) start →
    TimelineEntry.bureaus entry = ["equifax"; "experian"; "transunion"].
Proof. apply create_timeline_bureaus. Qed.

(** The first entry of the timeline of the twelve violations *)
Lemma X13_timeline_entry_witness :
  ∃ entry,
    StrategyBuilder._create_timeline noon_2026_11_04
      (StrategyBuilder._organize_rounds twelve_violations 1) 1 !! 0%nat
    = Some entry
    ∧ TimelineEntry.bureaus entry = ["equifax"; "experian"; "transunion"].
Proof.
  assert (He : ∃ entry,
            StrategyBuilder._create_timeline noon_2026_11_04
              (StrategyBuilder._organize_rounds twelve_violations 1) 1
            !! 0%nat = Some entry).
  { rewrite organize_rounds_closed_form. by eexists. }
  destruct He as [entry He]. exists entry. split; [exact He|].
  apply (X13_every_timeline_entry_lists_the_three_bureaus noon_2026_11_04
           twelve_violations 1).
  by eapply list_elem_of_lookup_2.
Defined.

(** X14.  For errors whose impacts add up to a number from 0 to 5000,
    [_calculate_estimates] returns that sum as the best estimate, six tenths
    of it as the realistic and three tenths as the conservative one, each
    rounded down: the products with the floats 0.6 and 0.3 lose nothing.
    The conservative estimate is not above the realistic one, and that one
    is not above the best. *)
Theorem X14_estimates_are_tenths_of_the_impact :
  ∀ errors,
    0 ≤ ErrorDetector.sum_impact errors ≤ 5000 →
    ∃ estimates,
      StrategyBuilder._calculate_estimates errors = Ok estimates
      ∧ estimates = estimates_of (ErrorDetector.sum_impact errors)
      ∧ 0 ≤ Estimates.conservative estimates ≤ Estimates.realistic estimates
      ∧ Estimates.realistic estimates ≤ Estimates.best estimates.
Proof.
  intros errors Hsum. eexists. split; [by apply calculate_estimates_exact|].
  split; [done|]. unfold estimates_of. simpl.
  set (t := ErrorDetector.sum_impact errors) in *.
  pose proof (Z.div_le_mono (3 * t) (6 * t) 10).
  pose proof (Z.div_le_upper_bound (6 * t) 10 t).
  pose proof (Z.div_pos (3 * t) 10). lia.
Qed.

(** The twelve violations: impacts of 165 in all, estimates 165, 99, 49 *)
Lemma X14_estimates_witness :
  StrategyBuilder._calculate_estimates twelve_violations
  = Ok (Estimates.mk 165 99 49).
Proof.
  destruct (X14_estimates_are_tenths_of_the_impact twelve_violations)
    as (estimates & -> & -> & _).
  - vm_compute. split; discriminate.
  - reflexivity.
Defined.

(** X15.  For the errors of an analysis that [analyze_report] returns, the
    rounds of [_organize_rounds] hold two kinds of letter and two
    strategies, for every bureau: a medical collection gets the letter of a
    debt validation, every other error that of a bureau dispute; an error
    that the analysis marks [fcra_violation] gets the strategy of that name,
    every other error that of a factual dispute, also the medical
    collection, whose strategy [collection_validation] the builder does not
    know. *)
Theorem X15_letters_and_strategies_of_an_analysis :
  ∀ now_outdated now_inquiries report a start item,
    ErrorDetector.analyze_report now_outdated now_inquiries report = Ok a →
    item ∈ items_of (StrategyBuilder._organize_rounds (Analysis.errors a)
                       start) →
    scheduled_for_a_rule item.
Proof.
  intros now_outdated now_inquiries report a start item Ha Hitem.
  pose proof (analyze_report_made _ _ _ _ Ha) as Hmade.
  rewrite Forall_forall in Hmade.
  apply elem_of_concat in Hitem as (items & Hitems & Hitem).
  apply elem_of_map in Hitems as (r & -> & Hr).
  destruct (elem_of_organize_rounds _ _ _ _ Hr Hitem) as (e & He & ->).
  apply schedule_made. by apply Hmade.
Qed.

(** The report of two accounts, an inquiry and a tax lien: the first item
    of the first round *)
Lemma X15_letters_witness :
  ∃ a r item,
    ErrorDetector.analyze_report noon_2026_11_04 noon_2026_11_04
      report_of_two_accounts = Ok a
    ∧ StrategyBuilder._organize_rounds (Analysis.errors a) 1 !! 0%nat = Some r
    ∧ Round.equifax r !! 0%nat = Some item
    ∧ scheduled_for_a_rule item.
Proof.
  eexists _, _, _. split; [reflexivity|].
  split; [rewrite organize_rounds_closed_form; reflexivity|].
  split; [reflexivity|].
  apply (X15_letters_and_strategies_of_an_analysis noon_2026_11_04
           noon_2026_11_04 report_of_two_accounts _ 1 _ eq_refl).
  rewrite organize_rounds_closed_form. apply elem_of_concat.
  eexists. split; [apply elem_of_map; eexists; split;
                     [reflexivity | apply list_elem_of_here]|].
  apply elem_of_app. left. apply list_elem_of_here.
Defined.

(** ** The parser: masks, bureaus, scores *)

Section Strip.

Lemma lstrip_head s :
  lstrip s = EmptyString
  ∨ ∃ c r, lstrip s = String c r ∧ isspace c = false.
Proof.
  induction s as [|c r IH]; simpl; [by left|].
  destruct (isspace c) eqn:Hc; [done|]. right. by exists c, r.
Qed.

Lemma rstrip_cons c r :
  rstrip (String c r)
  = match rstrip r with
    | EmptyString => if isspace c then EmptyString else String c EmptyString
    | r' => String c r'
    end.
Proof. reflexivity. Qed.

Lemma rstrip_rstrip s : rstrip (rstrip s) = rstrip s.
Proof.
  induction s as [|c r IH]; [done|]. rewrite rstrip_cons.
  destruct (rstrip r) as [|c' r'] eqn:Hr.
  - destruct (isspace c) eqn:Hc; [done|]. rewrite rstrip_cons. simpl.
    by rewrite Hc.
  - rewrite rstrip_cons, IH. done.
Qed.

Lemma rstrip_head c r :
  isspace c = false → ∃ r', rstrip (String c r) = String c r'.
Proof.
  intros Hc. rewrite rstrip_cons.
  destruct (rstrip r); [rewrite Hc|]; by eexists.
Qed.

Lemma lstrip_strip s : lstrip (strip s) = strip s.
Proof.
  unfold strip. destruct (lstrip_head s) as [->|(c & r & -> & Hc)]; [done|].
  destruct (rstrip_head c r Hc) as [r' ->]. simpl. by rewrite Hc.
Qed.

Lemma strip_strip s : strip (strip s) = strip s.
Proof.
  unfold strip at 1. rewrite lstrip_strip. unfold strip.
  apply rstrip_rstrip.
Qed.

Lemma rstrip_app a b :
  b ≠ EmptyString → rstrip b = b → rstrip (a +:+ b) = a +:+ b.
Proof.
  intros Hne Hb. induction a as [|c a IH]; [done|].
  change (String c a +:+ b) with (String c (a +:+ b)).
  rewrite rstrip_cons, IH.
  destruct (a +:+ b) eqn:Hab; [|done].
  destruct a, b; done.
Qed.

Lemma rstrip_str_drop n s :
  rstrip s = s → (n < String.length s)%nat →
  rstrip (str_drop n s) = str_drop n s.
Proof.
  revert s. induction n as [|n IH]; intros s; [by destruct s|].
  destruct s as [|c r]; [simpl; lia|].
  rewrite rstrip_cons. cbn [str_drop String.length].
  intros Hs Hn. apply IH; [|lia].
  destruct (rstrip r) as [|c' r'] eqn:Hr.
  - destruct r; [simpl in Hn; lia|]. by destruct (isspace c).
  - by injection Hs as <-.
Qed.

End Strip.

Section Bureau.

Lemma count_go_nonneg sub skip s : 0 ≤ count_go sub skip s.
Proof.
  revert skip. induction s as [|c r IH]; intros skip; cbn [count_go];
    [done|].
  destruct skip; [|apply IH].
  destruct (String.prefix sub (String c r)); [|apply IH].
  specialize (IH (String.length sub - 1)%nat). lia.
Qed.

Lemma count_pos sub s :
  sub ≠ EmptyString → 0 < count sub s ↔ contains sub s = true.
Proof.
  intros Hsub. unfold count. induction s as [|c r IH].
  - simpl. destruct sub; [done|]. simpl. split; [lia | done].
  - cbn [count_go contains].
    destruct (String.prefix sub (String c r)).
    + pose proof (count_go_nonneg sub (String.length sub - 1) r).
      split; [done | lia].
    + done.
Qed.

Lemma count_zero sub s :
  sub ≠ EmptyString → count sub s = 0 ↔ contains sub s = false.
Proof.
  intros Hsub. pose proof (count_go_nonneg sub 0 s).
  pose proof (count_pos sub s Hsub). unfold count in *.
  destruct (contains sub s); split; intros; try done; lia.
Qed.

Lemma lower_char_lower_char c : lower_char (lower_char c) = lower_char c.
Proof. destruct c as [[] [] [] [] [] [] [] []]; reflexivity. Qed.

Lemma lower_lower s : lower (lower s) = lower s.
Proof.
  induction s as [|c r IH]; simpl; [done|].
  by rewrite lower_char_lower_char, IH.
Qed.

End Bureau.

(** X16.  A masked account number has no white space around it, and masking
    it again gives the same number. *)
Theorem X16_masking_twice_is_masking_once :
  ∀ cell : option string,
    trimmed (PDFParser._mask_account_number cell)
    ∧ PDFParser._mask_account_number
        (Some (PDFParser._mask_account_number cell))
      = PDFParser._mask_account_number cell.
Proof.
  intros cell.
  assert (Htrim : trimmed (PDFParser._mask_account_number cell)).
  { destruct cell as [raw|]; [|done]. rewrite mask_stripped. cbv zeta.
    unfold trimmed. destruct (4 <? _)%nat eqn:Hlen; [|apply strip_strip].
    apply Nat.ltb_lt in Hlen. set (s := strip raw) in *.
    destruct (String.length s - 4)%nat as [|k] eqn:Hk; [lia|].
    unfold strip.
    change (lstrip (str_replicate (S k) "X" +:+ last_n 4 s))
      with (str_replicate (S k) "X" +:+ last_n 4 s).
    apply rstrip_app.
    - intros Hnil. pose proof (length_last_n 4 s) as Hl.
      rewrite Hnil in Hl. simpl in Hl. lia.
    - unfold last_n. apply rstrip_str_drop; [|lia].
      subst s. unfold strip. apply rstrip_rstrip. }
  split; [exact Htrim|].
  destruct cell as [raw|]; [|done].
  pose proof (masked_form_stripped raw) as (Hlen & Hlast & _).
  rewrite (mask_stripped (PDFParser._mask_account_number (Some raw))).
  cbv zeta. unfold trimmed in Htrim. rewrite !Htrim, !Hlen, Hlast.
  rewrite !(mask_stripped raw). cbv zeta.
  by destruct (4 <? _)%nat.
Qed.

(** X17.  [_detect_bureau] counts the names of the three bureaus in the
    text, whatever the case of its letters.  It answers [unknown] exactly
    when the text holds none of the names, and otherwise the name that is
    counted most often; of two names that are counted equally often it
    answers the one that comes first in the order Equifax, Experian,
    TransUnion. *)
Theorem X17_the_bureau_that_is_named_most_often :
  ∀ text,
    let named b := count b (lower text) in
    (PDFParserReport._detect_bureau text = "unknown"
     ↔ Forall (λ b, contains b (lower text) = false) bureaus)
    ∧ (PDFParserReport._detect_bureau text = "equifax"
       ↔ 0 < named "equifax" ∧ named "experian" ≤ named "equifax"
         ∧ named "transunion" ≤ named "equifax")
    ∧ (PDFParserReport._detect_bureau text = "experian"
       ↔ named "equifax" < named "experian"
         ∧ named "transunion" ≤ named "experian")
    ∧ (PDFParserReport._detect_bureau text = "transunion"
       ↔ named "equifax" < named "transunion"
         ∧ named "experian" < named "transunion")
    ∧ PDFParserReport._detect_bureau (lower text)
      = PDFParserReport._detect_bureau text.
Proof.
  intros text. cbv zeta.
  unfold PDFParserReport._detect_bureau. rewrite lower_lower.
  pose proof (count_go_nonneg "equifax" 0 (lower text)) as He.
  pose proof (count_go_nonneg "experian" 0 (lower text)) as Hx.
  pose proof (count_go_nonneg "transunion" 0 (lower text)) as Ht.
  fold (count "equifax" (lower text)) in He.
  fold (count "experian" (lower text)) in Hx.
  fold (count "transunion" (lower text)) in Ht.
  unfold bureaus. rewrite !Forall_cons, Forall_nil.
  rewrite <- !count_zero by done.
  cbn [max_item fst snd].
  destruct (Z.ltb_spec (count "equifax" (lower text))
              (count "experian" (lower text))); cbn [fst snd];
    match goal with
    | |- context [?a <? count "transunion" (lower text)] =>
        destruct (Z.ltb_spec a (count "transunion" (lower text)))
    end; cbn [fst snd];
    match goal with
    | |- context [0 <? ?b] => destruct (Z.ltb_spec 0 b)
    end;
    (split; [|split; [|split; [|split; [|done]]]]);
    split; intros; try discriminate; try lia; try done.
Qed.

(** X18.  A score that [_extract_score] returns is within 300 and 850 and is
    what one of its patterns finds in the text; it returns none exactly when
    no pattern finds a score within that range. *)
Theorem X18_a_score_is_within_its_range :
  ∀ re_search_int text bureau,
    (∀ score,
       PDFParserReport._extract_score re_search_int text bureau = Some score →
       in_range score
       ∧ ∃ pattern, pattern ∈ PDFParserReport.score_patterns bureau
                    ∧ re_search_int pattern text = Some score)
    ∧ (PDFParserReport._extract_score re_search_int text bureau = None
       ↔ ∀ pattern score,
           pattern ∈ PDFParserReport.score_patterns bureau →
           re_search_int pattern text = Some score → ¬ in_range score).
Proof.
  intros re_search_int text bureau. unfold PDFParserReport._extract_score.
  generalize (PDFParserReport.score_patterns bureau). intros patterns.
  unfold in_range. induction patterns as [|p patterns [IH1 IH2]].
  - split; [done|]. split; [|done]. intros _ pattern score Hin.
    by apply elem_of_nil in Hin.
  - cbn [PDFParserReport.first_score].
    destruct (re_search_int p text) as [s|] eqn:Hp.
    + destruct ((300 <=? s) && (s <=? 850)) eqn:Hs.
      * apply andb_true_iff in Hs as [?%Z.leb_le ?%Z.leb_le]. split.
        -- intros score [= <-]. split; [lia|]. exists p. split; [by left|done].
        -- split; [done|]. intros Hall. exfalso.
           apply (Hall p s); [by left | done | lia].
      * assert (¬ 300 ≤ s ≤ 850).
        { apply andb_false_iff in Hs as [?%Z.leb_gt | ?%Z.leb_gt]; lia. }
        split.
        -- intros score (Hr & q & Hq & Hqs)%IH1. split; [done|].
           exists q. split; [by right | done].
        -- rewrite IH2. split.
           ++ intros H' pattern score [->|Hin]%elem_of_cons Hfound.
              ** congruence.
              ** by eapply H'.
           ++ intros H' pattern score Hin. apply H'. by right.
    + split.
      * intros score (Hr & q & Hq & Hqs)%IH1. split; [done|].
        exists q. split; [by right | done].
      * rewrite IH2. split.
        -- intros H' pattern score [->|Hin]%elem_of_cons Hfound.
           ++ congruence.
           ++ by eapply H'.
        -- intros H' pattern score Hin. apply H'. by right.
Qed.

(** ** The parsed report *)

Section Parsed.

Import PDFParserReport.

Lemma detect_bureau_range text :
  _detect_bureau text ∈ bureaus ++ ["unknown"].
Proof.
  unfold _detect_bureau, bureaus. cbn [max_item fst snd].
  repeat match goal with
    | |- context [?a <? ?b] =>
        lazymatch a with
        | context [_ <? _] => fail
        | _ => destruct (a <? b); cbn [fst snd]
        end
    end; set_solver.
Qed.

Lemma first_score_range re_search_int patterns text score :
  first_score re_search_int patterns text = Some score → in_range score.
Proof.
  unfold in_range. induction patterns as [|p patterns IH]; [done|].
  cbn [first_score]. destruct (re_search_int p text) as [s|]; [|done].
  destruct ((300 <=? s) && (s <=? 850)) eqn:Hs; [|done].
  intros [= <-]. apply andb_true_iff in Hs as [?%Z.leb_le ?%Z.leb_le]. done.
Qed.

Lemma length_str_take n s : (String.length (str_take n s) ≤ n)%nat.
Proof.
  revert s. induction n as [|n IH]; intros [|c r]; simpl; try lia.
  specialize (IH r). lia.
Qed.

Lemma parsed_dict_Ok A re_search_int personal_info accounts inquiries
    public_records now format bureau score_keys text tables file_path d
    parsed_at :
  parsed_dict A re_search_int personal_info accounts inquiries public_records
    now format bureau score_keys text tables file_path
  = Ok (ParseResult.parsed d parsed_at) →
  ReportDict.format A d = format
  ∧ ReportDict.bureau A d = bureau
  ∧ map fst (ReportDict.scores d) = score_keys
  ∧ Forall score_in_range (ReportDict.scores d)
  ∧ (String.length (ReportDict.raw_text A d) ≤ Z.to_nat 50000)%nat.
Proof.
  unfold parsed_dict.
  pose proof (length_str_take (Z.to_nat 50000) text) as Hraw. revert Hraw.
  generalize (str_take (Z.to_nat 50000) text) (datetime.isoformat now).
  intros raw parsed_at' Hraw.
  destruct (personal_info text); [|done]. cbn [mbind res_bind].
  destruct (accounts text tables); [|done]. cbn [mbind res_bind].
  destruct (inquiries text); [|done]. cbn [mbind res_bind].
  destruct (public_records text); [|done]. cbn [mbind res_bind].
  intros [= <- <-]. cbn [ReportDict.format ReportDict.bureau
    ReportDict.scores ReportDict.raw_text].
  split; [done|]. split; [done|]. split.
  { rewrite map_map. cbn [fst]. apply map_id. }
  split.
  - apply Forall_forall. intros entry (key & -> & _)%elem_of_map.
    unfold score_in_range, _extract_score. cbn [snd].
    destruct (first_score _ _ _) as [score|] eqn:Hscore; [|done].
    by eapply first_score_range.
  - exact Hraw.
Qed.

End Parsed.

(** X19.  A report that [parse_report] returns has one of six formats,
    never [MyFICO] or [AnnualCreditReport], which [_detect_format] knows; its
    bureau is one of the three or [unknown], and is the bureau of the format
    when the format is that of a bureau; its scores are those of the three
    bureaus, or the one score of the bureau of the format, each within 300
    and 850 when it is there; its raw text has at most 50000 characters.  A
    bureau that the caller names counts only when the format is not that of
    SmartCredit or IdentityIQ, and only when it is one of the three names in
    small letters: any other name makes the report one of the bureau
    [unknown]. *)
Theorem X19_the_shape_of_a_parsed_report :
  ∀ A pdfplumber_open re_search_int personal_info accounts inquiries
    public_records now file_path bureau d parsed_at,
    PDFParserReport.parse_report A pdfplumber_open re_search_int personal_info
      accounts inquiries public_records now file_path bureau
    = ParseResult.parsed d parsed_at →
    shape_of_a_report (ReportDict.format A d) (ReportDict.bureau A d)
      (map fst (ReportDict.scores d))
    ∧ Forall score_in_range (ReportDict.scores d)
    ∧ (String.length (ReportDict.raw_text A d) ≤ Z.to_nat 50000)%nat
    ∧ (truthy_str bureau = true →
       ReportDict.format A d ∉ ["SmartCredit"; "IdentityIQ"] →
       ReportDict.bureau A d
       = if bool_decide (default EmptyString bureau ∈ bureaus)
         then default EmptyString bureau else "unknown").
Proof.
  intros A pdfplumber_open re_search_int personal_info accounts inquiries
    public_records now file_path bureau d parsed_at.
  unfold PDFParserReport.parse_report.
  destruct (PDFParserReport.parse_report_body _ _ _ _ _ _ _ _ _ _)
    as [result|e] eqn:Hbody; [|done].
  intros ->. revert Hbody. unfold PDFParserReport.parse_report_body.
  destruct (pdfplumber_open file_path) as [pages|]; [|done].
  cbn [mbind res_bind].
  destruct (PDFParserReport.read_pages pages EmptyString [])
    as [[text tables]|]; [|done].
  cbn [mbind res_bind].
  set (detected := if truthy_str bureau then default EmptyString bureau
                   else PDFParserReport._detect_bureau text).
  assert (Hdetected : truthy_str bureau = true →
                      detected = default EmptyString bureau).
  { intros Ht. unfold detected. by rewrite Ht. }
  clearbody detected.
  unfold PDFParserReport._parse_smartcredit, PDFParserReport._parse_identityiq,
    PDFParserReport._parse_equifax, PDFParserReport._parse_experian,
    PDFParserReport._parse_transunion, PDFParserReport._parse_generic,
    PDFParserReport.all_bureaus.
  destruct (String.eqb (PDFParserReport._detect_format text) "SmartCredit").
  { intros (-> & -> & -> & Hscores & Hraw)%parsed_dict_Ok.
    split; [|split; [done|split; [done|]]].
    - left. split; [set_solver|]. split; [apply detect_bureau_range | done].
    - intros _ Hformat. exfalso. apply Hformat. set_solver. }
  destruct (String.eqb (PDFParserReport._detect_format text) "IdentityIQ").
  { intros (-> & -> & -> & Hscores & Hraw)%parsed_dict_Ok.
    split; [|split; [done|split; [done|]]].
    - left. split; [set_solver|]. split; [apply detect_bureau_range | done].
    - intros _ Hformat. exfalso. apply Hformat. set_solver. }
  destruct (String.eqb_spec detected "equifax") as [He|He].
  { intros (-> & -> & -> & Hscores & Hraw)%parsed_dict_Ok.
    split; [|split; [done|split; [done|]]].
    - right. set_solver.
    - intros <-%Hdetected _. rewrite He. reflexivity. }
  destruct (String.eqb_spec detected "experian") as [Hx|Hx].
  { intros (-> & -> & -> & Hscores & Hraw)%parsed_dict_Ok.
    split; [|split; [done|split; [done|]]].
    - right. set_solver.
    - intros <-%Hdetected _. rewrite Hx. reflexivity. }
  destruct (String.eqb_spec detected "transunion") as [Ht|Ht].
  { intros (-> & -> & -> & Hscores & Hraw)%parsed_dict_Ok.
    split; [|split; [done|split; [done|]]].
    - right. set_solver.
    - intros <-%Hdetected _. rewrite Ht. reflexivity. }
  intros (-> & -> & -> & Hscores & Hraw)%parsed_dict_Ok.
  split; [|split; [done|split; [done|]]].
  - right. unfold bureaus. set_solver.
  - intros <-%Hdetected _. rewrite bool_decide_eq_false_2; [done|].
    unfold bureaus. set_solver.
Qed.

(** A page that names Equifax, read with the hint [Equifax] in capital
    letters: the hint is not one of the three names, and the report is one of
    the bureau [unknown]. *)
Lemma X19_parsed_report_witness :
  ∃ d parsed_at,
    PDFParserReport.parse_report unit one_page_of_equifax (λ _ _, None)
      (λ _, Ok (PersonalInfo.mk None None None None)) (λ _ _, Ok [])
      (λ _, Ok []) (λ _, Ok []) noon_2026_11_04 "report.pdf" (Some "Equifax")
    = ParseResult.parsed d parsed_at
    ∧ ReportDict.format unit d = "Unknown"
    ∧ ReportDict.bureau unit d = "unknown"
    ∧ shape_of_a_report (ReportDict.format unit d) (ReportDict.bureau unit d)
        (map fst (ReportDict.scores d)).
Proof.
  eexists _, _. split; [reflexivity|]. split; [reflexivity|].
  split; [reflexivity|].
  exact (proj1 (X19_the_shape_of_a_parsed_report unit one_page_of_equifax
                  (λ _ _, None)
                  (λ _, Ok (PersonalInfo.mk None None None None))
                  (λ _ _, Ok []) (λ _, Ok []) (λ _, Ok []) noon_2026_11_04
                  "report.pdf" (Some "Equifax") _ _ eq_refl)).
Defined.

(** ** The accounts of the tables *)

Section Tables.

Import PDFParser.

Lemma accounts_of_row_shape F float_of_str float_zero row :
  Forall of_a_row (accounts_of_row F float_of_str float_zero row).
Proof.
  unfold accounts_of_row. destruct (bool_decide _); [|constructor].
  cbn [ParsedAccount.creditor_name].
  destruct (truthy_str (row !!! 0%nat)) eqn:Hcell.
  - destruct (row !!! 0%nat) as [[|c r]|]; try discriminate Hcell.
    cbn [default from_option id truthy_str when].
    repeat constructor. done.
  - constructor.
Qed.

Lemma accounts_of_tables_shape F float_of_str float_zero tables :
  Forall of_a_row
    (concat (map (accounts_of_table F float_of_str float_zero) tables)).
Proof.
  apply Forall_concat_map. intros t. unfold accounts_of_table.
  destruct (bool_decide _); [|constructor].
  apply Forall_concat_map. intros row. apply accounts_of_row_shape.
Qed.

Lemma accounts_of_tables_not_nil F float_of_str float_zero tables t row :
  t ∈ tables → row ∈ drop 1 t → (3 ≤ length row)%nat →
  truthy_str (row !!! 0%nat) = true →
  concat (map (accounts_of_table F float_of_str float_zero) tables) ≠ [].
Proof.
  intros Ht Hrow Hlen Hcell Hnil.
  assert (Ha : ∃ a, a ∈ accounts_of_row F float_of_str float_zero row).
  { unfold accounts_of_row. rewrite bool_decide_eq_true_2 by done.
    cbn [ParsedAccount.creditor_name]. rewrite Hcell.
    destruct (row !!! 0%nat) as [[|c r]|]; try discriminate Hcell.
    eexists. apply list_elem_of_here. }
  destruct Ha as [a Ha].
  assert (Hin : a ∈ concat (map (accounts_of_table F float_of_str float_zero)
                              tables)).
  { apply elem_of_concat. eexists. split; [apply elem_of_map; by exists t|].
    unfold accounts_of_table. rewrite bool_decide_eq_true_2.
    - apply elem_of_concat. eexists. split; [|exact Ha].
      apply elem_of_map. by exists row.
    - destruct t as [|? [|? ?]]; simpl in *; try lia;
        by apply elem_of_nil in Hrow. }
  rewrite Hnil in Hin. by apply elem_of_nil in Hin.
Qed.

End Tables.

(** X20.  When a table has a row after its first with at least three cells
    and a first cell that is not empty, [_extract_accounts] returns the
    accounts of the tables and does not search the text: the result is the
    same for every text, it is not empty, and each account has a creditor
    and neither a type nor a status. *)
Theorem X20_the_tables_come_before_the_text :
  ∀ F float_of_str float_zero findall text tables t row,
    t ∈ tables → row ∈ drop 1 t → (3 ≤ length row)%nat →
    truthy_str (row !!! 0%nat) = true →
    let accounts :=
      PDFParser._extract_accounts F float_of_str float_zero findall text
        tables in
    accounts ≠ []
    ∧ Forall of_a_row accounts
    ∧ ∀ findall' text',
        PDFParser._extract_accounts F float_of_str float_zero findall' text'
          tables = accounts.
Proof.
  intros F float_of_str float_zero findall text tables t row Ht Hrow Hlen
    Hcell.
  pose proof (accounts_of_tables_not_nil F float_of_str float_zero tables t
                row Ht Hrow Hlen Hcell) as Hne.
  pose proof (accounts_of_tables_shape F float_of_str float_zero tables)
    as Hshape.
  cbv zeta. unfold PDFParser._extract_accounts.
  destruct (concat _) as [|a accounts]; [done|]. by repeat split.
Qed.

(** A table with a header and one row, beside a text in which the
    expression of the accounts finds another account *)
Lemma X20_tables_witness :
  PDFParser._extract_accounts Z (λ _, None) 0
    (λ _, [("XYZ Bank", "99999999", "Revolving", "250")]) "XYZ Bank"
    [table_of_one_account]
  = [ParsedAccount.mk "ABC Bank" "XXXX5678" EmptyString 0 EmptyString].
Proof.
  destruct (X20_the_tables_come_before_the_text Z (λ _, None) 0
              (λ _, [("XYZ Bank", "99999999", "Revolving", "250")])
              "XYZ Bank" [table_of_one_account] table_of_one_account
              [Some "ABC Bank"; Some "12345678"; Some "100"])
    as (_ & _ & Hsame).
  - apply list_elem_of_here.
  - apply list_elem_of_here.
  - simpl. lia.
  - reflexivity.
  - rewrite <- (Hsame (λ _, []) EmptyString). reflexivity.
Defined.

(** ** An upload that is an image *)

(** X21.  For an upload whose type starts with [image/], [process_upload]
    reports a success whenever the extraction methods return on the text of
    the image, and gives that text as the raw text, whatever it is: an image
    that cannot be opened is a success too, with the text [OCR Error: ...]
    as its raw text.  For every other upload it returns what
    [process_credit_report] returns for the file and no bureau. *)
Theorem X21_an_upload_of_an_image_is_a_success :
  ∀ A Image Image_open _process_image process_credit_report accounts
    personal_info score file_path file_type found info equifax experian
    transunion,
    let process_image :=
      OCREngine.process_image Image Image_open _process_image in
    let text := process_image file_path in
    truthy_str file_type = true →
    startswith (default EmptyString file_type) "image/" = true →
    accounts text = Ok found →
    personal_info text = Ok info →
    score text "equifax" = Ok equifax →
    score text "experian" = Ok experian →
    score text "transunion" = Ok transunion →
    ∃ data,
      OCRIntegrationUpload.process_upload A process_image
        process_credit_report accounts personal_info score file_path file_type
      = Ok (UploadResult.image true "ocr_image" data)
      ∧ ImageData.raw_text data = text
      ∧ ImageData.accounts data = found
      ∧ ∀ e, Image_open file_path = Raise e →
             ImageData.raw_text data = "OCR Error: " +:+ str_exn e.
Proof.
  intros A Image Image_open _process_image process_credit_report accounts
    personal_info score file_path file_type found info equifax experian
    transunion process_image text Htype Himage Hfound Hinfo He Hx Ht.
  unfold OCRIntegrationUpload.process_upload. rewrite Htype, Himage.
  cbn [andb]. fold text. rewrite Hfound. cbn [mbind res_bind].
  rewrite Hinfo. cbn [mbind res_bind]. rewrite He. cbn [mbind res_bind].
  rewrite Hx. cbn [mbind res_bind]. rewrite Ht. cbn [mbind res_bind].
  eexists. split; [reflexivity|]. cbn [ImageData.raw_text ImageData.accounts].
  split; [done|]. split; [done|].
  intros e Hopen. unfold text, process_image, OCREngine.process_image,
    OCREngine.process_image_body. by rewrite Hopen.
Qed.

(** An upload of the type [image/png] that cannot be opened *)
Lemma X21_upload_witness :
  ∃ data,
    OCRIntegrationUpload.process_upload unit
      (OCREngine.process_image unit cannot_identify (λ _, Ok EmptyString))
      (OCRIntegration.process_credit_report unit unreadable_parse
         (λ _, EmptyString) (λ _, Ok EmptyString)
         (λ _, Ok (PersonalInfo.mk None None None None)) (λ _, Ok [])
         (λ _, Ok []) (λ _, Ok []) (λ _ _, Ok None))
      (λ _, Ok []) (λ _, Ok (PersonalInfo.mk None None None None))
      (λ _ _, Ok None) "scan.png" (Some "image/png")
    = Ok (UploadResult.image true "ocr_image" data)
    ∧ ImageData.raw_text data = "OCR Error: cannot identify image file".
Proof.
  destruct (X21_an_upload_of_an_image_is_a_success unit unit cannot_identify
              (λ _, Ok EmptyString)
              (OCRIntegration.process_credit_report unit unreadable_parse
                 (λ _, EmptyString) (λ _, Ok EmptyString)
                 (λ _, Ok (PersonalInfo.mk None None None None)) (λ _, Ok [])
                 (λ _, Ok []) (λ _, Ok []) (λ _ _, Ok None))
              (λ _, Ok []) (λ _, Ok (PersonalInfo.mk None None None None))
              (λ _ _, Ok None) "scan.png" (Some "image/png") [] _ None None
              None eq_refl eq_refl eq_refl eq_refl eq_refl eq_refl eq_refl)
    as (data & Hdata & _ & _ & Herror).
  exists data. split; [exact Hdata|]. exact (Herror _ eq_refl).
Defined.

(** ** The lines of the recognised text *)

Section Lines.

Lemma split_lines_go_app cur a s :
  has_line_feed a = false →
  split_lines_go cur (a +:+ s) = split_lines_go (String.rev_app a cur) s.
Proof.
  revert cur. induction a as [|c a IH]; intros cur; [done|].
  cbn [has_line_feed]. intros [Hc Ha]%orb_false_iff.
  change (String c a +:+ s) with (String c (a +:+ s)).
  cbn [split_lines_go String.rev_app]. rewrite Hc. by apply IH.
Qed.

Lemma str_app_empty_r a : a +:+ EmptyString = a.
Proof.
  induction a as [|c a IH]; [done|].
  change (String c a +:+ EmptyString) with (String c (a +:+ EmptyString)).
  by rewrite IH.
Qed.

Lemma rev_app_rev_app a b c :
  String.rev_app (String.rev_app a b) c = String.rev_app b (a +:+ c).
Proof.
  revert b. induction a as [|x a IH]; intros b; [done|].
  cbn [String.rev_app]. rewrite IH. reflexivity.
Qed.

Lemma rev_rev_app a : String.rev (String.rev_app a EmptyString) = a.
Proof.
  unfold String.rev. rewrite rev_app_rev_app. cbn [String.rev_app].
  apply str_app_empty_r.
Qed.

Lemma split_lines_one a :
  has_line_feed a = false → split_lines a = [a].
Proof.
  intros Ha. unfold split_lines.
  rewrite <- (str_app_empty_r a) at 1.
  rewrite split_lines_go_app by done. cbn [split_lines_go].
  by rewrite rev_rev_app.
Qed.

(** The lines of joined lines are the lines that were joined. *)
Lemma split_lines_join_lines lines :
  lines ≠ [] → Forall (λ line, has_line_feed line = false) lines →
  split_lines (join_lines lines) = lines.
Proof.
  intros Hne Hlines. induction Hlines as [|x l Hx Hl IH]; [done|].
  destruct l as [|y l].
  - by apply split_lines_one.
  - unfold join_lines in *.
    change (String.concat (String "010" EmptyString) (x :: y :: l))
      with (x +:+ String "010"
              (String.concat (String "010" EmptyString) (y :: l))).
    unfold split_lines. rewrite split_lines_go_app by done.
    cbn [split_lines_go]. rewrite (Ascii.eqb_refl "010"), rev_rev_app.
    f_equal. by apply IH.
Qed.

Lemma has_line_feed_rev_app a b :
  has_line_feed (String.rev_app a b) = has_line_feed a || has_line_feed b.
Proof.
  revert b. induction a as [|c a IH]; intros b; [done|].
  cbn [String.rev_app has_line_feed]. rewrite IH. cbn [has_line_feed].
  by destruct (Ascii.eqb c "010"), (has_line_feed a), (has_line_feed b).
Qed.

Lemma split_lines_go_no_feed cur s :
  has_line_feed cur = false →
  Forall (λ line, has_line_feed line = false) (split_lines_go cur s).
Proof.
  revert cur. induction s as [|c s IH]; intros cur Hcur;
    cbn [split_lines_go].
  - repeat constructor. unfold String.rev.
    by rewrite has_line_feed_rev_app, Hcur.
  - destruct (Ascii.eqb c "010") eqn:Hc.
    + constructor; [|by apply IH].
      unfold String.rev. by rewrite has_line_feed_rev_app, Hcur.
    + apply IH. cbn [has_line_feed]. by rewrite Hc, Hcur.
Qed.

Lemma has_line_feed_lstrip s :
  has_line_feed s = false → has_line_feed (lstrip s) = false.
Proof.
  induction s as [|c s IH]; [done|]. cbn [lstrip].
  destruct (isspace c); [|done].
  cbn [has_line_feed]. intros [_ Hs]%orb_false_iff. by apply IH.
Qed.

Lemma has_line_feed_rstrip s :
  has_line_feed s = false → has_line_feed (rstrip s) = false.
Proof.
  induction s as [|c s IH]; [done|].
  cbn [has_line_feed]. intros [Hc Hs]%orb_false_iff.
  rewrite rstrip_cons. specialize (IH Hs).
  destruct (rstrip s) as [|c' r'].
  - destruct (isspace c); [done|]. cbn [has_line_feed]. by rewrite Hc.
  - cbn [has_line_feed] in *. by rewrite Hc, IH.
Qed.

Lemma post_process_lines text :
  let lines :=
    map strip
        (filter (λ line, truthy_str (Some (strip line)) = true)
                (split_lines text)) in
  Forall clean_line lines
  ∧ Forall (λ line, has_line_feed line = false) lines.
Proof.
  cbv zeta. split; apply Forall_forall;
    intros line (raw & -> & [Htruthy Hraw]%list_elem_of_filter)%elem_of_map.
  - split; [|apply strip_strip].
    intros Hnil. rewrite Hnil in Htruthy. done.
  - apply has_line_feed_rstrip, has_line_feed_lstrip.
    pose proof (split_lines_go_no_feed EmptyString text eq_refl) as Hall.
    rewrite Forall_forall in Hall. by apply Hall.
Qed.

End Lines.

(** X22.  The text that [_post_process_text] returns is empty, or every
    line of it is a line that is not blank and has no white space around
    it. *)
Theorem X22_the_processed_text_has_clean_lines :
  ∀ text,
    OCREngine._post_process_text text = EmptyString
    ∨ Forall clean_line (split_lines (OCREngine._post_process_text text)).
Proof.
  intros text. unfold OCREngine._post_process_text.
  set (corrected := fold_left _ OCREngine.corrections text).
  destruct (post_process_lines corrected) as [Hclean Hfeed].
  cbv zeta in Hclean, Hfeed.
  destruct (map strip _) as [|line lines] eqn:Hlines; [by left|].
  right. rewrite split_lines_join_lines; done.
Qed.

(** ** The tips *)

(** X23.  The tips of a round are those of every earlier round, in the same
    order, and more: [_generate_tips] gives four tips for the first round,
    seven for the second and ten from the third round on. *)
Theorem X23_the_tips_grow_with_the_rounds :
  ∀ round_number later_round,
    round_number ≤ later_round →
    StrategyBuilder._generate_tips round_number
    `prefix_of` StrategyBuilder._generate_tips later_round
    ∧ length (StrategyBuilder._generate_tips round_number)
      = if 3 <=? round_number then 10%nat
        else if 1 <? round_number then 7%nat else 4%nat.
Proof.
  intros r1 r2 Hle. unfold StrategyBuilder._generate_tips.
  destruct (Z.ltb_spec 1 r1), (Z.leb_spec 3 r1), (Z.ltb_spec 1 r2),
    (Z.leb_spec 3 r2); try lia;
    (split; [by eexists | reflexivity]).
Qed.

(** The first round and the third *)
Lemma X23_tips_witness :
  StrategyBuilder._generate_tips 1 `prefix_of` StrategyBuilder._generate_tips 3
  ∧ length (StrategyBuilder._generate_tips 1) = 4%nat
  ∧ length (StrategyBuilder._generate_tips 3) = 10%nat.
Proof.
  destruct (X23_the_tips_grow_with_the_rounds 1 3) as [Hprefix Hlength];
    [lia|].
  split; [exact Hprefix|]. split; [exact Hlength | reflexivity].
Defined.
